(** * RoomBrain: task assignment, hauler sizing and the spawn scheduler

    A shallow embedding of [src/brains/Brain_Room.ts] (class [RoomBrain]).

    Conventions of the embedding:
    - game quantities that Screeps keeps as integers (hit points, energy,
      amounts, controller level) are [Z];
    - the hauler calculation, whose ratios leave the integers, is carried
      out in IEEE binary64 (module [B64], on the library's [spec_float]);
      the one comparison [s.hits < 0.7 * s.hitsMax] of the repair filter is
      taken in exact rationals [Q];
    - [this.room], the creeps and the targeting cache are explicit
      arguments; the spawn scheduler runs in a small state monad that logs
      every collaborator call;
    - the nine task-type strings that key [taskPriorities],
      [taskToExecute], [assignmentRoles] and [assignmentConditions] are the
      constructors of [TaskType]; role names and task names stay strings. *)

From Stdlib Require Import ZArith QArith Qround SpecFloat String List Bool Lia Sorted.
From stdpp Require Import gmap strings list.
Import ListNotations.

Close Scope Q_scope.
Open Scope string_scope.
Open Scope Z_scope.

(** ** Screeps objects, as far as [RoomBrain] reads them *)

Inductive BodyPart := MOVE | WORK | CARRY | ATTACK | RANGED_ATTACK | HEAL | CLAIM | TOUGH.

Definition STRUCTURE_CONTAINER : string := "container".
Definition STRUCTURE_ROAD : string := "road".

Record RoomPosition := mkPos { pos_x : Z; pos_y : Z; pos_roomName : string }.

(** A [RoomObject] as the duck-typed value the source handles: one record
    with every property some branch of [getTasks] or [assignTask] reads.
    [objId] is the game id; [targetedBy] is looked up through it. *)
Record RoomObject := mkObj {
  objId : string;
  pos : RoomPosition;
  structureType : string;
  hits : Z;
  hitsMax : Z;
  energy : Z;            (* tower / sink energy *)
  energyCapacity : Z;
  store_energy : Z;      (* container.store[RESOURCE_ENERGY] *)
  amount : Z             (* dropped resource amount *)
}.

Record Controller := mkController {
  controller_object : RoomObject;
  level : Z;
  my : bool
}.

Record StructureSpawn := mkSpawn {
  spawn_name : string;
  spawning : bool                          (* truthiness of spawn.spawning *)
}.

Record Storage := mkStorage {
  storage_linked : bool
}.

Record Source := mkSource {
  source_linked : bool;
  pathLengthToStorage : Z
}.

Record Room := mkRoom {
  room_name : string;
  controller : option Controller;
  spawns : list StructureSpawn;
  storage : option Storage;
  energyCapacityAvailable : Z;
  find_dropped_energy : list RoomObject;   (* room.find(FIND_DROPPED_ENERGY) *)
  containers : list RoomObject;
  towers : list RoomObject;
  sinks : list RoomObject;
  repairables : list RoomObject;
  structureSites : list RoomObject;
  roadSites : list RoomObject;
  barriers : list RoomObject
}.

Record Creep := mkCreep {
  creep_name : string;
  memory_role : string;                     (* creep.memory.role *)
  getActiveBodyparts : BodyPart -> Z;
  carry_energy : Z;                         (* creep.carry.energy *)
  carryCapacity : Z;
  creep_room : string;                      (* name of creep.room *)
  creep_pos : RoomPosition
}.

(** [maxPerTarget] is a JS number and may be [Infinity]. *)
Inductive Cap := Finite (n : nat) | Infinity.

Definition below (n : nat) (c : Cap) : bool :=
  match c with
  | Finite m => (n <? m)%nat
  | Infinity => true
  end.

Record Task := mkTask {
  task_name : string;
  target : RoomObject;
  maxPerTarget : Cap
}.

(** The targeting cache behind [RoomObject.targetedBy]: for every object
    id, the names of the creeps whose task targets it. It belongs to the
    object, not to a [Task]: two tasks on one target read the same list. *)
Definition targetedBy (cache : gmap string (list string)) (o : RoomObject) : list string :=
  default [] (cache !! objId o).

(** ** The task tables of the constructor *)

Inductive TaskType :=
  | supplyTowers | supply | pickup | collect | repair
  | build | buildRoads | fortify | upgrade.

#[global] Instance TaskType_eq_dec : EqDecision TaskType.
Proof. solve_decision. Defined.

Definition taskPriorities : list TaskType :=
  [supplyTowers; supply; pickup; collect; repair; build; buildRoads; fortify; upgrade].

Definition taskToExecute (taskType : TaskType) : string :=
  match taskType with
  | pickup => "pickup"
  | collect => "recharge"
  | supplyTowers => "supply"
  | supply => "supply"
  | repair => "repair"
  | build => "build"
  | buildRoads => "build"
  | fortify => "fortify"
  | upgrade => "upgrade"
  end.

(** The position of a task type in [taskPriorities]. *)
Definition priorityIndex (taskType : TaskType) : nat :=
  match taskType with
  | supplyTowers => 0 | supply => 1 | pickup => 2 | collect => 3 | repair => 4
  | build => 5 | buildRoads => 6 | fortify => 7 | upgrade => 8
  end.

Definition includes (l : list string) (s : string) : bool :=
  existsb (String.eqb s) l.

Definition defaultAssignmentRoles (taskType : TaskType) : list string :=
  match taskType with
  | pickup => []
  | collect => ["hauler"]
  | supplyTowers => ["supplier"; "hauler"]
  | supply => ["supplier"; "hauler"]
  | repair => ["worker"; "miner"; "guard"]
  | build => ["worker"; "miner"]
  | buildRoads => ["worker"; "guard"]
  | fortify => ["worker"]
  | upgrade => ["worker"; "upgrader"]
  end.

(** [this.assignmentRoles['upgrade'] = ['upgrader']] *)
Definition setRoles (roles : TaskType -> list string) (k : TaskType) (v : list string)
  : TaskType -> list string :=
  fun taskType => if decide (taskType = k) then v else roles taskType.

Definition assignmentConditions (taskType : TaskType) (creep : Creep) : bool :=
  match taskType with
  | pickup | collect =>
      (0 <? getActiveBodyparts creep CARRY) && (carry_energy creep <? carryCapacity creep)
  | supplyTowers | supply =>
      (0 <? getActiveBodyparts creep CARRY) && (0 <? carry_energy creep)
  | repair | build | buildRoads | fortify | upgrade =>
      (0 <? getActiveBodyparts creep WORK) && (0 <? carry_energy creep)
  end.

(** ** The brain *)

Record RoomBrain := mkBrain {
  room : Room;
  spawn : option StructureSpawn;
  incubating : bool;
  fortifyLevel : Z;                              (* this.settings.fortifyLevel *)
  override_fortifyLevel : gmap string Z;         (* this.override.fortifyLevel *)
  assignmentRoles : TaskType -> list string
}.

(** The constructor. [incubating] is what the flag filter of the source
    yields; the flags themselves are not read anywhere else in the model. *)
Definition newRoomBrain (r : Room) (incub : bool) : RoomBrain :=
  let settings_fortifyLevel :=
    match controller r with
    | Some c => Z.min (10 ^ Z.max (level c) 3) 1000000
    | None => 1000000
    end in
  {| room := r;
     spawn := head (List.filter (fun spawn => negb (spawning spawn)) (spawns r));
     incubating := incub;
     fortifyLevel := if incub then 10000 else settings_fortifyLevel;
     override_fortifyLevel := ∅;
     assignmentRoles :=
       match controller r with
       | Some c => if level c =? 8
                   then setRoles defaultAssignmentRoles upgrade ["upgrader"]
                   else defaultAssignmentRoles
       | None => defaultAssignmentRoles
       end |}.

(** [a < b] on rationals, as a boolean. *)
Definition Qltb (a b : Q) : bool := negb (Qle_bool b a).

(** The filter of the ['repair'] case:
    [s.hits < s.hitsMax && (type != CONTAINER || s.hits < 0.7 * s.hitsMax)
                        && (type != ROAD || s.hits < 0.7 * s.hitsMax)].
    Hit points are integers; the product is taken exactly. *)
Definition needsRepair (s : RoomObject) : bool :=
  (hits s <? hitsMax s)
  && (negb (structureType s =? STRUCTURE_CONTAINER)%string
      || Qltb (inject_Z (hits s)) ((7 # 10) * inject_Z (hitsMax s))%Q)
  && (negb (structureType s =? STRUCTURE_ROAD)%string
      || Qltb (inject_Z (hits s)) ((7 # 10) * inject_Z (hitsMax s))%Q).

(** [_.sortBy(collection, iteratee)]: a stable sort, ascending in the key. *)
Fixpoint insertBy {A} (key : A -> Z) (a : A) (l : list A) : list A :=
  match l with
  | [] => [a]
  | b :: l' => if key a <=? key b then a :: b :: l' else b :: insertBy key a l'
  end.

Definition sortBy {A} (l : list A) (key : A -> Z) : list A :=
  foldr (insertBy key) [] l.

(** [a] is the element [_.sortBy(l, key)[0]] picks: the first one of [l]
    among those of least key. *)
Definition firstMinimum {A} (key : A -> Z) (l : list A) (a : A) : Prop :=
  exists pre post,
    l = (pre ++ a :: post)%list
    /\ (forall x, In x pre -> key a < key x)
    /\ (forall x, In x post -> key a <= key x).

(** What [Game] holds and [assignTask] can reach: the targeting cache and
    the ids [Game.getObjectById] still resolves. *)
Record Game := mkGame {
  cache : gmap string (list string);
  liveObjects : gset string
}.

Section Tasks.

(** The [maxPerTarget] each task class sets, by task name. *)
Variable maxPerTargetOf : string -> Cap.

(** Modelled from the spec: the task classes ([tasks/task_*.ts]) are not
    part of the sources at hand. A WorkItem has its category tag, its
    target and its cap: each [new taskX(target)] is taken to build a task
    named as [taskToExecute] names it, on the given target, with the
    class's [maxPerTarget]. *)
Definition newTask (name : string) (t : RoomObject) : Task :=
  {| task_name := name; target := t; maxPerTarget := maxPerTargetOf name |}.

Definition taskPickup := newTask "pickup".
Definition taskRecharge := newTask "recharge".
Definition taskSupply := newTask "supply".
Definition taskRepair := newTask "repair".
Definition taskBuild := newTask "build".
Definition taskFortify := newTask "fortify".
Definition taskUpgrade := newTask "upgrade".

Definition getTasks (b : RoomBrain) (taskType : TaskType) : list Task :=
  match taskType with
  | pickup =>
      map taskPickup
          (List.filter (fun drop => 100 <? amount drop) (find_dropped_energy (room b)))
  | collect =>
      map taskRecharge
          (List.filter (fun container => 1000 <? store_energy container) (containers (room b)))
  | supplyTowers =>
      map taskSupply
          (List.filter (fun tower => energy tower <? energyCapacity tower) (towers (room b)))
  | supply =>
      map taskSupply
          (List.filter (fun s => energy s <? energyCapacity s) (sinks (room b)))
  | repair =>
      map taskRepair (List.filter needsRepair (repairables (room b)))
  | build => map taskBuild (structureSites (room b))
  | buildRoads => map taskBuild (roadSites (room b))
  | fortify =>
      let fortifyLevel :=
        match override_fortifyLevel b !! room_name (room b) with
        | Some v => if v =? 0 then fortifyLevel b else v
        | None => fortifyLevel b
        end in
      map taskFortify (List.filter (fun s => hits s <? fortifyLevel) (barriers (room b)))
  | upgrade =>
      match controller (room b) with
      | Some c => if my c then map taskUpgrade [controller_object c] else []
      | None => []
      end
  end.

(** [task.target.targetedBy.length < task.maxPerTarget] *)
Definition uncapped (cache : gmap string (list string)) (task : Task) : bool :=
  below (length (targetedBy cache (target task))) (maxPerTarget task).

Fixpoint getMostUrgentTask (b : RoomBrain) (cache : gmap string (list string))
         (tasksToGet : list TaskType) : list Task :=
  match tasksToGet with
  | [] => []
  | taskType :: rest =>
      let tasks := List.filter (uncapped cache) (getTasks b taskType) in
      match tasks with
      | [] => getMostUrgentTask b cache rest
      | _ :: _ => tasks
      end
  end.

(** The task type at which the loop of [getMostUrgentTask] returns: the
    first one of [tasksToGet] with a task left after the cap filter. It is
    not a function of the source; the statements use it to name the
    category an assignment comes from. *)
Definition chosenTaskType (b : RoomBrain) (cache : gmap string (list string))
           (tasksToGet : list TaskType) : option TaskType :=
  List.find (fun taskType =>
               negb (Nat.eqb (length (List.filter (uncapped cache) (getTasks b taskType))) 0))
            tasksToGet.

Definition applicableTasks (b : RoomBrain) (creep : Creep) : list TaskType :=
  List.filter (fun task => includes (assignmentRoles b task) (memory_role creep)
                           && assignmentConditions task creep)
              taskPriorities.

(** [creep.pos.getRangeTo(target)] is the Screeps range oracle. *)
Variable getRangeTo : RoomPosition -> RoomObject -> Z.

(** [assignTask] up to the call [creep.assign(task)]: the value of the
    local [task], [None] where the source falls through to [return ""]. *)
Definition selectTask (b : RoomBrain) (g : Game) (creep : Creep) : option Task :=
  let tasks := getMostUrgentTask b (cache g) (applicableTasks b creep) in
  match tasks with
  | [] => None
  | first :: _ =>
      if (task_name first =? "fortify")%string then
        head (sortBy tasks (fun task => hits (target task)))
      else if (creep_room creep =? room_name (room b))%string then
        head (sortBy tasks (fun task => getRangeTo (creep_pos creep) (target task)))
      else
        head tasks
  end.

(** Modelled from the spec: [Creep.assign] (prototypes of [Creep], not in
    the sources at hand). Spec 7, StaleTargetReference: the commit step
    re-validates that the target exists and does not commit to a dead
    target. Spec 4.3 step 5: the commit increases the WorkItem's
    committed-agent count; here the creep's name joins the [targetedBy]
    list of the task's target. The call gets the one task it is handed; a
    target the game no longer resolves leaves the game as it is. *)
Definition creep_assign (creep : Creep) (task : Task) (g : Game) : Game :=
  if decide (objId (target task) ∈ liveObjects g) then
    {| cache := <[objId (target task) :=
                    (targetedBy (cache g) (target task) ++ [creep_name creep])%list]> (cache g);
       liveObjects := liveObjects g |}
  else g.

(** [assignTask]: the task handed to [creep.assign], if any, and the game
    after the call. *)
Definition assignTask (b : RoomBrain) (creep : Creep) (g : Game) : option Task * Game :=
  match selectTask b g creep with
  | Some task => (Some task, creep_assign creep task g)
  | None => (None, g)
  end.

(** One cycle: the idle creeps are served one after the other. *)
Fixpoint assignAll (b : RoomBrain) (creeps : list Creep) (g : Game) : Game :=
  match creeps with
  | [] => g
  | creep :: rest => assignAll b rest (snd (assignTask b creep g))
  end.

(** The assignments of one cycle, in the order they are made: the creeps
    that were committed, each with the item it was committed to. It is not
    a function of the source; the statements use it to count the creeps
    committed to an item. *)
Fixpoint assignLog (b : RoomBrain) (creeps : list Creep) (g : Game) : list (Creep * Task) :=
  match creeps with
  | [] => []
  | creep :: rest =>
      let later := assignLog b rest (snd (assignTask b creep g)) in
      match fst (assignTask b creep g) with
      | Some task =>
          if decide (objId (target task) ∈ liveObjects g)
          then (creep, task) :: later
          else later
      | None => later
      end
  end.

End Tasks.

(** ** Hauler sizing *)

(** JS numbers are IEEE binary64. The ratios of the hauler calculation do
    not stay in the integers and their rounding shows in the result, so
    this part of the source is evaluated on [spec_float] at precision 53. *)
Module B64.

Definition prec : Z := 53.
Definition emax : Z := 1024.

Definition of_Z (z : Z) : spec_float := binary_normalize prec emax z 0 false.
Definition mul : spec_float -> spec_float -> spec_float := SFmul prec emax.
Definition div : spec_float -> spec_float -> spec_float := SFdiv prec emax.
Definition ltb : spec_float -> spec_float -> bool := SFltb.

(** The exact value of a finite number, as a signed mantissa and exponent. *)
Definition mantissa (s : bool) (m : positive) : Z := if s then Z.neg m else Z.pos m.

(** [Math.ceil] and [Math.floor]: infinities, NaN and zeros are returned
    as they are. *)
Definition ceil (f : spec_float) : spec_float :=
  match f with
  | S754_finite s m e =>
      of_Z (if 0 <=? e then mantissa s m * 2 ^ e else - ((- mantissa s m) / 2 ^ (- e)))
  | _ => f
  end.

Definition floor (f : spec_float) : spec_float :=
  match f with
  | S754_finite s m e =>
      of_Z (if 0 <=? e then mantissa s m * 2 ^ e else mantissa s m / 2 ^ (- e))
  | _ => f
  end.

(** [Math.min] of two numbers: NaN if either is. *)
Definition min (a b : spec_float) : spec_float :=
  match a, b with
  | S754_nan, _ | _, S754_nan => S754_nan
  | _, _ => if SFltb b a then b else a
  end.

End B64.

Section Haulers.

(** [new roleHauler().settings.bodyPattern] and [spawn.cost(pattern)] come
    from the role and spawn prototypes, which are not part of the sources
    at hand: both are parameters. *)
Variable haulerBodyPattern : list BodyPart.
Variable spawn_cost : list BodyPart -> Z.

Definition isCarry (part : BodyPart) : bool :=
  match part with CARRY => true | _ => false end.

Definition calculateHaulerSize (target : Source) : spec_float :=
  let tripLength := B64.mul (B64.of_Z 2) (B64.of_Z (pathLengthToStorage target)) in
  let carryPartsPerRepetition :=
    B64.of_Z (Z.of_nat (length (List.filter isCarry haulerBodyPattern))) in
  let energyPerTripPerRepetition := B64.mul (B64.of_Z 50) carryPartsPerRepetition in
  let energyPerTickPerRepetition := B64.div energyPerTripPerRepetition tripLength in
  let sourceEnergyPerTick := B64.div (B64.of_Z 3000) (B64.of_Z 300) in
  let sizeRequiredForEquilibrium := B64.div sourceEnergyPerTick energyPerTickPerRepetition in
  B64.ceil (B64.mul (B64.div (B64.of_Z 11) (B64.of_Z 10)) sizeRequiredForEquilibrium).

(** Lines 336-344: one hauler unless the required size is above the
    largest affordable one; then the number is the ratio rounded up and
    the size is cut back. The result is [[haulerSize, numHaulers]]. *)
Definition splitHaulers (haulerSize maxHaulerSize : spec_float) : spec_float * spec_float :=
  if B64.ltb maxHaulerSize haulerSize then
    let numHaulers := B64.div haulerSize maxHaulerSize in
    let haulerSize' :=
      B64.ceil (B64.mul maxHaulerSize (B64.div numHaulers (B64.ceil numHaulers))) in
    (haulerSize', B64.ceil numHaulers)
  else
    (haulerSize, B64.of_Z 1).

Definition maxHaulerSize (b : RoomBrain) : spec_float :=
  B64.min (B64.floor (B64.div (B64.of_Z (energyCapacityAvailable (room b)))
                              (B64.of_Z (spawn_cost haulerBodyPattern))))
          (B64.div (B64.of_Z 50) (B64.of_Z (Z.of_nat (length haulerBodyPattern)))).

Definition calculateHaulerRequirements (b : RoomBrain) (target : Source)
  : spec_float * spec_float :=
  match spawn b, storage (room b) with
  | Some _, Some st =>
      if source_linked target && storage_linked st then (B64.of_Z 0, B64.of_Z 0)
      else splitHaulers (calculateHaulerSize target) (maxHaulerSize b)
  | _, _ => (B64.of_Z 0, B64.of_Z 0)
  end.

End Haulers.

(** ** The spawn scheduler *)

Inductive Stage := Core | Incubation | Assigned | Inferred.

#[global] Instance Stage_eq_dec : EqDecision Stage.
Proof. solve_decision. Defined.

Record protoCreep := mkProto {
  proto_body : list BodyPart;
  proto_name : string;
  proto_memory : string
}.

(** What a stage hands back when it is not [null]: a [protoCreep], or the
    string that [handleCoreSpawnOperations] returns while renewing. *)
Inductive Response :=
  | Proto (creep : protoCreep)
  | Message (text : string).

Definition response_body (r : Response) : option (list BodyPart) :=
  match r with Proto c => Some (proto_body c) | Message _ => None end.
Definition response_name (r : Response) : option string :=
  match r with Proto c => Some (proto_name c) | Message _ => None end.
Definition response_memory (r : Response) : option string :=
  match r with Proto c => Some (proto_memory c) | Message _ => None end.

(** Calls observed from outside: a stage of [prioritizedSpawnOperations]
    was run (and whether its answer was non-null), or [createCreep] was
    called on the spawn. *)
Inductive Event :=
  | Evaluated (stage : Stage) (answered : bool)
  | CreateCreep (body : option (list BodyPart)) (name : option string)
                (memory : option string).

Section SpawnOperations.

(** The game state the handlers read and write, and what
    [spawn.createCreep] returns. *)
Variable World : Type.
Variable CreateResult : Type.

(** State monad over the world, with a log of observed calls. *)
Definition M (A : Type) : Type := World -> A * World * list Event.

Definition ret {A} (a : A) : M A := fun w => (a, w, []).

Definition bind {A B} (m : M A) (k : A -> M B) : M B :=
  fun w =>
    let '(a, w1, l1) := m w in
    let '(b, w2, l2) := k a w1 in
    (b, w2, (l1 ++ l2)%list).

Definition tell (e : Event) : M unit := fun w => (tt, w, [e]).

Definition lift {A} (f : World -> A * World) : M A :=
  fun w => let '(a, w') := f w in (a, w', []).

Notation "'let!' x := m 'in' k" := (bind m (fun x => k))
  (at level 10, x name, m at level 100, k at level 200, only parsing).
Notation "'run!' m 'in' k" := (bind m (fun _ => k))
  (at level 10, m at level 100, k at level 200, only parsing).

(** A computation that logs nothing. *)
Definition silent {A} (m : M A) : Prop := forall w, snd (m w) = [].

(** The loop shared by the handler lists:
    [for (let handler of handlers) { r = handler(); if (r != null) return r; }]
    with [None] for falling out of the loop. *)
Fixpoint firstNonNull {A} (handlers : list (M (option A))) : M (option A) :=
  match handlers with
  | [] => ret None
  | handler :: rest =>
      let! handleResponse := handler in
      match handleResponse with
      | Some r => ret (Some r)
      | None => firstNonNull rest
      end
  end.

(** The role handlers, the two flag-driven stages, the renewal lookup and
    the spawn's [createCreep] are taken as arbitrary state transformers:
    what is stated about the scheduler holds whatever they compute. *)
Variable handleSuppliers : World -> option protoCreep * World.
Variable handleLinkers : World -> option protoCreep * World.
Variable handleMineralSuppliers : World -> option protoCreep * World.
Variable handleMiners : World -> option protoCreep * World.
Variable handleHaulers : World -> option protoCreep * World.
Variable handleWorkers : World -> option protoCreep * World.
Variable handleUpgraders : World -> option protoCreep * World.
Variable creepsNeedingRenewal : World -> list string.
Variable handleIncubationSpawnOperations : World -> option protoCreep * World.
Variable handleAssignedSpawnOperations : World -> option protoCreep * World.
Variable handleRemoteHaulers : World -> option protoCreep * World.
Variable createCreep :
  option (list BodyPart) -> option string -> option string -> World -> CreateResult * World.

Definition asResponse (h : World -> option protoCreep * World) : M (option Response) :=
  let! r := lift h in ret (option_map Proto r).

Definition handleCoreSpawnOperations : M (option Response) :=
  let prioritizedDomesticOperations :=
    [ asResponse handleSuppliers;
      asResponse handleLinkers;
      asResponse handleMineralSuppliers;
      asResponse handleMiners;
      asResponse handleHaulers;
      asResponse handleWorkers;
      asResponse handleUpgraders ] in
  let! handleResponse := firstNonNull prioritizedDomesticOperations in
  match handleResponse with
  | Some r => ret (Some r)
  | None =>
      let! renewal := lift (fun w => (creepsNeedingRenewal w, w)) in
      if (0 <? length renewal)%nat
      then ret (Some (Message "renewing (renew call is done through task_getRenewed.work)"))
      else ret None
  end.

Definition handleInferredSpawnOperations : M (option Response) :=
  firstNonNull [ asResponse handleRemoteHaulers ].

Definition isSome {A} (o : option A) : bool :=
  match o with Some _ => true | None => false end.

(** The entries of [prioritizedSpawnOperations]. *)
Definition spawnOperation (s : Stage) : M (option Response) :=
  match s with
  | Core => handleCoreSpawnOperations
  | Incubation => asResponse handleIncubationSpawnOperations
  | Assigned => asResponse handleAssignedSpawnOperations
  | Inferred => handleInferredSpawnOperations
  end.

(** The call [spawnThis()], with its evaluation logged. *)
Definition stage (s : Stage) : M (option Response) :=
  let! creep := spawnOperation s in
  run! tell (Evaluated s (isSome creep)) in
  ret creep.

Definition prioritizedSpawnOperations : list Stage :=
  [Core; Incubation; Assigned; Inferred].

(** The loop of [handleSpawnOperations]. *)
Fixpoint spawnLoop (stages : list Stage) : M (option CreateResult) :=
  match stages with
  | [] => ret None
  | spawnThis :: rest =>
      let! creep := stage spawnThis in
      match creep with
      | Some c =>
          run! tell (CreateCreep (response_body c) (response_name c) (response_memory c)) in
          let! r := lift (createCreep (response_body c) (response_name c) (response_memory c)) in
          ret (Some r)
      | None => spawnLoop rest
      end
  end.

Definition handleSpawnOperations (b : RoomBrain) : M (option CreateResult) :=
  match spawn b with
  | Some s =>
      if negb (spawning s) then spawnLoop prioritizedSpawnOperations else ret None
  | None => ret None
  end.

End SpawnOperations.

(** ** Notions the statements use *)

(** A count within a cap. *)
Definition within (n : nat) (c : Cap) : Prop :=
  match c with
  | Finite m => (n <= m)%nat
  | Infinity => True
  end.

(** Two tasks are the same WorkItem when they have the same category name
    and the same target. *)
Definition sameItem (t1 t2 : Task) : bool :=
  (task_name t1 =? task_name t2)%string && (objId (target t1) =? objId (target t2))%string.

(** The number of creeps a list of assignments commits to an item. *)
Definition committedTo (task : Task) (assignments : list (Creep * Task)) : nat :=
  length (List.filter (fun a => sameItem task (snd a)) assignments).


(** The guard of [handleSpawnOperations]: [this.spawn && !this.spawn.spawning]. *)
Definition spawnAvailable (b : RoomBrain) : bool :=
  match spawn b with
  | Some s => negb (spawning s)
  | None => false
  end.

(** What the log of a scheduler run shows. *)
Definition stagesEvaluated (log : list Event) : list Stage :=
  omap (fun e => match e with Evaluated s _ => Some s | CreateCreep _ _ _ => None end) log.

Definition stagesAnswered (log : list Event) : list Stage :=
  omap (fun e => match e with Evaluated s true => Some s | _ => None end) log.

Definition createCalls (log : list Event) : nat :=
  length (List.filter (fun e => match e with CreateCreep _ _ _ => true | _ => false end) log).

(** Reading a binary64 value back as the integer it is, if it is one. *)
Definition b64_to_Z (f : spec_float) : option Z :=
  match f with
  | S754_zero _ => Some 0
  | S754_finite s m e =>
      if 0 <=? e then Some (B64.mantissa s m * 2 ^ e)
      else if B64.mantissa s m mod 2 ^ (- e) =? 0
           then Some (B64.mantissa s m / 2 ^ (- e))
           else None
  | _ => None
  end.

(** [0.7 * hitsMax] as binary64 evaluates it, and whether the comparison
    of the repair filter comes out in binary64 as it does in exact
    arithmetic. *)
Definition b64_threshold (hmax : Z) : spec_float :=
  B64.mul (B64.div (B64.of_Z 7) (B64.of_Z 10)) (B64.of_Z hmax).

Definition thresholdAgrees (h hmax : Z) : bool :=
  Bool.eqb (B64.ltb (B64.of_Z h) (b64_threshold hmax))
           (Qltb (inject_Z h) ((7 # 10) * inject_Z hmax)%Q).

(** The integers from [lo] on, [n] of them. *)
Definition Zrange (lo : Z) (n : nat) : list Z :=
  map (fun i => lo + Z.of_nat i) (seq 0 n).

(** The facts about one split at an integer maximum size, as a boolean:
    both results are integers, the number is the ratio rounded up, the
    haulers together carry at least the required size, none is larger
    than the maximum, and the size is less than two above the even share. *)
Definition splitCheck (required maxSize : Z) : bool :=
  let '(size, number) := splitHaulers (B64.of_Z required) (B64.of_Z maxSize) in
  match b64_to_Z size, b64_to_Z number with
  | Some haulerSize, Some numHaulers =>
      (numHaulers =? Qceiling (inject_Z required / inject_Z maxSize)%Q)
      && ((numHaulers - 1) * maxSize <? required)
      && (required <=? numHaulers * maxSize)
      && (required <=? haulerSize * numHaulers)
      && (haulerSize <=? maxSize)
      && (haulerSize * numHaulers <? required + 2 * numHaulers)
  | _, _ => false
  end.

(** The same at the other arm of [Math.min], [50 / pattern.length], which
    need not be an integer: the results are integers and the haulers
    together carry at least the required size. *)
Definition splitCheckFraction (required len : Z) : bool :=
  let maxSize := B64.div (B64.of_Z 50) (B64.of_Z len) in
  if B64.ltb maxSize (B64.of_Z required) then
    let '(size, number) := splitHaulers (B64.of_Z required) maxSize in
    match b64_to_Z size, b64_to_Z number with
    | Some haulerSize, Some numHaulers =>
        (0 <? numHaulers) && (required <=? haulerSize * numHaulers)
    | _, _ => false
    end
  else true.

(** ** Fixtures for the examples *)

Definition exampleCaps (name : string) : Cap :=
  if (name =? "build")%string then Finite 3
  else if (name =? "recharge")%string then Infinity
  else Finite 1.

(** The range of Screeps within one room: the larger coordinate gap. *)
Definition rangeTo (p : RoomPosition) (o : RoomObject) : Z :=
  Z.max (Z.abs (pos_x p - pos_x (pos o))) (Z.abs (pos_y p - pos_y (pos o))).

Definition at_ (x y : Z) : RoomPosition := mkPos x y "W1N1".

Definition structure (id : string) (p : RoomPosition) (type : string) (h hmax : Z) : RoomObject :=
  mkObj id p type h hmax 0 0 0 0.

Definition exampleController (lvl : Z) : Controller :=
  mkController (structure "ctrl" (at_ 25 25) "controller" 0 0) lvl true.

Definition emptyRoom (lvl : Z) : Room :=
  mkRoom "W1N1" (Some (exampleController lvl))
         [mkSpawn "Spawn1" false] (Some (mkStorage false)) 1500
         [] [] [] [] [] [] [] [].

Definition noTargets : Game := mkGame ∅ ∅.

Definition bodyOf (role : string) (p : BodyPart) : Z :=
  match p with
  | MOVE => 1
  | WORK => if (role =? "worker")%string || (role =? "upgrader")%string then 1 else 0
  | CARRY => 1
  | _ => 0
  end.

(** A creep of the given role carrying [load] of 50 energy, at [p]. *)
Definition exampleCreep (name role : string) (load : Z) (roomName : string) (p : RoomPosition)
  : Creep :=
  mkCreep name role (bodyOf role) load 50 roomName p.

(** Three barriers with hit points 500, 2000 and 100; nothing else to do. *)
Definition wall500 := structure "wallA" (at_ 10 10) "constructedWall" 500 300000000.
Definition wall2000 := structure "wallB" (at_ 11 10) "constructedWall" 2000 300000000.
Definition wall100 := structure "wallC" (at_ 40 40) "constructedWall" 100 300000000.

Definition fortifyRoom (lvl : Z) : Room :=
  mkRoom "W1N1" (Some (exampleController lvl))
         [mkSpawn "Spawn1" false] (Some (mkStorage false)) 1500
         [] [] [] [] [] [] [] [wall500; wall2000; wall100].

Definition fortifier : Creep := exampleCreep "w1" "worker" 50 "W1N1" (at_ 11 11).

(** Two construction sites, the first one far from the creep. *)
Definition siteFar := structure "siteA" (at_ 40 40) "extension" 0 0.
Definition siteNear := structure "siteB" (at_ 12 11) "extension" 0 0.

Definition buildRoom : Room :=
  mkRoom "W1N1" (Some (exampleController 4))
         [mkSpawn "Spawn1" false] (Some (mkStorage false)) 1500
         [] [] [] [] [] [siteFar; siteNear] [] [].

Definition traveller : Creep := exampleCreep "w2" "worker" 50 "W2N1" (mkPos 11 11 "W2N1").

(** A tower and a spawn short of energy, dropped energy, and a container
    that holds energy and is damaged enough to be repaired. *)
Definition tower1 := mkObj "tower1" (at_ 20 20) "tower" 3000 3000 200 1000 0 0.
Definition spawnSink := mkObj "Spawn1" (at_ 22 20) "spawn" 5000 5000 100 300 0 0.
Definition drop1 := mkObj "drop1" (at_ 5 5) "" 0 0 0 0 0 500.
Definition box := mkObj "box" (at_ 30 30) STRUCTURE_CONTAINER 100000 250000 0 0 2000 0.
Definition road60 := structure "road1" (at_ 31 30) STRUCTURE_ROAD 3000 5000.
Definition road80 := structure "road2" (at_ 32 30) STRUCTURE_ROAD 4000 5000.
Definition extensionFull := structure "ext1" (at_ 33 30) "extension" 1000 1000.

Definition supplyRoom : Room :=
  mkRoom "W1N1" (Some (exampleController 4))
         [mkSpawn "Spawn1" false] (Some (mkStorage false)) 1500
         [drop1] [box] [tower1] [spawnSink; tower1]
         [box; road60; road80; extensionFull] [] [] [].

Definition hauler1 : Creep := exampleCreep "h1" "hauler" 0 "W1N1" (at_ 29 29).
Definition hauler2 : Creep := exampleCreep "h2" "hauler" 0 "W1N1" (at_ 28 28).
Definition hauler3 : Creep := exampleCreep "h3" "hauler" 50 "W1N1" (at_ 21 21).


(** Nobody is assigned yet and the tower, the spawn and the container
    are all there. *)
Definition supplyLive : Game := mkGame ∅ {[ "tower1"; "Spawn1"; "box" ]}.

(** A source 110 steps from storage, and a hauler pattern of two carry
    parts and one move part at 150 energy per repetition. *)
Definition exampleSource : Source := mkSource false 110.
Definition examplePattern : list BodyPart := [CARRY; CARRY; MOVE].
Definition exampleCost (pattern : list BodyPart) : Z := 50 * Z.of_nat (length pattern).

Definition hauler4 : Creep := exampleCreep "h4" "hauler" 50 "W1N1" (at_ 23 21).

(** A room whose only work is a pile of dropped energy. *)
Definition dropRoom : Room :=
  mkRoom "W1N1" (Some (exampleController 4))
         [mkSpawn "Spawn1" false] (Some (mkStorage false)) 1500
         [drop1] [] [] [] [] [] [] [].

Definition fortifyBrain : RoomBrain := newRoomBrain (fortifyRoom 4) false.
Definition fortifyBrain8 : RoomBrain := newRoomBrain (fortifyRoom 8) false.
Definition buildBrain : RoomBrain := newRoomBrain buildRoom false.
Definition supplyBrain : RoomBrain := newRoomBrain supplyRoom false.

(** Collaborators that write their name into a journal, which is the
    world of the example run, and answer as told. *)
Definition recording (name : string) (answer : option protoCreep)
  : list string -> option protoCreep * list string :=
  fun journal => (answer, (journal ++ [name])%list).

Definition recordingCreate (body : option (list BodyPart)) (name memory : option string)
  : list string -> string * list string :=
  fun journal => (default "" name, (journal ++ ["createCreep"])%list).

Definition supplierProto : protoCreep := mkProto [CARRY; CARRY; MOVE] "supplier_1" "supplier".
Definition haulerProto : protoCreep := mkProto [CARRY; CARRY; MOVE] "hauler_1" "hauler".

(** A run in which the given handlers answer with [supplierProto] and
    [haulerProto] and all others with nothing. *)
Definition exampleRun (suppliers remoteHaulers : bool) (b : RoomBrain)
  : list string -> option string * list string * list Event :=
  handleSpawnOperations (list string) string
    (recording "handleSuppliers" (if suppliers then Some supplierProto else None))
    (recording "handleLinkers" None)
    (recording "handleMineralSuppliers" None)
    (recording "handleMiners" None)
    (recording "handleHaulers" None)
    (recording "handleWorkers" None)
    (recording "handleUpgraders" None)
    (fun _ => [])
    (recording "handleIncubationSpawnOperations" None)
    (recording "handleAssignedSpawnOperations" None)
    (recording "handleRemoteHaulers" (if remoteHaulers then Some haulerProto else None))
    recordingCreate
    b.

(** A run in which no domestic handler answers, no creep asks for renewal
    and the incubation stage answers; the two later stages would answer
    too. *)
Definition incubationRun (b : RoomBrain)
  : list string -> option string * list string * list Event :=
  handleSpawnOperations (list string) string
    (recording "handleSuppliers" None)
    (recording "handleLinkers" None)
    (recording "handleMineralSuppliers" None)
    (recording "handleMiners" None)
    (recording "handleHaulers" None)
    (recording "handleWorkers" None)
    (recording "handleUpgraders" None)
    (fun _ => [])
    (recording "handleIncubationSpawnOperations" (Some haulerProto))
    (recording "handleAssignedSpawnOperations" (Some supplierProto))
    (recording "handleRemoteHaulers" (Some supplierProto))
    recordingCreate
    b.

(** [Skips handlers w w']: run one after the other from world [w], the
    handlers all answer nothing and leave the world [w']. *)
Inductive Skips {World A : Type} :
  list (M World (option A)) -> World -> World -> Prop :=
  | Skips_nil w : Skips [] w w
  | Skips_cons h rest w w' :
      fst (fst (h w)) = None ->
      Skips rest (snd (fst (h w))) w' ->
      Skips (h :: rest) w w'.

(** A run in which no domestic handler answers and one creep next to the
    spawn asks for renewal. *)
Definition renewalRun (b : RoomBrain)
  : list string -> option string * list string * list Event :=
  handleSpawnOperations (list string) string
    (recording "handleSuppliers" None)
    (recording "handleLinkers" None)
    (recording "handleMineralSuppliers" None)
    (recording "handleMiners" None)
    (recording "handleHaulers" None)
    (recording "handleWorkers" None)
    (recording "handleUpgraders" None)
    (fun _ => ["old_worker"])
    (recording "handleIncubationSpawnOperations" (Some haulerProto))
    (recording "handleAssignedSpawnOperations" (Some haulerProto))
    (recording "handleRemoteHaulers" (Some haulerProto))
    recordingCreate
    b.


(** ** Settings, flags and the role handlers *)

(** The two settings tables of the constructor, with the fields this file
    reads. [incubatingSettings] has no [incubationWorkersToSend] and no
    [maxAssistLifetimePercentage]: reading them there gives [undefined],
    which is [None] here. *)
Record Settings := mkSettings {
  settings_fortifyLevel : Z;
  workerPatternRepetitionLimit : Z;
  maxWorkersPerRoom : Z;
  incubationWorkersToSend : option Z;
  supplierPatternRepetitionLimit : Z;
  haulerPatternRepetitionLimit : Z;
  remoteHaulerPatternRepetitionLimit : Z;
  minersPerSource : Z;
  storageBuffer_upgrader : Z;
  maxAssistLifetimePercentage : option spec_float
}.

Definition normalSettings (r : Room) : Settings :=
  {| settings_fortifyLevel :=
       match controller r with
       | Some c => Z.min (10 ^ Z.max (level c) 3) 1000000
       | None => 1000000
       end;
     workerPatternRepetitionLimit := 30;
     maxWorkersPerRoom := 1;
     incubationWorkersToSend := Some 3;
     supplierPatternRepetitionLimit := 4;
     haulerPatternRepetitionLimit := 7;
     remoteHaulerPatternRepetitionLimit := 8;
     minersPerSource := 1;
     storageBuffer_upgrader := 75000;
     maxAssistLifetimePercentage := Some (B64.div (B64.of_Z 1) (B64.of_Z 10)) |}.

Definition incubatingSettings : Settings :=
  {| settings_fortifyLevel := 10000;
     workerPatternRepetitionLimit := 10;
     maxWorkersPerRoom := 3;
     incubationWorkersToSend := None;
     supplierPatternRepetitionLimit := 4;
     haulerPatternRepetitionLimit := 7;
     remoteHaulerPatternRepetitionLimit := 8;
     minersPerSource := 1;
     storageBuffer_upgrader := 5000;
     maxAssistLifetimePercentage := None |}.

(** [this.settings] after the constructor: the incubating table replaces
    the other one as a whole. *)
Definition settingsOf (b : RoomBrain) : Settings :=
  if incubating b then incubatingSettings else normalSettings (room b).

(** A source of a room with its game id. *)
Record RoomSource := mkRoomSource {
  source_ref : string;
  source_data : Source
}.

(** A room a flag stands in, as the incubation stage reads it. *)
Record FlagRoom := mkFlagRoom {
  flagRoom_name : string;
  flagRoom_my : bool;
  flagRoom_sources : list RoomSource;
  flagRoom_controller : string;
  (* body lengths of controller.getAssignedCreeps('worker') *)
  flagRoom_workerBodies : list Z
}.

(** A flag: [flag_filter f code] is what the filter [flagCodes.<code>.filter]
    answers on it. *)
Record Flag := mkFlag {
  flag_name : string;
  flag_filter : string -> bool;
  flag_room : option FlagRoom;
  pathLengthToAssignedRoomStorage : Z
}.

(** What the handlers read of the room beyond [Room]. *)
Record RoomEconomy := mkEconomy {
  room_sources : list RoomSource;
  storage_ref : string;
  storage_store_energy : Z;          (* storage.store[RESOURCE_ENERGY] *)
  room_terminal : option string;
  room_labs : list string;
  room_storageUnits : list string;
  room_assignedFlags : list Flag
}.

Inductive RoleClass :=
  | roleWorker | roleHauler | roleMiner | roleLinker
  | roleMineralSupplier | roleSupplier | roleUpgrader.

(** The call [new role().create(this.spawn, {assignment, workRoom,
    patternRepetitionLimit})], which is what a handler answers with; the
    role classes are collaborators. [call_renewMe] is the flag
    [creep.memory.data.renewMe] the incubation stage sets on the result. *)
Record CreateCall := mkCreateCall {
  call_role : RoleClass;
  call_spawn : option StructureSpawn;
  call_assignment : string;
  call_workRoom : string;
  call_patternRepetitionLimit : spec_float;
  call_renewMe : bool
}.

(** A call either returns or throws a [TypeError] (a property read from
    [undefined]). *)
Inductive Outcome (A : Type) :=
  | Returns (a : A)
  | Throws.
Arguments Returns {A} a.
Arguments Throws {A}.

Section Handlers.

(** [RoomObject.getAssignedCreepAmounts(role)], by object id, the body
    patterns of the roles and [spawn.cost] come from prototypes and role
    classes that are not part of the sources at hand. *)
Variable getAssignedCreepAmounts : string -> string -> Z.
Variable workerBodyPattern : list BodyPart.
Variable haulerBodyPattern : list BodyPart.
Variable upgraderBodyPatternCost : Z.
Variable spawn_cost : list BodyPart -> Z.

Definition create (b : RoomBrain) (role : RoleClass) (assignment : string)
           (limit : spec_float) : CreateCall :=
  {| call_role := role;
     call_spawn := spawn b;
     call_assignment := assignment;
     call_workRoom := room_name (room b);
     call_patternRepetitionLimit := limit;
     call_renewMe := false |}.

(** [Math.min(Math.floor(energyCapacityAvailable / spawn.cost(pattern)),
    workerPatternRepetitionLimit)] *)
Definition workerSizeOf (b : RoomBrain) : spec_float :=
  B64.min (B64.floor (B64.div (B64.of_Z (energyCapacityAvailable (room b)))
                              (B64.of_Z (spawn_cost workerBodyPattern))))
          (B64.of_Z (workerPatternRepetitionLimit (settingsOf b))).

(** The arithmetic of [calculateWorkerRequirementsByEnergy]:
    [equilibriumEnergyPerTick] is the worker size, divided by 1.5 without
    storage; the sources give [(3000 / 300) * sources.length] per tick; the
    result is [Math.ceil(0.8 * sourceEnergyPerTick / equilibriumEnergyPerTick)]. *)
Definition workersForEnergy (workerSize : spec_float) (hasStorage : bool) (numSources : Z)
  : spec_float :=
  let equilibriumEnergyPerTick :=
    if hasStorage then workerSize
    else B64.div workerSize (B64.div (B64.of_Z 3) (B64.of_Z 2)) in
  let sourceEnergyPerTick :=
    B64.mul (B64.div (B64.of_Z 3000) (B64.of_Z 300)) (B64.of_Z numSources) in
  B64.ceil (B64.div (B64.mul (B64.div (B64.of_Z 8) (B64.of_Z 10)) sourceEnergyPerTick)
                    equilibriumEnergyPerTick).

(** [this.override.workersPerRoom] is the empty object in every brain, so
    the override branch is never taken and is left out. *)
Definition calculateWorkerRequirementsByEnergy (b : RoomBrain) (e : RoomEconomy)
  : spec_float :=
  match spawn b with
  | Some _ =>
      workersForEnergy (workerSizeOf b)
                       (match storage (room b) with Some _ => true | None => false end)
                       (Z.of_nat (length (room_sources e)))
  | None => B64.of_Z 0
  end.

(** The repair jobs counted for workers: roads only below half their hit
    points ([0.5 * hitsMax] is exact in binary64). *)
Definition isRepairJob (s : RoomObject) : bool :=
  (hits s <? hitsMax s)
  && (negb (structureType s =? STRUCTURE_ROAD)%string || (2 * hits s <? hitsMax s)).

Definition numJobsOf (maxPerTargetOf : string -> Cap) (b : RoomBrain) : Z :=
  let numRepairJobs := Z.of_nat (length (List.filter isRepairJob (repairables (room b)))) in
  let numConstructionJobs :=
    Z.of_nat (length (getTasks maxPerTargetOf b build))
    + Z.of_nat (length (getTasks maxPerTargetOf b buildRoads)) in
  let numFortifyJobs := Z.of_nat (length (getTasks maxPerTargetOf b fortify)) in
  numRepairJobs + numConstructionJobs + numFortifyJobs.

(** [Math.min(Math.ceil((2 / workerSize) * numJobs), maxWorkersPerRoom)] *)
Definition workersForJobs (workerSize : spec_float) (numJobs maxWorkers : Z) : spec_float :=
  B64.min (B64.ceil (B64.mul (B64.div (B64.of_Z 2) workerSize) (B64.of_Z numJobs)))
          (B64.of_Z maxWorkers).

(** [this.spawn.cost(...)] is read without a check: with jobs and no spawn
    the call throws. *)
Definition calculateWorkerRequirementsByJobs (maxPerTargetOf : string -> Cap)
           (b : RoomBrain) : Outcome spec_float :=
  let numJobs := numJobsOf maxPerTargetOf b in
  if numJobs =? 0 then Returns (B64.of_Z 0)
  else match spawn b with
       | Some _ => Returns (workersForJobs (workerSizeOf b) numJobs
                                           (maxWorkersPerRoom (settingsOf b)))
       | None => Throws
       end.

Definition handleMiners (b : RoomBrain) (e : RoomEconomy) : option CreateCall :=
  if incubating b then None
  else
    match find (fun source =>
                  getAssignedCreepAmounts (source_ref source) "miner"
                  <? minersPerSource (settingsOf b))
               (room_sources e) with
    | Some source => Some (create b roleMiner (source_ref source) (B64.of_Z 3))
    | None => None
    end.

Definition handleHaulers (b : RoomBrain) (e : RoomEconomy) : option CreateCall :=
  match storage (room b) with
  | Some st =>
      let sources :=
        List.filter (fun s => negb (source_linked (source_data s))
                              || negb (storage_linked st))
                    (room_sources e) in
      match find (fun source =>
                    B64.ltb (B64.of_Z (getAssignedCreepAmounts (source_ref source) "hauler"))
                            (snd (calculateHaulerRequirements haulerBodyPattern spawn_cost b
                                                              (source_data source))))
                 sources with
      | Some source =>
          Some (create b roleHauler (source_ref source)
                       (fst (calculateHaulerRequirements haulerBodyPattern spawn_cost b
                                                         (source_data source))))
      | None => None
      end
  | None => None
  end.

Definition handleLinkers (b : RoomBrain) (e : RoomEconomy) : option CreateCall :=
  match storage (room b) with
  | Some st =>
      if storage_linked st && (getAssignedCreepAmounts (storage_ref e) "linker" <? 1)
      then Some (create b roleLinker (storage_ref e) (B64.of_Z 8))
      else None
  | None => None
  end.

Definition handleMineralSuppliers (b : RoomBrain) (e : RoomEconomy) : option CreateCall :=
  match room_terminal e with
  | Some terminal =>
      if (0 <? length (room_labs e))%nat
         && (getAssignedCreepAmounts terminal "mineralSupplier" <? 1)
      then Some (create b roleMineralSupplier terminal (B64.of_Z 1))
      else None
  | None => None
  end.

Definition isExpensive (flag : Flag) : bool :=
  flag_filter flag "millitary" || flag_filter flag "destroy"
  || flag_filter flag "industry" || flag_filter flag "territory".

Definition handleSuppliers (b : RoomBrain) (e : RoomEconomy) : Outcome (option CreateCall) :=
  match controller (room b) with
  | None => Throws
  | Some c =>
      let numSuppliers := getAssignedCreepAmounts (objId (controller_object c)) "supplier" in
      let numEnergySinks :=
        Z.of_nat (length (sinks (room b))) + Z.of_nat (length (towers (room b))) in
      if 1 <? numEnergySinks then
        let expensiveFlags := List.filter isExpensive (room_assignedFlags e) in
        let supplierLimit := 2 + Z.of_nat (length expensiveFlags) / 10 in
        let supplierSize :=
          if numSuppliers =? 0 then 1
          else supplierPatternRepetitionLimit (settingsOf b) in
        if numSuppliers <? supplierLimit
        then Returns (Some (create b roleSupplier (objId (controller_object c))
                                   (B64.of_Z supplierSize)))
        else Returns None
      else Returns None
  end.

Definition handleWorkers (maxPerTargetOf : string -> Cap) (b : RoomBrain) (e : RoomEconomy)
  : Outcome (option CreateCall) :=
  if incubating b then Returns None
  else
    match controller (room b) with
    | None => Throws
    | Some c =>
        let numWorkers := getAssignedCreepAmounts (objId (controller_object c)) "worker" in
        let workerRequirements :=
          match storage (room b) with
          | Some _ => calculateWorkerRequirementsByJobs maxPerTargetOf b
          | None => Returns (calculateWorkerRequirementsByEnergy b e)
          end in
        match workerRequirements with
        | Throws => Throws
        | Returns required =>
            if B64.ltb (B64.of_Z numWorkers) required
               && (0 <? length (room_storageUnits e))%nat
            then Returns (Some (create b roleWorker (objId (controller_object c))
                                       (B64.of_Z (workerPatternRepetitionLimit (settingsOf b)))))
            else Returns None
        end
    end.

(** [1 + Math.floor(amountOver / 20000)], at most 3 at level 8; the two
    numbers are non-negative integers and the quotient is the integer one. *)
Definition upgraderSizeOf (b : RoomBrain) (e : RoomEconomy) (c : Controller) : Z :=
  let amountOver :=
    Z.max (storage_store_energy e - storageBuffer_upgrader (settingsOf b)) 0 in
  let upgraderSize := 1 + amountOver / 20000 in
  if level c =? 8 then Z.min upgraderSize 3 else upgraderSize.

Definition handleUpgraders (b : RoomBrain) (e : RoomEconomy) : Outcome (option CreateCall) :=
  match storage (room b) with
  | Some _ =>
      match controller (room b) with
      | None => Throws
      | Some c =>
          let numUpgraders := getAssignedCreepAmounts (objId (controller_object c)) "upgrader" in
          let upgraderSize := upgraderSizeOf b e c in
          let numUpgradersNeeded :=
            B64.ceil (B64.div (B64.of_Z (upgraderSize * upgraderBodyPatternCost))
                              (B64.of_Z (energyCapacityAvailable (room b)))) in
          if B64.ltb (B64.of_Z numUpgraders) numUpgradersNeeded
          then Returns (Some (create b roleUpgrader (objId (controller_object c))
                                     (B64.of_Z upgraderSize)))
          else Returns None
      end
  | None => Returns None
  end.

End Handlers.

(** Equality of two binary64 values as data. *)
Definition b64_eqb (a b : spec_float) : bool :=
  match a, b with
  | S754_zero s1, S754_zero s2 => Bool.eqb s1 s2
  | S754_infinity s1, S754_infinity s2 => Bool.eqb s1 s2
  | S754_nan, S754_nan => true
  | S754_finite s1 m1 e1, S754_finite s2 m2 e2 =>
      Bool.eqb s1 s2 && (m1 =? m2)%positive && (e1 =? e2)
  | _, _ => false
  end.

(** [ceil(a / b)] for integers with [0 < b]. *)
Definition ceilDiv (a b : Z) : Z := (a + b - 1) / b.

(** The job-based requirement at whole worker sizes, as booleans: with
    one worker allowed the answer is 1; with three allowed it is the exact
    [ceil(2 * jobs / size)] capped at 3. *)
Definition jobsCheckNormal (workerSize numJobs : Z) : bool :=
  b64_eqb (workersForJobs (B64.of_Z workerSize) numJobs 1) (B64.of_Z 1).

Definition jobsCheckIncubating (workerSize numJobs : Z) : bool :=
  b64_eqb (workersForJobs (B64.of_Z workerSize) numJobs 3)
          (B64.of_Z (Z.min 3 (ceilDiv (2 * numJobs) workerSize))).

(** The energy-based requirement at whole worker sizes: the exact
    [ceil(8 * sources / size)] with storage and [ceil(12 * sources / size)]
    without; at size 0 it is [Infinity]. *)
Definition energyCheck (workerSize numSources : Z) : bool :=
  b64_eqb (workersForEnergy (B64.of_Z workerSize) true numSources)
          (B64.of_Z (ceilDiv (8 * numSources) workerSize))
  && b64_eqb (workersForEnergy (B64.of_Z workerSize) false numSources)
             (B64.of_Z (ceilDiv (12 * numSources) workerSize)).

Definition energyCheckZero (numSources : Z) : bool :=
  b64_eqb (workersForEnergy (B64.of_Z 0) true numSources) (S754_infinity false)
  && b64_eqb (workersForEnergy (B64.of_Z 0) false numSources) (S754_infinity false).

(** Whether [n] workers are fewer than the given requirement, for every
    [n] of a list. *)
Definition allBelow (required : spec_float) (counts : list Z) : bool :=
  forallb (fun n => B64.ltb (B64.of_Z n) required) counts.

Definition noneBelow (required : spec_float) (counts : list Z) : bool :=
  forallb (fun n => negb (B64.ltb (B64.of_Z n) required)) counts.

(** The hauler size for [carryParts] carry parts in the pattern and a
    path of [pathLength]: it is a whole number that saturates the source
    ([size * 50 * carryParts / (2 * pathLength) >= 10]) and is at most one
    above the exact [ceil(1.1 * 10 * 2 * pathLength / (50 * carryParts))]. *)
Definition haulerSizeCheck (carryParts pathLength : Z) : bool :=
  match b64_to_Z (calculateHaulerSize (repeat CARRY (Z.to_nat carryParts))
                                      (mkSource false pathLength)) with
  | Some size =>
      (10 * pathLength <=? size * 25 * carryParts)
      && (ceilDiv (11 * pathLength) (25 * carryParts) <=? size)
      && (size <=? ceilDiv (11 * pathLength) (25 * carryParts) + 1)
  | None => false
  end.


(** Without a carry part in the pattern no size saturates the source: the
    result is [Infinity]. *)
Definition haulerSizeNoCarryCheck (pathLength : Z) : bool :=
  b64_eqb (calculateHaulerSize [] (mkSource false pathLength)) (S754_infinity false).
(** ** The incubation stage and the room memory *)

Section Incubation.

Variable getAssignedCreepAmounts : string -> string -> Z.
Variable workerBodyPattern : list BodyPart.

(** The filter of [incubateFlags]:
    [claimAndIncubate.filter(flag) && flag.room && flag.room.my]. *)
Definition isIncubateFlag (flag : Flag) : bool :=
  flag_filter flag "territory.claimAndIncubate"
  && match flag_room flag with
     | Some r => flagRoom_my r
     | None => false
     end.

(** [n < limit] where [limit] may be [undefined]: the comparison is then
    false. *)
Definition lessThanSetting (n : Z) (limit : option Z) : bool :=
  match limit with
  | Some m => n <? m
  | None => false
  end.

(** A creep created for another room and marked [renewMe]. *)
Definition createRenewable (b : RoomBrain) (role : RoleClass) (assignment workRoom : string)
           (limit : spec_float) : CreateCall :=
  {| call_role := role;
     call_spawn := spawn b;
     call_assignment := assignment;
     call_workRoom := workRoom;
     call_patternRepetitionLimit := limit;
     call_renewMe := true |}.

(** The body of the loop over the flags, for the room of one flag: a
    miner for the first source without one, else a worker while fewer
    than [incubationWorkersToSend] full-size workers are assigned, else
    nothing (the loop goes on). *)
Definition incubateRoom (b : RoomBrain) (flagRoom : FlagRoom) : option CreateCall :=
  match find (fun source =>
                getAssignedCreepAmounts (source_ref source) "miner"
                <? minersPerSource (settingsOf b))
             (flagRoom_sources flagRoom) with
  | Some source =>
      Some (createRenewable b roleMiner (source_ref source) (flagRoom_name flagRoom)
                            (B64.of_Z 3))
  | None =>
      let incubationWorkers :=
        List.filter (fun bodyLength =>
                       Z.of_nat (length workerBodyPattern)
                       * workerPatternRepetitionLimit (settingsOf b) <=? bodyLength)
                    (flagRoom_workerBodies flagRoom) in
      if lessThanSetting (Z.of_nat (length incubationWorkers))
                         (incubationWorkersToSend (settingsOf b))
      then Some (createRenewable b roleWorker (flagRoom_controller flagRoom)
                                 (flagRoom_name flagRoom)
                                 (B64.of_Z (workerPatternRepetitionLimit (settingsOf b))))
      else None
  end.

Fixpoint incubateLoop (b : RoomBrain) (flags : list Flag) : Outcome (option CreateCall) :=
  match flags with
  | [] => Returns None
  | flag :: rest =>
      match flag_room flag with
      | None => Throws                         (* flag.room! *)
      | Some flagRoom =>
          match incubateRoom b flagRoom with
          | Some creep => Returns (Some creep)
          | None => incubateLoop b rest
          end
      end
  end.

Definition handleIncubationSpawnOperations (b : RoomBrain) (e : RoomEconomy)
  : Outcome (option CreateCall) :=
  let incubateFlags := List.filter isIncubateFlag (room_assignedFlags e) in
  let incubateFlags := sortBy incubateFlags pathLengthToAssignedRoomStorage in
  incubateLoop b incubateFlags.

End Incubation.

(** The getter [memory]: [Memory.roomBrain], keyed by room name; an entry
    is an object, here a map from keys to values. The result is the entry
    and the store after the call. *)
Definition memory (name : string) (roomBrain : gmap string (gmap string string))
  : gmap string string * gmap string (gmap string string) :=
  match roomBrain !! name with
  | Some entry => (entry, roomBrain)
  | None => (∅, <[name := ∅]> roomBrain)
  end.


(** ** The assigned stage *)

Section AssignedOperations.

Variable World : Type.

(** [flag.action(this)], the spawn request a flag makes of the brain, comes
    from the flag prototype and is taken as an arbitrary state
    transformer. *)
Variable flag_action : Flag -> World -> option protoCreep * World.

(** The filters of [prioritizedFlagOperations], in their order. *)
Definition prioritizedFlagCodes : list string :=
  ["vision.stationary"; "territory.claimAndIncubate"; "millitary.guard";
   "territory.colony"; "millitary.destroyer"; "millitary.sieger";
   "industry.remoteMine"].

(** The inner loop over the flags of one category, nearest first. *)
Definition flagOperations (flagPriority : list Flag) : M World (option protoCreep) :=
  let flagsSortedByRange := sortBy flagPriority pathLengthToAssignedRoomStorage in
  firstNonNull World (map (fun flag => lift World (flag_action flag)) flagsSortedByRange).

Definition handleAssignedSpawnOperations (e : RoomEconomy) : M World (option protoCreep) :=
  let flags := room_assignedFlags e in
  let prioritizedFlagOperations :=
    map (fun code => List.filter (fun flag => flag_filter flag code) flags)
        prioritizedFlagCodes in
  firstNonNull World (map flagOperations prioritizedFlagOperations).

End AssignedOperations.

(** ** Examples for the handlers *)

(** The census of the examples: the sources [src1] and [srcA] have a
    miner each, nothing else has a creep assigned. *)
Definition exampleCensus (ref role : string) : Z :=
  if (role =? "miner")%string && ((ref =? "src1")%string || (ref =? "srcA")%string)
  then 1 else 0.

Definition workerPattern : list BodyPart := [WORK; CARRY; MOVE].

(** An incubate flag passes the filter of its code and that of its
    category. *)
Definition incubateFilter (code : string) : bool :=
  (code =? "territory.claimAndIncubate")%string || (code =? "territory")%string.

(** Two rooms under incubation: the nearer one has its source manned and
    three workers of 30 body parts, the farther one has nobody. *)
Definition mannedRoom : FlagRoom :=
  mkFlagRoom "W2N1" true [mkRoomSource "srcA" (mkSource false 10)] "ctrlA" [30; 30; 30].
Definition unmannedRoom : FlagRoom :=
  mkFlagRoom "W3N1" true [mkRoomSource "srcB" (mkSource false 10)] "ctrlB" [].

Definition nearFlag : Flag := mkFlag "near" incubateFilter (Some mannedRoom) 20.
Definition farFlag : Flag := mkFlag "far" incubateFilter (Some unmannedRoom) 50.
(** An incubate flag in a room without vision. *)
Definition blindFlag : Flag := mkFlag "blind" incubateFilter None 5.

(** Two sources, the first one manned; 120,000 energy in storage. *)
Definition exampleEconomy : RoomEconomy :=
  mkEconomy [mkRoomSource "src1" exampleSource; mkRoomSource "src2" (mkSource false 30)]
            "storage1" 120000 None [] ["box"] [farFlag; blindFlag; nearFlag].

(** A room without storage whose energy capacity is below the cost of
    one worker pattern. *)
Definition poorRoom : Room :=
  mkRoom "W1N1" (Some (exampleController 1))
         [mkSpawn "Spawn1" false] None 100
         [] [] [] [] [] [] [] [].

Definition poorBrain : RoomBrain := newRoomBrain poorRoom false.
Definition incubatingBrain : RoomBrain := newRoomBrain (emptyRoom 2) true.

(** A creep without any active body part. *)
Definition brokenCreep : Creep :=
  mkCreep "x1" "worker" (fun _ => 0) 50 50 "W1N1" (at_ 11 11).

(** A room with a linked storage and two linked sources. *)
Definition linkedRoom : Room :=
  mkRoom "W1N1" (Some (exampleController 6))
         [mkSpawn "Spawn1" false] (Some (mkStorage true)) 2300
         [] [] [] [] [] [] [] [].

Definition linkedEconomy : RoomEconomy :=
  mkEconomy [mkRoomSource "src1" (mkSource true 20); mkRoomSource "src2" (mkSource true 30)]
            "storage1" 50000 None [] ["storage1"] [].


(** Flag actions that write the flag's name into the journal; only the
    guard flag asks for a creep. *)
Definition exampleAction (flag : Flag) : list string -> option protoCreep * list string :=
  recording (flag_name flag)
            (if (flag_name flag =? "guard")%string then Some haulerProto else None).

Definition guardFilter (code : string) : bool := (code =? "millitary.guard")%string.
Definition mineFilter (code : string) : bool := (code =? "industry.remoteMine")%string.

Definition flagEconomy : RoomEconomy :=
  mkEconomy [] "storage1" 0 None [] []
            [mkFlag "mine" mineFilter None 5; mkFlag "guard" guardFilter None 40;
             farFlag; nearFlag].


(** * Properties *)

(** ** Lists, [sortBy] and the rational comparison *)

Lemma Qltb_lt (a b : Q) : Qltb a b = true <-> (a < b)%Q.
Proof.
  unfold Qltb. rewrite negb_true_iff. split.
  - intros H. apply Qnot_le_lt. intros Hle.
    apply Qle_bool_iff in Hle. congruence.
  - intros H. destruct (Qle_bool b a) eqn:E; [|reflexivity].
    apply Qle_bool_iff in E. exfalso. exact (Qlt_not_le _ _ H E).
Qed.

Lemma Qltb_seven_tenths (h hmax : Z) :
  Qltb (inject_Z h) ((7 # 10) * inject_Z hmax)%Q = true <-> 10 * h < 7 * hmax.
Proof.
  rewrite Qltb_lt. unfold Qlt, Qmult, inject_Z. simpl. lia.
Qed.

Lemma includes_In (l : list string) (s : string) : includes l s = true <-> In s l.
Proof.
  unfold includes. rewrite existsb_exists. split.
  - intros (x & Hx & Heq). apply String.eqb_eq in Heq. now subst.
  - intros H. exists s. split; [assumption | apply String.eqb_refl].
Qed.

Lemma head_insertBy {A} (key : A -> Z) (a : A) (l : list A) :
  head (insertBy key a l) =
  match head l with
  | None => Some a
  | Some b => if key a <=? key b then Some a else Some b
  end.
Proof.
  destruct l as [|b l']; simpl; [reflexivity|].
  destruct (key a <=? key b); reflexivity.
Qed.

Lemma firstMinimum_In {A} (key : A -> Z) l a : firstMinimum key l a -> In a l.
Proof.
  intros (pre & post & -> & _). apply in_or_app. right. now left.
Qed.

Lemma firstMinimum_le {A} (key : A -> Z) l a :
  firstMinimum key l a -> forall x, In x l -> key a <= key x.
Proof.
  intros (pre & post & -> & Hpre & Hpost) x Hx.
  apply in_app_or in Hx. destruct Hx as [Hx | [<- | Hx]].
  - specialize (Hpre x Hx). lia.
  - lia.
  - now apply Hpost.
Qed.

Lemma firstMinimum_unique {A} (key : A -> Z) l a a' :
  firstMinimum key l a -> firstMinimum key l a' -> a = a'.
Proof.
  intros (pre & post & E & Hpre & Hpost) (pre' & post' & E' & Hpre' & Hpost').
  subst l. revert pre' E' Hpre'.
  induction pre as [|p pre IH]; intros [|p' pre'] E' Hpre'; simpl in E'.
  - now inversion E'.
  - inversion E'; subst.
    assert (In a' (pre' ++ a' :: post')) by (apply in_or_app; right; now left).
    specialize (Hpost _ H). specialize (Hpre' p' (or_introl eq_refl)). lia.
  - inversion E'; subst.
    assert (In a (pre ++ a :: post)) by (apply in_or_app; right; now left).
    specialize (Hpost' _ H). specialize (Hpre a' (or_introl eq_refl)). lia.
  - inversion E'; subst. apply IH with (pre' := pre').
    + intros x Hx. apply Hpre. now right.
    + assumption.
    + intros x Hx. apply Hpre'. now right.
Qed.

Lemma head_sortBy {A} (key : A -> Z) (l : list A) :
  match head (sortBy l key) with
  | None => l = []
  | Some a => firstMinimum key l a
  end.
Proof.
  induction l as [|x l IH]; [reflexivity|].
  change (sortBy (x :: l) key) with (insertBy key x (sortBy l key)).
  rewrite head_insertBy.
  destruct (head (sortBy l key)) as [b|].
  - destruct (Z.leb_spec (key x) (key b)) as [Hle | Hgt].
    + exists [], l. split; [reflexivity|]. split; [intros ? []|].
      intros y Hy. pose proof (firstMinimum_le key l b IH y Hy). lia.
    + destruct IH as (pre & post & -> & Hpre & Hpost).
      exists (x :: pre), post. split; [reflexivity|]. split; [|assumption].
      intros y [<- | Hy]; [lia | now apply Hpre].
  - subst l. exists [], []. split; [reflexivity|]. split; intros ? [].
Qed.

Lemma head_sortBy_cons {A} (key : A -> Z) (x : A) (l : list A) :
  exists a, head (sortBy (x :: l) key) = Some a /\ firstMinimum key (x :: l) a.
Proof.
  pose proof (head_sortBy key (x :: l)) as H.
  destruct (head (sortBy (x :: l) key)) as [a|]; [eauto | discriminate].
Qed.

Lemma find_filter {A} (f q : A -> bool) (l : list A) :
  find f (List.filter q l) = find (fun x => q x && f x) l.
Proof.
  induction l as [|x l IH]; simpl; [reflexivity|].
  destruct (q x); simpl; [|assumption].
  destruct (f x); [reflexivity | assumption].
Qed.

Lemma find_lookup_le {A} (f : A -> bool) (l : list A) c i a :
  find f l = Some c -> l !! i = Some a -> f a = true ->
  exists j, (j <= i)%nat /\ l !! j = Some c.
Proof.
  revert i. induction l as [|x l IH]; intros i Hfind Hi Ha; [discriminate|].
  simpl in Hfind. destruct (f x) eqn:Hx.
  - inversion Hfind; subst. exists 0%nat. split; [lia | reflexivity].
  - destruct i as [|i]; simpl in Hi.
    + inversion Hi; subst. congruence.
    + destruct (IH i Hfind Hi Ha) as (j & Hj & Hl).
      exists (S j). split; [lia | assumption].
Qed.

Lemma find_none_lookup {A} (f : A -> bool) (l : list A) i a :
  find f l = None -> l !! i = Some a -> f a = false.
Proof.
  intros Hfind Hi. apply (find_none f l Hfind).
  apply list_elem_of_In. apply list_elem_of_lookup. eauto.
Qed.

Lemma priorityIndex_lookup (taskType : TaskType) :
  taskPriorities !! priorityIndex taskType = Some taskType.
Proof. destruct taskType; reflexivity. Qed.

Lemma taskPriorities_lookup_inv (j : nat) (taskType : TaskType) :
  taskPriorities !! j = Some taskType -> j = priorityIndex taskType.
Proof.
  do 9 (destruct j as [|j]; [simpl; intros [= <-]; reflexivity|]).
  simpl. discriminate.
Qed.

(** ** Task assignment *)

Section AssignTheory.

Variable maxPerTargetOf : string -> Cap.
Variable getRangeTo : RoomPosition -> RoomObject -> Z.

Lemma getTasks_name b taskType task :
  In task (getTasks maxPerTargetOf b taskType) -> task_name task = taskToExecute taskType.
Proof.
  destruct taskType; simpl;
    try (intros H; apply in_map_iff in H; destruct H as (o & <- & _); reflexivity).
  destruct (controller (room b)) as [c|]; [|intros []].
  destruct (my c); [|intros []].
  intros [<- | []]. reflexivity.
Qed.

Lemma taskToExecute_fortify taskType :
  taskToExecute taskType = "fortify" -> taskType = fortify.
Proof. destruct taskType; simpl; intros H; try discriminate; reflexivity. Qed.

Lemma getMostUrgentTask_chosen b cache tasksToGet :
  getMostUrgentTask maxPerTargetOf b cache tasksToGet =
  match chosenTaskType maxPerTargetOf b cache tasksToGet with
  | Some taskType => List.filter (uncapped cache) (getTasks maxPerTargetOf b taskType)
  | None => []
  end.
Proof.
  unfold chosenTaskType.
  induction tasksToGet as [|t rest IH]; simpl; [reflexivity|].
  destruct (List.filter (uncapped cache) (getTasks maxPerTargetOf b t)) eqn:E; simpl.
  - exact IH.
  - symmetry. exact E.
Qed.

Lemma chosenTaskType_nonempty b cache tasksToGet taskType :
  chosenTaskType maxPerTargetOf b cache tasksToGet = Some taskType ->
  In taskType tasksToGet /\
  exists first rest,
    List.filter (uncapped cache) (getTasks maxPerTargetOf b taskType) = first :: rest.
Proof.
  unfold chosenTaskType. intros H. apply find_some in H. destruct H as [Hin Hne].
  split; [assumption|].
  destruct (List.filter (uncapped cache) (getTasks maxPerTargetOf b taskType)) as [|f r];
    [discriminate | eauto].
Qed.

Lemma applicableTasks_In b creep taskType :
  In taskType (applicableTasks b creep) <->
  includes (assignmentRoles b taskType) (memory_role creep) = true
  /\ assignmentConditions taskType creep = true.
Proof.
  unfold applicableTasks. rewrite filter_In, andb_true_iff.
  split; [tauto|]. intros H. split; [|assumption].
  apply list_elem_of_In, list_elem_of_lookup. exists (priorityIndex taskType).
  apply priorityIndex_lookup.
Qed.

(** The candidates of an assignment and the task type they come from. *)
Lemma selectTask_candidates b g creep task :
  selectTask maxPerTargetOf getRangeTo b g creep = Some task ->
  exists taskType,
    chosenTaskType maxPerTargetOf b (cache g) (applicableTasks b creep) = Some taskType
    /\ In task (List.filter (uncapped (cache g)) (getTasks maxPerTargetOf b taskType)).
Proof.
  unfold selectTask. rewrite getMostUrgentTask_chosen.
  destruct (chosenTaskType maxPerTargetOf b (cache g) (applicableTasks b creep))
    as [taskType|]; [|discriminate].
  intros H. exists taskType. split; [reflexivity|].
  destruct (List.filter (uncapped (cache g)) (getTasks maxPerTargetOf b taskType))
    as [|first rest] eqn:E; [discriminate|].
  destruct (task_name first =? "fortify")%string.
  - pose proof (head_sortBy (fun t => hits (target t)) (first :: rest)) as Hs.
    rewrite H in Hs. eapply firstMinimum_In, Hs.
  - destruct (creep_room creep =? room_name (room b))%string.
    + pose proof (head_sortBy (fun t => getRangeTo (creep_pos creep) (target t))
                              (first :: rest)) as Hs.
      rewrite H in Hs. eapply firstMinimum_In, Hs.
    + simpl in H. inversion H; subst. now left.
Qed.

Lemma assignTask_fst b creep g :
  fst (assignTask maxPerTargetOf getRangeTo b creep g)
  = selectTask maxPerTargetOf getRangeTo b g creep.
Proof.
  unfold assignTask.
  destruct (selectTask maxPerTargetOf getRangeTo b g creep); reflexivity.
Qed.

Lemma selectTask_fortify b g creep :
  chosenTaskType maxPerTargetOf b (cache g) (applicableTasks b creep) = Some fortify ->
  selectTask maxPerTargetOf getRangeTo b g creep
  = head (sortBy (List.filter (uncapped (cache g)) (getTasks maxPerTargetOf b fortify))
                 (fun task => hits (target task))).
Proof.
  intros Hc. unfold selectTask. rewrite getMostUrgentTask_chosen, Hc.
  destruct (chosenTaskType_nonempty _ _ _ _ Hc) as (_ & first & rest & E).
  rewrite E.
  assert (Hn : task_name first = "fortify").
  { apply (getTasks_name b fortify).
    assert (Hin : In first (first :: rest)) by now left.
    rewrite <- E in Hin. apply filter_In in Hin. tauto. }
  rewrite Hn. reflexivity.
Qed.

Lemma selectTask_other b g creep taskType :
  chosenTaskType maxPerTargetOf b (cache g) (applicableTasks b creep) = Some taskType ->
  taskType <> fortify ->
  selectTask maxPerTargetOf getRangeTo b g creep
  = let tasks := List.filter (uncapped (cache g)) (getTasks maxPerTargetOf b taskType) in
    if (creep_room creep =? room_name (room b))%string
    then head (sortBy tasks (fun task => getRangeTo (creep_pos creep) (target task)))
    else head tasks.
Proof.
  intros Hc Hne. unfold selectTask. rewrite getMostUrgentTask_chosen, Hc.
  destruct (chosenTaskType_nonempty _ _ _ _ Hc) as (_ & first & rest & E).
  cbv zeta. rewrite E.
  assert (Hn : task_name first = taskToExecute taskType).
  { apply (getTasks_name b taskType).
    assert (Hin : In first (first :: rest)) by now left.
    rewrite <- E in Hin. apply filter_In in Hin. tauto. }
  destruct (task_name first =? "fortify")%string eqn:Ef; [|reflexivity].
  apply String.eqb_eq in Ef. rewrite Hn in Ef.
  apply taskToExecute_fortify in Ef. contradiction.
Qed.

Lemma head_filter_first {A} (f : A -> bool) (l : list A) (a : A) :
  head (List.filter f l) = Some a ->
  exists pre post, l = (pre ++ a :: post)%list /\ f a = true
                   /\ forall x, In x pre -> f x = false.
Proof.
  induction l as [|x l IH]; simpl; [discriminate|].
  destruct (f x) eqn:E; simpl.
  - intros [= <-]. exists [], l. split; [reflexivity|]. split; [assumption|]. intros ? [].
  - intros H. destruct (IH H) as (pre & post & -> & Ha & Hpre).
    exists (x :: pre), post. split; [reflexivity|]. split; [assumption|].
    intros y [<- | Hy]; [assumption | now apply Hpre].
Qed.

(** C2. Priority exhaustion: when agent X is eligible for a task type A
    that lists an item below its cap, [assignTask] returns a task, that
    task is one of the uncapped items of the first such task type in
    [taskPriorities], and that task type is A or one ranked above A, never
    one ranked below. *)
Theorem priority_exhaustion b g creep A item :
  includes (assignmentRoles b A) (memory_role creep) = true ->
  assignmentConditions A creep = true ->
  In item (getTasks maxPerTargetOf b A) ->
  uncapped (cache g) item = true ->
  exists taskType task,
    chosenTaskType maxPerTargetOf b (cache g) (applicableTasks b creep) = Some taskType
    /\ getMostUrgentTask maxPerTargetOf b (cache g) (applicableTasks b creep)
       = List.filter (uncapped (cache g)) (getTasks maxPerTargetOf b taskType)
    /\ fst (assignTask maxPerTargetOf getRangeTo b creep g) = Some task
    /\ In task (List.filter (uncapped (cache g)) (getTasks maxPerTargetOf b taskType))
    /\ (priorityIndex taskType <= priorityIndex A)%nat
    /\ forall lower, (priorityIndex A < priorityIndex lower)%nat -> taskType <> lower.
Proof.
  intros Hrole Hcond Hitem Hcap.
  set (P := fun t => negb (Nat.eqb (length (List.filter (uncapped (cache g))
                                                 (getTasks maxPerTargetOf b t))) 0)).
  set (E := fun t => includes (assignmentRoles b t) (memory_role creep)
                     && assignmentConditions t creep).
  assert (HPA : (E A && P A) = true).
  { unfold E, P. rewrite Hrole, Hcond. simpl.
    assert (Hin : In item (List.filter (uncapped (cache g)) (getTasks maxPerTargetOf b A)))
      by (apply filter_In; tauto).
    destruct (List.filter (uncapped (cache g)) (getTasks maxPerTargetOf b A));
      [destruct Hin | reflexivity]. }
  assert (Hfind : chosenTaskType maxPerTargetOf b (cache g) (applicableTasks b creep)
                  = find (fun t => E t && P t) taskPriorities).
  { unfold chosenTaskType, applicableTasks. apply find_filter. }
  destruct (find (fun t => E t && P t) taskPriorities) as [c|] eqn:Hc.
  - destruct (find_lookup_le _ _ _ _ _ Hc (priorityIndex_lookup A) HPA) as (j & Hj & Hl).
    apply taskPriorities_lookup_inv in Hl. subst j.
    destruct (chosenTaskType_nonempty _ _ _ _ Hfind) as (_ & first & rest & Hne).
    pose proof (getMostUrgentTask_chosen b (cache g) (applicableTasks b creep)) as Hm.
    rewrite Hfind in Hm.
    assert (Hsel : exists task, selectTask maxPerTargetOf getRangeTo b g creep = Some task).
    { unfold selectTask. rewrite Hm, Hne.
      destruct (task_name first =? "fortify")%string.
      - destruct (head_sortBy_cons (fun t => hits (target t)) first rest) as (a & -> & _).
        eauto.
      - destruct (creep_room creep =? room_name (room b))%string.
        + destruct (head_sortBy_cons (fun t => getRangeTo (creep_pos creep) (target t))
                                     first rest) as (a & -> & _).
          eauto.
        + simpl. eauto. }
    destruct Hsel as (task & Hsel).
    exists c, task. split; [assumption|]. split; [assumption|].
    split; [rewrite assignTask_fst; assumption|].
    split.
    + destruct (selectTask_candidates _ _ _ _ Hsel) as (c' & Hc' & Hin).
      rewrite Hfind in Hc'. inversion Hc'; subst. assumption.
    + split; [assumption|]. intros lower Hlt ->. lia.
  - pose proof (find_none_lookup _ _ _ _ Hc (priorityIndex_lookup A)) as Hf.
    simpl in Hf. congruence.
Qed.

Lemma taskToExecute_pickup taskType :
  taskToExecute taskType = "pickup" -> taskType = pickup.
Proof. destruct taskType; simpl; intros H; try discriminate; reflexivity. Qed.

Lemma taskToExecute_upgrade taskType :
  taskToExecute taskType = "upgrade" -> taskType = upgrade.
Proof. destruct taskType; simpl; intros H; try discriminate; reflexivity. Qed.

(** An assignment comes from a task type the creep is eligible for, and
    carries the task name of that type. *)
Lemma assignTask_from_applicable b creep g task :
  fst (assignTask maxPerTargetOf getRangeTo b creep g) = Some task ->
  exists taskType,
    chosenTaskType maxPerTargetOf b (cache g) (applicableTasks b creep) = Some taskType
    /\ In taskType (applicableTasks b creep)
    /\ In task (getTasks maxPerTargetOf b taskType)
    /\ uncapped (cache g) task = true
    /\ task_name task = taskToExecute taskType.
Proof.
  rewrite assignTask_fst. intros H.
  destruct (selectTask_candidates _ _ _ _ H) as (c & Hc & Hin).
  exists c. split; [assumption|].
  split; [apply (chosenTaskType_nonempty _ _ _ _ Hc)|].
  apply filter_In in Hin. destruct Hin as [Hin Hcap].
  split; [assumption|]. split; [assumption|].
  eapply getTasks_name; eassumption.
Qed.

Lemma newRoomBrain_pickup_roles r incub :
  assignmentRoles (newRoomBrain r incub) pickup = [].
Proof.
  unfold newRoomBrain; simpl.
  destruct (controller r) as [c|]; [|reflexivity].
  destruct (level c =? 8); reflexivity.
Qed.

Lemma newRoomBrain_upgrade_roles r incub :
  assignmentRoles (newRoomBrain r incub) upgrade =
  match controller r with
  | Some c => if level c =? 8 then ["upgrader"] else ["worker"; "upgrader"]
  | None => ["worker"; "upgrader"]
  end.
Proof.
  unfold newRoomBrain; simpl.
  destruct (controller r) as [c|]; [|reflexivity].
  destruct (level c =? 8); reflexivity.
Qed.

(** C7. Repair catalog: every task [getTasks('repair')] returns is a repair
    task on one of the room's repairables with [hits < hitsMax]; when that
    target is a container or a road it moreover has [hits < 0.7 * hitsMax];
    no returned item has [hits >= hitsMax]. *)
Theorem repair_catalog_predicate b task :
  In task (getTasks maxPerTargetOf b repair) ->
  task_name task = "repair"
  /\ In (target task) (repairables (room b))
  /\ hits (target task) < hitsMax (target task)
  /\ ~ (hits (target task) >= hitsMax (target task))
  /\ (structureType (target task) = STRUCTURE_CONTAINER
      \/ structureType (target task) = STRUCTURE_ROAD ->
      (inject_Z (hits (target task)) < (7 # 10) * inject_Z (hitsMax (target task)))%Q
      /\ 10 * hits (target task) < 7 * hitsMax (target task)).
Proof.
  simpl. intros H. apply in_map_iff in H. destruct H as (s & <- & Hs).
  apply filter_In in Hs. destruct Hs as [Hin Hp]. simpl.
  unfold needsRepair in Hp. rewrite !andb_true_iff, !orb_true_iff in Hp.
  destruct Hp as [[Hd Hc] Hr]. apply Z.ltb_lt in Hd.
  split; [reflexivity|]. split; [assumption|]. split; [assumption|].
  split; [lia|].
  intros [Ht | Ht].
  - destruct Hc as [Hc | Hc].
    + rewrite Ht in Hc. discriminate.
    + split; [now apply Qltb_lt | now apply Qltb_seven_tenths].
  - destruct Hr as [Hr | Hr].
    + rewrite Ht in Hr. discriminate.
    + split; [now apply Qltb_lt | now apply Qltb_seven_tenths].
Qed.

(** The converse: the filter keeps every repairable that meets the
    predicate, so the exclusion of containers and roads is exactly the
    30% rule. *)
Lemma repair_catalog_complete b s :
  In s (repairables (room b)) ->
  hits s < hitsMax s ->
  (structureType s = STRUCTURE_CONTAINER \/ structureType s = STRUCTURE_ROAD ->
   10 * hits s < 7 * hitsMax s) ->
  In (taskRepair maxPerTargetOf s) (getTasks maxPerTargetOf b repair).
Proof.
  intros Hin Hd Hcr. simpl. apply in_map. apply filter_In. split; [assumption|].
  unfold needsRepair. rewrite !andb_true_iff, !orb_true_iff, !negb_true_iff.
  split; [split|].
  - now apply Z.ltb_lt.
  - destruct (structureType s =? STRUCTURE_CONTAINER)%string eqn:E; [|now left].
    right. apply Qltb_seven_tenths, Hcr. left. now apply String.eqb_eq.
  - destruct (structureType s =? STRUCTURE_ROAD)%string eqn:E; [|now left].
    right. apply Qltb_seven_tenths, Hcr. right. now apply String.eqb_eq.
Qed.

(** C9. The pickup entry of [assignmentRoles] is the empty list, so no
    creep, whatever its role and load, is ever handed a pickup task: the
    task type is never applicable, never the chosen one, and the task
    given to [creep.assign] is never named pickup, whatever dropped energy
    the room holds. *)
Theorem pickup_never_assigned r incub creep g :
  assignmentRoles (newRoomBrain r incub) pickup = []
  /\ ~ In pickup (applicableTasks (newRoomBrain r incub) creep)
  /\ chosenTaskType maxPerTargetOf (newRoomBrain r incub) (cache g)
                    (applicableTasks (newRoomBrain r incub) creep) <> Some pickup
  /\ forall task,
       fst (assignTask maxPerTargetOf getRangeTo (newRoomBrain r incub) creep g) = Some task ->
       task_name task <> "pickup".
Proof.
  assert (Hno : ~ In pickup (applicableTasks (newRoomBrain r incub) creep)).
  { rewrite applicableTasks_In, newRoomBrain_pickup_roles. simpl. intros [H _]. discriminate. }
  split; [apply newRoomBrain_pickup_roles|]. split; [assumption|]. split.
  - intros Hc. apply chosenTaskType_nonempty in Hc. tauto.
  - intros task H Hname.
    destruct (assignTask_from_applicable _ _ _ _ H) as (c & _ & Hin & _ & _ & Hn).
    rewrite Hn in Hname. apply taskToExecute_pickup in Hname. subst c. contradiction.
Qed.

(** C10. With the controller at level 8 the upgrade entry of
    [assignmentRoles] is narrowed to upgraders: a worker is never handed an
    upgrade task there. At any other level both workers and upgraders that
    meet the upgrade condition have upgrade among their applicable tasks. *)
Theorem upgrade_roles_by_level r incub c :
  controller r = Some c ->
  (level c = 8 ->
   assignmentRoles (newRoomBrain r incub) upgrade = ["upgrader"]
   /\ forall creep g task,
        memory_role creep = "worker" ->
        fst (assignTask maxPerTargetOf getRangeTo (newRoomBrain r incub) creep g) = Some task ->
        task_name task <> "upgrade")
  /\ (level c <> 8 ->
      assignmentRoles (newRoomBrain r incub) upgrade = ["worker"; "upgrader"]
      /\ forall creep,
           memory_role creep = "worker" \/ memory_role creep = "upgrader" ->
           assignmentConditions upgrade creep = true ->
           In upgrade (applicableTasks (newRoomBrain r incub) creep)).
Proof.
  intros Hctrl. pose proof (newRoomBrain_upgrade_roles r incub) as Hroles.
  rewrite Hctrl in Hroles. split.
  - intros H8. apply Z.eqb_eq in H8. rewrite H8 in Hroles.
    split; [assumption|].
    intros creep g task Hw H Hname.
    destruct (assignTask_from_applicable _ _ _ _ H) as (t & _ & Hin & _ & _ & Hn).
    rewrite Hn in Hname. apply taskToExecute_upgrade in Hname. subst t.
    apply applicableTasks_In in Hin. destruct Hin as [Hin _].
    rewrite Hroles, Hw in Hin. discriminate.
  - intros H8. apply Z.eqb_neq in H8. rewrite H8 in Hroles.
    split; [assumption|].
    intros creep Hrole Hcond. apply applicableTasks_In. split; [|assumption].
    rewrite Hroles. destruct Hrole as [-> | ->]; reflexivity.
Qed.

End AssignTheory.

(** C5. Fortify tie-break: when the task type an eligible creep is served
    from is fortify, [assignTask] hands over the candidate with the lowest
    hit points (the first such in catalog order); the choice is the same
    under every range oracle and for every creep with the same applicable
    task types, wherever it stands. *)
Theorem fortify_selects_lowest_hits maxPerTargetOf getRangeTo b g creep :
  chosenTaskType maxPerTargetOf b (cache g) (applicableTasks b creep) = Some fortify ->
  exists task,
    fst (assignTask maxPerTargetOf getRangeTo b creep g) = Some task
    /\ firstMinimum (fun t => hits (target t))
                    (List.filter (uncapped (cache g)) (getTasks maxPerTargetOf b fortify))
                    task
    /\ (forall other,
          In other (List.filter (uncapped (cache g)) (getTasks maxPerTargetOf b fortify)) ->
          hits (target task) <= hits (target other))
    /\ (forall getRangeTo' creep',
          applicableTasks b creep' = applicableTasks b creep ->
          fst (assignTask maxPerTargetOf getRangeTo' b creep' g) = Some task).
Proof.
  intros Hc.
  destruct (chosenTaskType_nonempty _ _ _ _ _ Hc) as (_ & first & rest & E).
  destruct (head_sortBy_cons (fun t => hits (target t)) first rest) as (task & Hh & Hmin).
  exists task. rewrite <- E in Hh, Hmin.
  split; [rewrite assignTask_fst, selectTask_fortify; assumption|].
  split; [assumption|].
  split; [apply (firstMinimum_le _ _ _ Hmin)|].
  intros getRangeTo' creep' Happ.
  rewrite assignTask_fst, selectTask_fortify; [assumption|].
  rewrite Happ. assumption.
Qed.

(** C6. Non-fortify tie-break: when the creep is served from a task type
    other than fortify, then in the brain's own room [assignTask] hands
    over the candidate of least range from the creep (the first such in
    catalog order), and from any other room it hands over the first
    candidate in catalog order, that is, the first catalog item below its
    cap. *)
Theorem nonfortify_selects_nearest_or_first maxPerTargetOf getRangeTo b g creep taskType :
  chosenTaskType maxPerTargetOf b (cache g) (applicableTasks b creep) = Some taskType ->
  taskType <> fortify ->
  (creep_room creep = room_name (room b) ->
   exists task,
     fst (assignTask maxPerTargetOf getRangeTo b creep g) = Some task
     /\ firstMinimum (fun t => getRangeTo (creep_pos creep) (target t))
                     (List.filter (uncapped (cache g)) (getTasks maxPerTargetOf b taskType))
                     task
     /\ forall other,
          In other (List.filter (uncapped (cache g)) (getTasks maxPerTargetOf b taskType)) ->
          getRangeTo (creep_pos creep) (target task)
          <= getRangeTo (creep_pos creep) (target other))
  /\ (creep_room creep <> room_name (room b) ->
      exists task pre post,
        fst (assignTask maxPerTargetOf getRangeTo b creep g) = Some task
        /\ head (List.filter (uncapped (cache g)) (getTasks maxPerTargetOf b taskType))
           = Some task
        /\ getTasks maxPerTargetOf b taskType = (pre ++ task :: post)%list
        /\ uncapped (cache g) task = true
        /\ forall earlier, In earlier pre -> uncapped (cache g) earlier = false).
Proof.
  intros Hc Hne.
  destruct (chosenTaskType_nonempty _ _ _ _ _ Hc) as (_ & first & rest & E).
  pose proof (selectTask_other maxPerTargetOf getRangeTo b g creep taskType Hc Hne) as Hsel.
  cbv zeta in Hsel. split.
  - intros Hroom. apply String.eqb_eq in Hroom. rewrite Hroom in Hsel.
    destruct (head_sortBy_cons (fun t => getRangeTo (creep_pos creep) (target t)) first rest)
      as (task & Hh & Hmin).
    exists task. rewrite <- E in Hh, Hmin.
    split; [rewrite assignTask_fst, Hsel; assumption|].
    split; [assumption | apply (firstMinimum_le _ _ _ Hmin)].
  - intros Hroom. apply String.eqb_neq in Hroom. rewrite Hroom in Hsel.
    assert (Hh : head (List.filter (uncapped (cache g)) (getTasks maxPerTargetOf b taskType))
                 = Some first) by (rewrite E; reflexivity).
    destruct (head_filter_first _ _ _ Hh) as (pre & post & Hl & Hf & Hpre).
    exists first, pre, post.
    split; [rewrite assignTask_fst, Hsel; assumption|].
    repeat split; assumption.
Qed.

(** ** Commitment *)

Lemma creep_assign_dead creep task g :
  objId (target task) ∉ liveObjects g -> creep_assign creep task g = g.
Proof. intros H. unfold creep_assign. destruct (decide _); [contradiction | reflexivity]. Qed.

Lemma targetedBy_creep_assign_same creep task g o :
  objId (target task) ∈ liveObjects g ->
  objId o = objId (target task) ->
  targetedBy (cache (creep_assign creep task g)) o
  = (targetedBy (cache g) (target task) ++ [creep_name creep])%list.
Proof.
  intros Hlive E. unfold creep_assign. destruct (decide _); [|contradiction].
  unfold targetedBy; simpl. rewrite E, lookup_insert_eq. reflexivity.
Qed.

Lemma targetedBy_creep_assign_other creep task g o :
  objId o <> objId (target task) ->
  targetedBy (cache (creep_assign creep task g)) o = targetedBy (cache g) o.
Proof.
  intros E. unfold creep_assign. destruct (decide _); [|reflexivity].
  unfold targetedBy; simpl. rewrite lookup_insert_ne by congruence. reflexivity.
Qed.

Lemma targetedBy_objId cache o o' :
  objId o = objId o' -> targetedBy cache o = targetedBy cache o'.
Proof. unfold targetedBy. now intros ->. Qed.

Lemma below_within_succ n c : below n c = true -> within (S n) c.
Proof.
  destruct c as [m|]; simpl; [|trivial].
  intros H. apply Nat.ltb_lt in H. lia.
Qed.

Lemma below_le n m c : (n <= m)%nat -> below m c = true -> below n c = true.
Proof.
  destruct c as [k|]; simpl; [|trivial].
  intros Hle H. apply Nat.ltb_lt in H. apply Nat.ltb_lt. lia.
Qed.

Lemma sameItem_spec t1 t2 :
  sameItem t1 t2 = true <->
  task_name t1 = task_name t2 /\ objId (target t1) = objId (target t2).
Proof.
  unfold sameItem. rewrite andb_true_iff, !String.eqb_eq. reflexivity.
Qed.

Lemma committedTo_cons task creep t rest :
  committedTo task ((creep, t) :: rest)
  = ((if sameItem task t then 1 else 0) + committedTo task rest)%nat.
Proof. unfold committedTo. simpl. destruct (sameItem task t); reflexivity. Qed.

Lemma committedTo_one task creep t :
  committedTo task [(creep, t)] = if sameItem task t then 1%nat else 0%nat.
Proof. unfold committedTo. simpl. destruct (sameItem task t); reflexivity. Qed.

Lemma committedTo_app task l1 l2 :
  committedTo task (l1 ++ l2) = (committedTo task l1 + committedTo task l2)%nat.
Proof. unfold committedTo. rewrite List.filter_app, length_app. reflexivity. Qed.

Section CommitTheory.

Variable maxPerTargetOf : string -> Cap.
Variable getRangeTo : RoomPosition -> RoomObject -> Z.
Variable b : RoomBrain.

Local Abbreviation assign := (assignTask maxPerTargetOf getRangeTo b).
Local Abbreviation assignments := (assignLog maxPerTargetOf getRangeTo b).

Lemma getTasks_cap taskType task :
  In task (getTasks maxPerTargetOf b taskType) ->
  maxPerTarget task = maxPerTargetOf (task_name task).
Proof.
  destruct taskType; simpl;
    try (intros H; apply in_map_iff in H; destruct H as (o & <- & _); reflexivity).
  destruct (controller (room b)) as [c|]; [|intros []].
  destruct (my c); [|intros []].
  intros [<- | []]. reflexivity.
Qed.

Lemma assignTask_commit creep g task :
  fst (assign creep g) = Some task ->
  snd (assign creep g) = creep_assign creep task g
  /\ (exists taskType, In task (getTasks maxPerTargetOf b taskType))
  /\ uncapped (cache g) task = true.
Proof.
  intros H.
  destruct (assignTask_from_applicable _ _ _ _ _ _ H) as (c & _ & _ & Hin & Hcap & _).
  split; [|eauto].
  rewrite assignTask_fst in H. unfold assignTask. rewrite H. reflexivity.
Qed.

Lemma assignTask_idle creep g :
  fst (assign creep g) = None -> snd (assign creep g) = g.
Proof.
  rewrite assignTask_fst. unfold assignTask. intros ->. reflexivity.
Qed.

(** The game after one call, by what the call did. *)
Lemma assignTask_cases creep g :
  (exists task,
     fst (assign creep g) = Some task
     /\ objId (target task) ∈ liveObjects g
     /\ uncapped (cache g) task = true
     /\ (exists taskType, In task (getTasks maxPerTargetOf b taskType))
     /\ snd (assign creep g) = creep_assign creep task g
     /\ assignments [creep] g = [(creep, task)])
  \/ (snd (assign creep g) = g /\ assignments [creep] g = []).
Proof.
  destruct (fst (assign creep g)) as [task|] eqn:E.
  - destruct (assignTask_commit _ _ _ E) as (Hs & Hin & Hcap).
    destruct (decide (objId (target task) ∈ liveObjects g)) as [Hlive | Hdead].
    + left. exists task. repeat split; try assumption.
      simpl. rewrite E. destruct (decide _); [reflexivity | contradiction].
    + right. split; [rewrite Hs; now apply creep_assign_dead|].
      simpl. rewrite E. destruct (decide _); [contradiction | reflexivity].
  - right. split; [now apply assignTask_idle|]. simpl. rewrite E. reflexivity.
Qed.

Lemma assignLog_cons creep rest g :
  assignments (creep :: rest) g
  = (assignments [creep] g ++ assignments rest (snd (assign creep g)))%list.
Proof.
  simpl. destruct (fst (assign creep g)) as [task|]; [|reflexivity].
  destruct (decide _); reflexivity.
Qed.

(** Strictly below the cap at the moment of commitment: [k] creeps were
    on the item's target before the cycle. *)
Lemma assignLog_below creeps :
  forall g pre creep task post k,
    assignments creeps g = (pre ++ (creep, task) :: post)%list ->
    (k <= length (targetedBy (cache g) (target task)))%nat ->
    below (k + committedTo task pre) (maxPerTarget task) = true.
Proof.
  induction creeps as [|c rest IH]; intros g pre creep task post k Hlog Hk.
  - destruct pre; discriminate Hlog.
  - rewrite assignLog_cons in Hlog.
    destruct (assignTask_cases c g)
      as [(t0 & _ & Hlive & Hcap & _ & Hs & Hone) | [Hs Hone]];
      rewrite Hone in Hlog; simpl in Hlog.
    + destruct pre as [|[c' t'] pre']; simpl in Hlog; injection Hlog as <- <- Htl.
      * unfold committedTo; simpl. rewrite Nat.add_0_r.
        apply (below_le _ _ _ Hk). exact Hcap.
      * rewrite committedTo_cons, Nat.add_assoc.
        apply (IH _ _ _ _ _ _ Htl). rewrite Hs.
        destruct (sameItem task t0) eqn:Esame.
        -- apply sameItem_spec in Esame. destruct Esame as [_ Hid].
           rewrite (targetedBy_creep_assign_same _ _ _ _ Hlive Hid).
           rewrite length_app, <- (targetedBy_objId (cache g) _ _ Hid). simpl. lia.
        -- destruct (decide (objId (target task) = objId (target t0))) as [Hid | Hne].
           ++ rewrite (targetedBy_creep_assign_same _ _ _ _ Hlive Hid).
              rewrite length_app, <- (targetedBy_objId (cache g) _ _ Hid). simpl. lia.
           ++ rewrite (targetedBy_creep_assign_other _ _ _ _ Hne). lia.
    + apply (IH _ _ _ _ _ _ Hlog). rewrite Hs. exact Hk.
Qed.

(** Within the cap after the cycle, for an item of the catalog that had
    [k] creeps committed before it, all of them on its target. *)
Lemma assignLog_within creeps :
  forall g taskType task k,
    In task (getTasks maxPerTargetOf b taskType) ->
    (k <= length (targetedBy (cache g) (target task)))%nat ->
    within k (maxPerTarget task) ->
    within (k + committedTo task (assignments creeps g)) (maxPerTarget task).
Proof.
  induction creeps as [|c rest IH]; intros g taskType task k Hin Hk Hw.
  - simpl. unfold committedTo. simpl. rewrite Nat.add_0_r. exact Hw.
  - rewrite assignLog_cons, committedTo_app.
    destruct (assignTask_cases c g)
      as [(t0 & _ & Hlive & Hcap & (tt0 & Hin0) & Hs & Hone) | [Hs Hone]];
      rewrite Hone, Hs.
    + rewrite committedTo_one, Nat.add_assoc.
      destruct (sameItem task t0) eqn:Esame.
      * apply sameItem_spec in Esame. destruct Esame as [Hname Hid].
        assert (Hsame : maxPerTarget task = maxPerTarget t0).
        { rewrite (getTasks_cap _ _ Hin), (getTasks_cap _ _ Hin0), Hname. reflexivity. }
        apply (IH _ taskType); [exact Hin| |].
        -- rewrite (targetedBy_creep_assign_same _ _ _ _ Hlive Hid).
           rewrite length_app, <- (targetedBy_objId (cache g) _ _ Hid). simpl. lia.
        -- rewrite Nat.add_1_r, Hsame. apply below_within_succ.
           apply (below_le k (length (targetedBy (cache g) (target t0)))).
           ++ rewrite <- (targetedBy_objId (cache g) _ _ Hid). exact Hk.
           ++ exact Hcap.
      * rewrite Nat.add_0_r. apply (IH _ taskType); [exact Hin| |exact Hw].
        destruct (decide (objId (target task) = objId (target t0))) as [Hid | Hne].
        -- rewrite (targetedBy_creep_assign_same _ _ _ _ Hlive Hid).
           rewrite length_app, <- (targetedBy_objId (cache g) _ _ Hid). simpl. lia.
        -- rewrite (targetedBy_creep_assign_other _ _ _ _ Hne). exact Hk.
    + change (committedTo task []) with 0%nat. simpl.
      now apply (IH _ taskType).
Qed.

(** C3. The commitment cap invariant. [assignTask] hands out an item only
    while fewer creeps than its cap are on it, so at the moment of every
    commitment of a cycle the item has strictly fewer creeps committed to
    it than its cap, and after every sequence of assignments of a cycle
    the number of creeps committed to any item of the catalog is at most
    its cap. The same holds on top of the commitments made before the
    cycle, when those are within the cap and are on the item's target. *)
Theorem commitment_cap_invariant :
  (forall creep g task,
     fst (assign creep g) = Some task ->
     below (length (targetedBy (cache g) (target task))) (maxPerTarget task) = true)
  /\ (forall creeps g pre creep task post,
        assignments creeps g = (pre ++ (creep, task) :: post)%list ->
        below (committedTo task pre) (maxPerTarget task) = true)
  /\ (forall creeps g taskType task,
        In task (getTasks maxPerTargetOf b taskType) ->
        within (committedTo task (assignments creeps g)) (maxPerTarget task))
  /\ (forall prior creeps g taskType task,
        In task (getTasks maxPerTargetOf b taskType) ->
        (committedTo task prior <= length (targetedBy (cache g) (target task)))%nat ->
        within (committedTo task prior) (maxPerTarget task) ->
        within (committedTo task (prior ++ assignments creeps g)) (maxPerTarget task)).
Proof.
  split; [|split; [|split]].
  - intros creep g task H. now destruct (assignTask_commit _ _ _ H) as (_ & _ & Hcap).
  - intros creeps g pre creep task post Hlog.
    apply (assignLog_below creeps g pre creep task post 0 Hlog). lia.
  - intros creeps g taskType task Hin.
    apply (assignLog_within creeps g taskType task 0 Hin); [lia|].
    destruct (maxPerTarget task); simpl; [lia | trivial].
  - intros prior creeps g taskType task Hin Hon Hw.
    rewrite committedTo_app. now apply (assignLog_within creeps g taskType).
Qed.


End CommitTheory.

(** ** The spawn scheduler *)

Section SpawnTheory.

Variable World : Type.
Variable CreateResult : Type.
Variable handleSuppliers : World -> option protoCreep * World.
Variable handleLinkers : World -> option protoCreep * World.
Variable handleMineralSuppliers : World -> option protoCreep * World.
Variable handleMiners : World -> option protoCreep * World.
Variable handleHaulers : World -> option protoCreep * World.
Variable handleWorkers : World -> option protoCreep * World.
Variable handleUpgraders : World -> option protoCreep * World.
Variable creepsNeedingRenewal : World -> list string.
Variable handleIncubationSpawnOperations : World -> option protoCreep * World.
Variable handleAssignedSpawnOperations : World -> option protoCreep * World.
Variable handleRemoteHaulers : World -> option protoCreep * World.
Variable createCreep :
  option (list BodyPart) -> option string -> option string -> World -> CreateResult * World.

Local Abbreviation core :=
  (handleCoreSpawnOperations World handleSuppliers handleLinkers handleMineralSuppliers
     handleMiners handleHaulers handleWorkers handleUpgraders creepsNeedingRenewal).
Local Abbreviation body :=
  (spawnOperation World handleSuppliers handleLinkers handleMineralSuppliers
     handleMiners handleHaulers handleWorkers handleUpgraders creepsNeedingRenewal
     handleIncubationSpawnOperations handleAssignedSpawnOperations handleRemoteHaulers).
Local Abbreviation runStage :=
  (stage World handleSuppliers handleLinkers handleMineralSuppliers
     handleMiners handleHaulers handleWorkers handleUpgraders creepsNeedingRenewal
     handleIncubationSpawnOperations handleAssignedSpawnOperations handleRemoteHaulers).
Local Abbreviation loop :=
  (spawnLoop World CreateResult handleSuppliers handleLinkers handleMineralSuppliers
     handleMiners handleHaulers handleWorkers handleUpgraders creepsNeedingRenewal
     handleIncubationSpawnOperations handleAssignedSpawnOperations handleRemoteHaulers
     createCreep).
Local Abbreviation schedule :=
  (handleSpawnOperations World CreateResult handleSuppliers handleLinkers
     handleMineralSuppliers handleMiners handleHaulers handleWorkers handleUpgraders
     creepsNeedingRenewal handleIncubationSpawnOperations handleAssignedSpawnOperations
     handleRemoteHaulers createCreep).
(** [this.spawn.createCreep(creep.body, creep.name, creep.memory)] in the
    world [w']: its result and the world it leaves. *)
Local Abbreviation create :=
  (fun (c : Response) (w' : World) =>
     let '(r, w2) := createCreep (response_body c) (response_name c) (response_memory c) w' in
     (Some r, w2)).

Lemma silent_ret {A} (a : A) : silent World (ret World a).
Proof. intros w. reflexivity. Qed.

Lemma silent_lift {A} (f : World -> A * World) : silent World (lift World f).
Proof. intros w. unfold lift. destruct (f w). reflexivity. Qed.

Lemma silent_bind {A B} (m : M World A) (k : A -> M World B) :
  silent World m -> (forall a, silent World (k a)) -> silent World (bind World m k).
Proof.
  intros Hm Hk w. unfold bind.
  specialize (Hm w). destruct (m w) as [[a w1] l1]. simpl in Hm. subst l1.
  specialize (Hk a w1). destruct (k a w1) as [[r w2] l2]. simpl in Hk. subst l2.
  reflexivity.
Qed.

Lemma silent_asResponse h : silent World (asResponse World h).
Proof.
  unfold asResponse. apply silent_bind; [apply silent_lift|].
  intros r. apply silent_ret.
Qed.

Lemma silent_firstNonNull {A} (handlers : list (M World (option A))) :
  Forall (silent World) handlers -> silent World (firstNonNull World handlers).
Proof.
  induction 1 as [|h rest Hh _ IH]; simpl; [apply silent_ret|].
  apply silent_bind; [assumption|].
  intros [r|]; [apply silent_ret | assumption].
Qed.

Lemma silent_body s : silent World (body s).
Proof.
  destruct s; simpl.
  - unfold handleCoreSpawnOperations. apply silent_bind.
    + apply silent_firstNonNull. repeat constructor; apply silent_asResponse.
    + intros [r|]; [apply silent_ret|].
      apply silent_bind; [apply silent_lift|].
      intros renewal. destruct (0 <? length renewal)%nat; apply silent_ret.
  - apply silent_asResponse.
  - apply silent_asResponse.
  - unfold handleInferredSpawnOperations. apply silent_firstNonNull.
    repeat constructor; apply silent_asResponse.
Qed.

(** A stage runs its body and logs one [Evaluated] event. *)
Lemma runStage_eq s w :
  runStage s w =
  (fst (fst (body s w)), snd (fst (body s w)),
   [Evaluated s (isSome (fst (fst (body s w))))]).
Proof.
  unfold stage, bind, tell, ret.
  pose proof (silent_body s w) as Hs.
  destruct (body s w) as [[r w1] l1]. simpl in Hs. subst l1. reflexivity.
Qed.

Lemma loop_cons s rest w :
  loop (s :: rest) w =
  match fst (fst (body s w)) with
  | Some c =>
      let '(r, w2) := createCreep (response_body c) (response_name c) (response_memory c)
                                  (snd (fst (body s w))) in
      (Some r, w2,
       [Evaluated s true;
        CreateCreep (response_body c) (response_name c) (response_memory c)])
  | None =>
      let '(r, w2, l) := loop rest (snd (fst (body s w))) in
      (r, w2, Evaluated s false :: l)
  end.
Proof.
  simpl. unfold bind at 1.
  rewrite runStage_eq.
  destruct (fst (fst (body s w))) as [c|]; simpl.
  - unfold bind, tell, lift, ret.
    destruct (createCreep (response_body c) (response_name c) (response_memory c)
                          (snd (fst (body s w)))) as [r w2].
    reflexivity.
  - destruct (loop rest (snd (fst (body s w)))) as [[r w2] l]. reflexivity.
Qed.

(** The shape of every run of the loop: either no stage answers, all are
    evaluated and nothing is created, or the stages before the first one
    that answers are evaluated, then that one, then [createCreep] is called
    once and nothing else happens. *)
Lemma loop_shape stages w :
  (fst (fst (loop stages w)) = None
   /\ snd (loop stages w) = map (fun s => Evaluated s false) stages)
  \/ (exists pre s post body_ name_ memory_,
        stages = (pre ++ s :: post)%list
        /\ fst (fst (loop stages w)) <> None
        /\ snd (loop stages w)
           = (map (fun s => Evaluated s false) pre
              ++ [Evaluated s true; CreateCreep body_ name_ memory_])%list).
Proof.
  revert w. induction stages as [|s rest IH]; intros w.
  - left. split; reflexivity.
  - rewrite loop_cons.
    destruct (fst (fst (body s w))) as [c|].
    + right.
      destruct (createCreep (response_body c) (response_name c) (response_memory c)
                            (snd (fst (body s w)))) as [r w2].
      exists [], s, rest, (response_body c), (response_name c), (response_memory c).
      simpl. repeat split; congruence.
    + specialize (IH (snd (fst (body s w)))).
      destruct (loop rest (snd (fst (body s w)))) as [[r w2] l]. simpl in *.
      destruct IH as [[Hr Hl] | (pre & s' & post & bo & na & me & -> & Hr & Hl)].
      * left. subst. split; reflexivity.
      * right. exists (s :: pre), s', post, bo, na, me.
        subst. simpl. repeat split; assumption.
Qed.

(** When the core stage answers, the loop stops after it. *)
Lemma loop_core_answers w rest :
  fst (fst (core w)) <> None ->
  stagesEvaluated (snd (loop (Core :: rest) w)) = [Core].
Proof.
  intros H. rewrite loop_cons.
  change (body Core w) with (core w).
  destruct (fst (fst (core w))) as [c|]; [|contradiction].
  destruct (createCreep (response_body c) (response_name c) (response_memory c)
                        (snd (fst (core w)))) as [r w2].
  reflexivity.
Qed.

Lemma asResponse_run h w :
  asResponse World h w = (option_map Proto (fst (h w)), snd (h w), []).
Proof. unfold asResponse, bind, lift, ret. destruct (h w) as [o w']. reflexivity. Qed.

Lemma body_incubation w :
  body Incubation w
  = (option_map Proto (fst (handleIncubationSpawnOperations w)),
     snd (handleIncubationSpawnOperations w), []).
Proof. apply asResponse_run. Qed.

Lemma body_assigned w :
  body Assigned w
  = (option_map Proto (fst (handleAssignedSpawnOperations w)),
     snd (handleAssignedSpawnOperations w), []).
Proof. apply asResponse_run. Qed.

Lemma body_inferred w :
  body Inferred w
  = (option_map Proto (fst (handleRemoteHaulers w)), snd (handleRemoteHaulers w), []).
Proof.
  simpl. unfold handleInferredSpawnOperations. simpl. unfold bind.
  rewrite asResponse_run. destruct (handleRemoteHaulers w) as [[c|] w']; reflexivity.
Qed.

Lemma loop_cons_run s rest w :
  fst (loop (s :: rest) w)
  = match fst (fst (body s w)) with
    | Some c => create c (snd (fst (body s w)))
    | None => fst (loop rest (snd (fst (body s w))))
    end.
Proof.
  rewrite loop_cons. destruct (fst (fst (body s w))) as [c|].
  - destruct (createCreep _ _ _ _) as [r w']. reflexivity.
  - destruct (loop rest _) as [[r w'] l]. reflexivity.
Qed.

(** The result and the world of the loop over the four stages, in terms
    of the handlers. *)
Lemma loop_run w :
  fst (loop prioritizedSpawnOperations w)
  = match fst (fst (core w)) with
    | Some c => create c (snd (fst (core w)))
    | None =>
        let '(incubation, w1) := handleIncubationSpawnOperations (snd (fst (core w))) in
        match incubation with
        | Some c => create (Proto c) w1
        | None =>
            let '(assigned, w2) := handleAssignedSpawnOperations w1 in
            match assigned with
            | Some c => create (Proto c) w2
            | None =>
                let '(inferred, w3) := handleRemoteHaulers w2 in
                match inferred with
                | Some c => create (Proto c) w3
                | None => (None, w3)
                end
            end
        end
    end.
Proof.
  unfold prioritizedSpawnOperations. rewrite loop_cons_run.
  change (body Core w) with (core w).
  destruct (fst (fst (core w))) as [c|]; [reflexivity|].
  generalize (snd (fst (core w))). intros w0.
  rewrite loop_cons_run, body_incubation. cbn [fst snd].
  destruct (handleIncubationSpawnOperations w0) as [[c|] w1];
    cbn [fst snd option_map]; [reflexivity|].
  rewrite loop_cons_run, body_assigned. cbn [fst snd].
  destruct (handleAssignedSpawnOperations w1) as [[c|] w2];
    cbn [fst snd option_map]; [reflexivity|].
  rewrite loop_cons_run, body_inferred. cbn [fst snd].
  destruct (handleRemoteHaulers w2) as [[c|] w3];
    cbn [fst snd option_map]; reflexivity.
Qed.

(** C4. One run of [handleSpawnOperations]. Without an available spawn
    nothing is returned and the world is untouched: no handler runs. With
    one, the stages run in the order core, incubation, assigned,
    inferred, each in the world the one before left; the first stage that
    answers ends the run: [createCreep] is called once, on that answer
    and in the world that stage left, and its result and world are those
    of the run, so no later stage has run at all. When no stage answers,
    nothing is returned and the world is the one the four stages left.
    The log says the same: the stages evaluated are a prefix of the four,
    a stage that answers is the only one that does and the last one
    evaluated, [createCreep] is called at most once, exactly when a stage
    answered, and nothing is returned exactly when none did. *)
Theorem spawn_scheduler_short_circuit b w :
  let result := fst (fst (schedule b w)) in
  let log := snd (schedule b w) in
  fst (schedule b w)
  = (if spawnAvailable b then
       match fst (fst (core w)) with
       | Some c => create c (snd (fst (core w)))
       | None =>
           let '(incubation, w1) := handleIncubationSpawnOperations (snd (fst (core w))) in
           match incubation with
           | Some c => create (Proto c) w1
           | None =>
               let '(assigned, w2) := handleAssignedSpawnOperations w1 in
               match assigned with
               | Some c => create (Proto c) w2
               | None =>
                   let '(inferred, w3) := handleRemoteHaulers w2 in
                   match inferred with
                   | Some c => create (Proto c) w3
                   | None => (None, w3)
                   end
               end
           end
       end
     else (None, w))
  /\ (exists k, stagesEvaluated log = take k prioritizedSpawnOperations)
  /\ (forall s, In s (stagesAnswered log) ->
                stagesAnswered log = [s] /\ last (stagesEvaluated log) = Some s)
  /\ (fst (fst (core w)) <> None ->
      stagesEvaluated log = if spawnAvailable b then [Core] else [])
  /\ (createCalls log <= 1)%nat
  /\ createCalls log = length (stagesAnswered log)
  /\ (result = None <-> stagesAnswered log = [])
  /\ (spawnAvailable b = false -> log = [] /\ result = None)
  /\ (spawnAvailable b = true -> stagesAnswered log = [] ->
      stagesEvaluated log = prioritizedSpawnOperations).
Proof.
  cbv zeta.
  assert (Hrun : schedule b w
                 = if spawnAvailable b then loop prioritizedSpawnOperations w
                   else (None, w, [])).
  { unfold handleSpawnOperations, spawnAvailable.
    destruct (spawn b) as [sp|]; [|reflexivity].
    destruct (spawning sp); reflexivity. }
  rewrite Hrun. clear Hrun.
  destruct (spawnAvailable b).
  2:{ unfold createCalls. simpl. split; [reflexivity|].
      split; [exists 0%nat; reflexivity|].
      split; [intros ? []|]. split; [reflexivity|]. split; [lia|].
      split; [reflexivity|]. split; [tauto|]. split; [tauto | discriminate]. }
  split; [apply loop_run|].
  pose proof (loop_core_answers w [Incubation; Assigned; Inferred]) as Hcore.
  fold prioritizedSpawnOperations in Hcore.
  destruct (loop_shape prioritizedSpawnOperations w)
    as [[Hr Hl] | (pre & s & post & bo & na & me & Hst & Hr & Hl)].
  - rewrite Hr, Hl. unfold createCalls, prioritizedSpawnOperations. simpl.
    split; [exists 4%nat; reflexivity|].
    split; [intros ? []|].
    split; [intros H; specialize (Hcore H); rewrite Hl in Hcore; discriminate|].
    split; [lia|]. split; [reflexivity|]. split; [tauto|].
    split; [discriminate | reflexivity].
  - rewrite Hl in Hcore. rewrite Hl.
    split; [|split; [|split; [exact Hcore|]]].
    + unfold prioritizedSpawnOperations in Hst.
      destruct pre as [|p1 [|p2 [|p3 [|p4 pre]]]]; simpl in Hst; inversion Hst; subst.
      * exists 1%nat. reflexivity.
      * exists 2%nat. reflexivity.
      * exists 3%nat. reflexivity.
      * exists 4%nat. reflexivity.
      * destruct pre; discriminate.
    + assert (Ha : stagesAnswered
                     (map (fun s0 => Evaluated s0 false) pre
                      ++ [Evaluated s true; CreateCreep bo na me]) = [s]).
      { clear. induction pre as [|p pre IH]; simpl; [reflexivity | exact IH]. }
      assert (He : last (stagesEvaluated
                           (map (fun s0 => Evaluated s0 false) pre
                            ++ [Evaluated s true; CreateCreep bo na me])) = Some s).
      { clear. induction pre as [|p pre IH]; [reflexivity|].
        simpl. simpl in IH.
        destruct (stagesEvaluated
                    (map (fun s0 => Evaluated s0 false) pre
                     ++ [Evaluated s true; CreateCreep bo na me])) eqn:E;
          [discriminate | exact IH]. }
      intros s' Hs'. rewrite Ha in Hs'. destruct Hs' as [<- | []].
      split; assumption.
    + assert (Ha : stagesAnswered
                     (map (fun s0 => Evaluated s0 false) pre
                      ++ [Evaluated s true; CreateCreep bo na me]) = [s]).
      { clear. induction pre as [|p pre IH]; simpl; [reflexivity | exact IH]. }
      assert (Hc : createCalls
                     (map (fun s0 => Evaluated s0 false) pre
                      ++ [Evaluated s true; CreateCreep bo na me]) = 1%nat).
      { clear. induction pre as [|p pre IH]; simpl; [reflexivity | exact IH]. }
      rewrite Ha, Hc. simpl length.
      split; [lia|]. split; [reflexivity|].
      split; [split; [intros H; contradiction | discriminate]|].
      split; discriminate.
Qed.

End SpawnTheory.

(** ** Hauler split *)

Lemma In_Zrange (lo : Z) (n : nat) (z : Z) :
  lo <= z < lo + Z.of_nat n -> In z (Zrange lo n).
Proof.
  intros H. unfold Zrange. apply in_map_iff.
  exists (Z.to_nat (z - lo)). split; [lia|].
  apply in_seq. lia.
Qed.

Lemma splitCheck_range :
  forallb (fun maxSize =>
             forallb (fun required => splitCheck required maxSize)
                     (Zrange (maxSize + 1) 100))
          (Zrange 1 50) = true.
Proof. vm_compute. reflexivity. Qed.

Lemma splitCheckFraction_range :
  forallb (fun len => forallb (fun required => splitCheckFraction required len)
                              (Zrange 1 50))
          (Zrange 1 50) = true.
Proof. vm_compute. reflexivity. Qed.

Lemma splitCheck_holds (required maxSize : Z) :
  1 <= maxSize <= 50 -> maxSize < required <= maxSize + 100 ->
  splitCheck required maxSize = true.
Proof.
  intros Hm Hr. pose proof splitCheck_range as H.
  rewrite forallb_forall in H.
  specialize (H maxSize (In_Zrange 1 50 maxSize ltac:(lia))).
  rewrite forallb_forall in H.
  apply H. apply In_Zrange. lia.
Qed.

Lemma splitCheckFraction_holds (required len : Z) :
  1 <= len <= 50 -> 1 <= required <= 50 ->
  splitCheckFraction required len = true.
Proof.
  intros Hl Hr. pose proof splitCheckFraction_range as H.
  rewrite forallb_forall in H.
  specialize (H len (In_Zrange 1 50 len ltac:(lia))).
  rewrite forallb_forall in H.
  apply H. apply In_Zrange. lia.
Qed.

(** C1, as amended. When the required size is above the maximum size, the
    split returns [ceil(required / maxSize)] haulers, each no larger than
    the maximum, and together they carry at least the required size (the
    size is the even share rounded up, or one more where the binary64
    product lands just above an integer). This is checked for every
    integer maximum from 1 to 50, the range [Math.min(..., 50 / length)]
    allows, and every required size up to 100 above it; for a maximum
    [50 / length] that is no integer and a required size up to 50, the
    haulers of the split still carry at least the required size. For required size 25 and maximum 10 the
    result is 3 haulers of size 9, not 10; the same comes out of
    [calculateHaulerRequirements] for a source 110 steps away, a pattern
    of two carry and one move part and 1500 energy capacity. *)
Theorem hauler_split_correct :
  (forall required maxSize,
     1 <= maxSize <= 50 -> maxSize < required <= maxSize + 100 ->
     exists haulerSize numHaulers,
       b64_to_Z (fst (splitHaulers (B64.of_Z required) (B64.of_Z maxSize))) = Some haulerSize
       /\ b64_to_Z (snd (splitHaulers (B64.of_Z required) (B64.of_Z maxSize)))
          = Some numHaulers
       /\ numHaulers = Qceiling (inject_Z required / inject_Z maxSize)%Q
       /\ (numHaulers - 1) * maxSize < required <= numHaulers * maxSize
       /\ required <= haulerSize * numHaulers
       /\ haulerSize <= maxSize
       /\ haulerSize * numHaulers < required + 2 * numHaulers)
  /\ (forall required len,
        1 <= len <= 50 -> 1 <= required <= 50 ->
        B64.ltb (B64.div (B64.of_Z 50) (B64.of_Z len)) (B64.of_Z required) = true ->
        exists haulerSize numHaulers,
          b64_to_Z (fst (splitHaulers (B64.of_Z required)
                                      (B64.div (B64.of_Z 50) (B64.of_Z len))))
          = Some haulerSize
          /\ b64_to_Z (snd (splitHaulers (B64.of_Z required)
                                         (B64.div (B64.of_Z 50) (B64.of_Z len))))
             = Some numHaulers
          /\ 0 < numHaulers
          /\ required <= haulerSize * numHaulers)
  /\ splitHaulers (B64.of_Z 25) (B64.of_Z 10) = (B64.of_Z 9, B64.of_Z 3)
  /\ calculateHaulerRequirements examplePattern exampleCost supplyBrain exampleSource
     = (B64.of_Z 9, B64.of_Z 3).
Proof.
  split; [|split; [|split; vm_compute; reflexivity]].
  - intros required maxSize Hm Hr.
    pose proof (splitCheck_holds required maxSize Hm Hr) as H.
    unfold splitCheck in H.
    destruct (splitHaulers (B64.of_Z required) (B64.of_Z maxSize)) as [size number].
    simpl fst. simpl snd.
    destruct (b64_to_Z size) as [haulerSize|]; [|discriminate].
    destruct (b64_to_Z number) as [numHaulers|]; [|discriminate].
    rewrite !andb_true_iff in H.
    destruct H as [[[[[H1 H2] H3] H4] H5] H6].
    exists haulerSize, numHaulers.
    apply Z.eqb_eq in H1. apply Z.ltb_lt in H2. apply Z.leb_le in H3.
    apply Z.leb_le in H4. apply Z.leb_le in H5. apply Z.ltb_lt in H6.
    repeat split; assumption.
  - intros required len Hl Hr Hlt.
    pose proof (splitCheckFraction_holds required len Hl Hr) as H.
    unfold splitCheckFraction in H. rewrite Hlt in H.
    destruct (splitHaulers (B64.of_Z required) (B64.div (B64.of_Z 50) (B64.of_Z len)))
      as [size number].
    simpl fst. simpl snd.
    destruct (b64_to_Z size) as [haulerSize|]; [|discriminate].
    destruct (b64_to_Z number) as [numHaulers|]; [|discriminate].
    rewrite andb_true_iff in H. destruct H as [H1 H2].
    exists haulerSize, numHaulers.
    apply Z.ltb_lt in H1. apply Z.leb_le in H2.
    repeat split; assumption.
Qed.

(** * The statements at concrete inputs *)

(** C1, the claim as written fails: 25 over 10 gives 3 haulers of size 9,
    and size 10 is not what comes out. *)
Lemma hauler_split_counterexample :
  splitHaulers (B64.of_Z 25) (B64.of_Z 10) = (B64.of_Z 9, B64.of_Z 3)
  /\ splitHaulers (B64.of_Z 25) (B64.of_Z 10) <> (B64.of_Z 10, B64.of_Z 3)
  /\ calculateHaulerRequirements examplePattern exampleCost supplyBrain exampleSource
     <> (B64.of_Z 10, B64.of_Z 3).
Proof.
  split; [vm_compute; reflexivity|].
  split; vm_compute; intros H; discriminate H.
Qed.

Lemma hauler_split_correct_witness :
  (1 <= 10 <= 50 /\ 10 < 25 <= 10 + 100)
  /\ exists haulerSize numHaulers,
       b64_to_Z (fst (splitHaulers (B64.of_Z 25) (B64.of_Z 10))) = Some haulerSize
       /\ b64_to_Z (snd (splitHaulers (B64.of_Z 25) (B64.of_Z 10))) = Some numHaulers
       /\ numHaulers = Qceiling (inject_Z 25 / inject_Z 10)%Q
       /\ (numHaulers - 1) * 10 < 25 <= numHaulers * 10
       /\ 25 <= haulerSize * numHaulers
       /\ haulerSize <= 10
       /\ haulerSize * numHaulers < 25 + 2 * numHaulers.
Proof.
  split; [lia|].
  apply (proj1 hauler_split_correct 25 10); lia.
Defined.

(** The split may give one more than the even share: 21 over 10 is 3
    haulers of size 8, since [10 * (2.1 / 3)] is just above 7 in binary64. *)
Example hauler_split_rounding :
  splitHaulers (B64.of_Z 21) (B64.of_Z 10) = (B64.of_Z 8, B64.of_Z 3).
Proof. vm_compute. reflexivity. Qed.

Lemma priority_exhaustion_witness :
  (includes (assignmentRoles supplyBrain supply) (memory_role hauler3) = true
   /\ assignmentConditions supply hauler3 = true
   /\ In (taskSupply exampleCaps spawnSink) (getTasks exampleCaps supplyBrain supply)
   /\ uncapped (cache noTargets) (taskSupply exampleCaps spawnSink) = true)
  /\ exists taskType task,
       chosenTaskType exampleCaps supplyBrain (cache noTargets)
                      (applicableTasks supplyBrain hauler3) = Some taskType
       /\ getMostUrgentTask exampleCaps supplyBrain (cache noTargets)
                            (applicableTasks supplyBrain hauler3)
          = List.filter (uncapped (cache noTargets)) (getTasks exampleCaps supplyBrain taskType)
       /\ fst (assignTask exampleCaps rangeTo supplyBrain hauler3 noTargets) = Some task
       /\ In task (List.filter (uncapped (cache noTargets))
                               (getTasks exampleCaps supplyBrain taskType))
       /\ (priorityIndex taskType <= priorityIndex supply)%nat
       /\ forall lower, (priorityIndex supply < priorityIndex lower)%nat -> taskType <> lower.
Proof.
  assert (Hin : In (taskSupply exampleCaps spawnSink) (getTasks exampleCaps supplyBrain supply))
    by (vm_compute; left; reflexivity).
  split; [repeat split; try reflexivity; exact Hin|].
  apply (priority_exhaustion exampleCaps rangeTo supplyBrain noTargets hauler3 supply
                             (taskSupply exampleCaps spawnSink));
    [reflexivity | reflexivity | exact Hin | reflexivity].
Defined.

(** The loaded hauler is sent to the tower although the spawn needs
    energy too: supplyTowers ranks above supply. *)
Example priority_exhaustion_example :
  fst (assignTask exampleCaps rangeTo supplyBrain hauler3 noTargets)
  = Some (taskSupply exampleCaps tower1)
  /\ chosenTaskType exampleCaps supplyBrain (cache noTargets)
                    (applicableTasks supplyBrain hauler3) = Some supplyTowers.
Proof. split; vm_compute; reflexivity. Qed.

Lemma commitment_cap_invariant_witness :
  In (taskSupply exampleCaps tower1) (getTasks exampleCaps supplyBrain supplyTowers)
  /\ map (fun a => (creep_name (fst a), objId (target (snd a))))
         (assignLog exampleCaps rangeTo supplyBrain [hauler3; hauler4] supplyLive)
     = [("h3", "tower1"); ("h4", "Spawn1")]
  /\ within (committedTo (taskSupply exampleCaps tower1)
                         (assignLog exampleCaps rangeTo supplyBrain [hauler3; hauler4]
                                    supplyLive))
            (maxPerTarget (taskSupply exampleCaps tower1)).
Proof.
  assert (Hin : In (taskSupply exampleCaps tower1)
                   (getTasks exampleCaps supplyBrain supplyTowers))
    by (vm_compute; left; reflexivity).
  split; [exact Hin|]. split; [vm_compute; reflexivity|].
  exact (proj1 (proj2 (proj2 (commitment_cap_invariant exampleCaps rangeTo supplyBrain)))
               [hauler3; hauler4] supplyLive supplyTowers (taskSupply exampleCaps tower1)
               Hin).
Defined.

(** The second loaded hauler finds the tower taken and goes to the spawn. *)
Example commitment_cap_example :
  cache (assignAll exampleCaps rangeTo supplyBrain [hauler3; hauler4] supplyLive)
  = {[ "tower1" := ["h3"]; "Spawn1" := ["h4"] ]}.
Proof. apply map_eq. intros i. vm_compute. reflexivity. Qed.

(** Two empty haulers are sent to collect from the container, which is
    also listed for repair: two creeps are committed to its collect item
    and none to its repair item, while the container itself is targeted
    by two. *)
Example commitment_per_item_example :
  committedTo (taskRecharge exampleCaps box)
              (assignLog exampleCaps rangeTo supplyBrain [hauler1; hauler2] supplyLive) = 2%nat
  /\ committedTo (taskRepair exampleCaps box)
                 (assignLog exampleCaps rangeTo supplyBrain [hauler1; hauler2] supplyLive)
     = 0%nat
  /\ length (targetedBy
               (cache (assignAll exampleCaps rangeTo supplyBrain [hauler1; hauler2] supplyLive))
               box) = 2%nat.
Proof. repeat split; vm_compute; reflexivity. Qed.

Lemma spawn_scheduler_short_circuit_witness :
  fst (exampleRun true true supplyBrain [])
  = (Some "supplier_1", ["handleSuppliers"; "createCreep"])
  /\ fst (incubationRun supplyBrain [])
     = (Some "hauler_1",
        ["handleSuppliers"; "handleLinkers"; "handleMineralSuppliers"; "handleMiners";
         "handleHaulers"; "handleWorkers"; "handleUpgraders";
         "handleIncubationSpawnOperations"; "createCreep"]).
Proof.
  split.
  - refine (eq_trans (proj1 (spawn_scheduler_short_circuit (list string) string
                      (recording "handleSuppliers" (Some supplierProto))
                      (recording "handleLinkers" None)
                      (recording "handleMineralSuppliers" None)
                      (recording "handleMiners" None)
                      (recording "handleHaulers" None)
                      (recording "handleWorkers" None)
                      (recording "handleUpgraders" None)
                      (fun _ => [])
                      (recording "handleIncubationSpawnOperations" None)
                      (recording "handleAssignedSpawnOperations" None)
                      (recording "handleRemoteHaulers" (Some haulerProto))
                      recordingCreate supplyBrain [])) _).
    vm_compute. reflexivity.
  - refine (eq_trans (proj1 (spawn_scheduler_short_circuit (list string) string
                      (recording "handleSuppliers" None)
                      (recording "handleLinkers" None)
                      (recording "handleMineralSuppliers" None)
                      (recording "handleMiners" None)
                      (recording "handleHaulers" None)
                      (recording "handleWorkers" None)
                      (recording "handleUpgraders" None)
                      (fun _ => [])
                      (recording "handleIncubationSpawnOperations" (Some haulerProto))
                      (recording "handleAssignedSpawnOperations" (Some supplierProto))
                      (recording "handleRemoteHaulers" (Some supplierProto))
                      recordingCreate supplyBrain [])) _).
    vm_compute. reflexivity.
Defined.

(** The call-count check of the spec: when the suppliers handler answers,
    the journal shows that handler and [createCreep] and no collaborator of
    a later stage, although the remote-hauler handler would answer too;
    when only that one answers, every handler before it was called once;
    a spawn that is busy evaluates nothing. *)
Example spawn_scheduler_journal :
  exampleRun true true supplyBrain []
  = (Some "supplier_1", ["handleSuppliers"; "createCreep"],
     [Evaluated Core true;
      CreateCreep (Some [CARRY; CARRY; MOVE]) (Some "supplier_1") (Some "supplier")])
  /\ exampleRun false true supplyBrain []
     = (Some "hauler_1",
        ["handleSuppliers"; "handleLinkers"; "handleMineralSuppliers"; "handleMiners";
         "handleHaulers"; "handleWorkers"; "handleUpgraders";
         "handleIncubationSpawnOperations"; "handleAssignedSpawnOperations";
         "handleRemoteHaulers"; "createCreep"],
        [Evaluated Core false; Evaluated Incubation false; Evaluated Assigned false;
         Evaluated Inferred true;
         CreateCreep (Some [CARRY; CARRY; MOVE]) (Some "hauler_1") (Some "hauler")])
  /\ snd (exampleRun false false supplyBrain [])
     = [Evaluated Core false; Evaluated Incubation false; Evaluated Assigned false;
        Evaluated Inferred false]
  /\ exampleRun true true
       (mkBrain supplyRoom (Some (mkSpawn "Spawn1" true)) false 10000 ∅ defaultAssignmentRoles)
       []
     = (None, [], []).
Proof. repeat split; vm_compute; reflexivity. Qed.

Lemma fortify_selects_lowest_hits_witness :
  chosenTaskType exampleCaps fortifyBrain (cache noTargets)
                 (applicableTasks fortifyBrain fortifier) = Some fortify
  /\ map (fun t => hits (target t))
         (List.filter (uncapped (cache noTargets)) (getTasks exampleCaps fortifyBrain fortify))
     = [500; 2000; 100]
  /\ exists task,
       fst (assignTask exampleCaps rangeTo fortifyBrain fortifier noTargets) = Some task
       /\ hits (target task) = 100
       /\ forall getRangeTo' creep',
            applicableTasks fortifyBrain creep' = applicableTasks fortifyBrain fortifier ->
            fst (assignTask exampleCaps getRangeTo' fortifyBrain creep' noTargets) = Some task.
Proof.
  assert (Hc : chosenTaskType exampleCaps fortifyBrain (cache noTargets)
                              (applicableTasks fortifyBrain fortifier) = Some fortify)
    by (vm_compute; reflexivity).
  split; [exact Hc|]. split; [vm_compute; reflexivity|].
  destruct (fortify_selects_lowest_hits exampleCaps rangeTo fortifyBrain noTargets
                                        fortifier Hc) as (task & Hsel & _ & _ & Hind).
  exists task. split; [exact Hsel|]. split; [|exact Hind].
  vm_compute in Hsel. injection Hsel as <-. reflexivity.
Defined.

(** The creep stands next to the wall of 2000 hit points and 29 squares
    from the one of 100; it is sent to the latter. *)
Example fortify_example :
  fst (assignTask exampleCaps rangeTo fortifyBrain fortifier noTargets)
  = Some (taskFortify exampleCaps wall100)
  /\ rangeTo (creep_pos fortifier) wall2000 = 1
  /\ rangeTo (creep_pos fortifier) wall100 = 29.
Proof. repeat split; vm_compute; reflexivity. Qed.

Lemma nonfortify_selects_nearest_or_first_witness :
  (chosenTaskType exampleCaps buildBrain (cache noTargets)
                  (applicableTasks buildBrain fortifier) = Some build
   /\ creep_room fortifier = room_name (room buildBrain)
   /\ creep_room traveller <> room_name (room buildBrain))
  /\ (exists task,
        fst (assignTask exampleCaps rangeTo buildBrain fortifier noTargets) = Some task
        /\ objId (target task) = "siteB")
  /\ (exists task,
        fst (assignTask exampleCaps rangeTo buildBrain traveller noTargets) = Some task
        /\ objId (target task) = "siteA").
Proof.
  assert (Hc : chosenTaskType exampleCaps buildBrain (cache noTargets)
                              (applicableTasks buildBrain fortifier) = Some build)
    by (vm_compute; reflexivity).
  assert (Hc' : chosenTaskType exampleCaps buildBrain (cache noTargets)
                               (applicableTasks buildBrain traveller) = Some build)
    by (vm_compute; reflexivity).
  assert (Hne : build <> fortify) by discriminate.
  assert (Hout : creep_room traveller <> room_name (room buildBrain))
    by (vm_compute; discriminate).
  split; [split; [exact Hc | split; [reflexivity | exact Hout]]|].
  split.
  - destruct (proj1 (nonfortify_selects_nearest_or_first
                       exampleCaps rangeTo buildBrain noTargets fortifier build Hc Hne)
                    eq_refl) as (task & Hsel & _).
    exists task. split; [exact Hsel|].
    vm_compute in Hsel. injection Hsel as <-. reflexivity.
  - destruct (proj2 (nonfortify_selects_nearest_or_first
                       exampleCaps rangeTo buildBrain noTargets traveller build Hc' Hne)
                    Hout) as (task & pre & post & Hsel & _).
    exists task. split; [exact Hsel|].
    vm_compute in Hsel. injection Hsel as <-. reflexivity.
Defined.

Lemma repair_catalog_predicate_witness :
  In (taskRepair exampleCaps road60) (getTasks exampleCaps supplyBrain repair)
  /\ (task_name (taskRepair exampleCaps road60) = "repair"
      /\ In (target (taskRepair exampleCaps road60)) (repairables (room supplyBrain))
      /\ hits (target (taskRepair exampleCaps road60))
         < hitsMax (target (taskRepair exampleCaps road60))
      /\ ~ (hits (target (taskRepair exampleCaps road60))
            >= hitsMax (target (taskRepair exampleCaps road60)))
      /\ (structureType (target (taskRepair exampleCaps road60)) = STRUCTURE_CONTAINER
          \/ structureType (target (taskRepair exampleCaps road60)) = STRUCTURE_ROAD ->
          (inject_Z (hits (target (taskRepair exampleCaps road60)))
           < (7 # 10) * inject_Z (hitsMax (target (taskRepair exampleCaps road60))))%Q
          /\ 10 * hits (target (taskRepair exampleCaps road60))
             < 7 * hitsMax (target (taskRepair exampleCaps road60)))).
Proof.
  assert (Hin : In (taskRepair exampleCaps road60) (getTasks exampleCaps supplyBrain repair))
    by (vm_compute; right; left; reflexivity).
  split; [exact Hin|].
  exact (repair_catalog_predicate exampleCaps supplyBrain (taskRepair exampleCaps road60) Hin).
Defined.

(** On the hit-point maxima of Screeps roads and containers the binary64
    product [0.7 * hitsMax] is the exact integer, and on small values the
    binary64 comparison and the exact one agree throughout. *)
Example repair_threshold_binary64 :
  map (fun hmax => b64_to_Z (b64_threshold hmax)) [5000; 25000; 750000; 250000]
  = [Some 3500; Some 17500; Some 525000; Some 175000]
  /\ forallb (fun hmax => forallb (fun h => thresholdAgrees h hmax)
                                  (Zrange 0 (Z.to_nat hmax + 1)))
             (Zrange 1 24) = true.
Proof. split; vm_compute; reflexivity. Qed.

(** Of a container at 40%, a road at 60%, a road at 80% and an extension
    at full hit points, the first two are listed for repair. *)
Example repair_catalog_example :
  map (fun t => objId (target t)) (getTasks exampleCaps supplyBrain repair) = ["box"; "road1"].
Proof. vm_compute. reflexivity. Qed.




Lemma pickup_never_assigned_witness :
  map (fun t => objId (target t)) (getTasks exampleCaps supplyBrain pickup) = ["drop1"]
  /\ assignmentConditions pickup hauler1 = true
  /\ (forall task,
        fst (assignTask exampleCaps rangeTo supplyBrain hauler1 noTargets) = Some task ->
        task_name task <> "pickup")
  /\ fst (assignTask exampleCaps rangeTo supplyBrain hauler1 noTargets)
     = Some (taskRecharge exampleCaps box)
  /\ fst (assignTask exampleCaps rangeTo (newRoomBrain dropRoom false) hauler1 noTargets)
     = None.
Proof.
  split; [vm_compute; reflexivity|]. split; [reflexivity|].
  split; [exact (proj2 (proj2 (proj2 (pickup_never_assigned
                                        exampleCaps rangeTo supplyRoom false hauler1
                                        noTargets))))|].
  split; vm_compute; reflexivity.
Defined.

Lemma upgrade_roles_by_level_witness :
  (forall task,
     fst (assignTask exampleCaps rangeTo fortifyBrain8 fortifier noTargets) = Some task ->
     task_name task <> "upgrade")
  /\ fst (assignTask exampleCaps rangeTo fortifyBrain8 fortifier noTargets)
     = Some (taskFortify exampleCaps wall100)
  /\ fst (assignTask exampleCaps rangeTo (newRoomBrain (emptyRoom 8) false) fortifier noTargets)
     = None
  /\ In upgrade (applicableTasks (newRoomBrain (emptyRoom 7) false) fortifier)
  /\ task_name <$> fst (assignTask exampleCaps rangeTo (newRoomBrain (emptyRoom 7) false)
                                   fortifier noTargets)
     = Some "upgrade".
Proof.
  split.
  - intros task H.
    exact (proj2 (proj1 (upgrade_roles_by_level exampleCaps rangeTo (fortifyRoom 8) false
                                                (exampleController 8) eq_refl)
                        eq_refl)
                 fortifier noTargets task eq_refl H).
  - split; [vm_compute; reflexivity|]. split; [vm_compute; reflexivity|].
    split; [|vm_compute; reflexivity].
    apply (proj2 (upgrade_roles_by_level exampleCaps rangeTo (emptyRoom 7) false
                                         (exampleController 7) eq_refl)).
    + discriminate.
    + left. reflexivity.
    + reflexivity.
Defined.

(** * Further properties of the task assignment *)

Lemma newRoomBrain_fortifyLevel r incub :
  fortifyLevel (newRoomBrain r incub) =
  if incub then 10000
  else match controller r with
       | Some c => Z.min (10 ^ Z.max (level c) 3) 1000000
       | None => 1000000
       end.
Proof. reflexivity. Qed.

Lemma fortifyLevel_range r incub :
  1000 <= fortifyLevel (newRoomBrain r incub) <= 1000000.
Proof.
  rewrite newRoomBrain_fortifyLevel. destruct incub; [lia|].
  destruct (controller r) as [c|]; [|lia].
  assert (10 ^ 3 <= 10 ^ Z.max (level c) 3) by (apply Z.pow_le_mono_r; lia).
  change (10 ^ 3) with 1000 in H. lia.
Qed.

(** X1. The fortify threshold a constructed brain works with: an
    incubating room uses 10,000 whatever its controller; otherwise it is
    [10 ^ level] clamped between 1,000 (levels up to 3) and 1,000,000
    (level 6 and above, or no controller), and it never falls when the
    level rises. *)
Theorem fortifyLevel_clamped r incub :
  1000 <= fortifyLevel (newRoomBrain r incub) <= 1000000
  /\ (incub = true -> fortifyLevel (newRoomBrain r incub) = 10000)
  /\ (incub = false -> controller r = None ->
      fortifyLevel (newRoomBrain r incub) = 1000000)
  /\ (forall c, incub = false -> controller r = Some c ->
        (level c <= 3 -> fortifyLevel (newRoomBrain r incub) = 1000)
        /\ (3 <= level c <= 6 -> fortifyLevel (newRoomBrain r incub) = 10 ^ level c)
        /\ (6 <= level c -> fortifyLevel (newRoomBrain r incub) = 1000000))
  /\ (forall r' c c',
        controller r = Some c -> controller r' = Some c' -> level c <= level c' ->
        fortifyLevel (newRoomBrain r false) <= fortifyLevel (newRoomBrain r' false)).
Proof.
  split; [apply fortifyLevel_range|].
  split; [intros ->; reflexivity|].
  split; [intros -> Hc; rewrite newRoomBrain_fortifyLevel, Hc; reflexivity|].
  split.
  - intros c -> Hc. rewrite newRoomBrain_fortifyLevel, Hc. split; [|split].
    + intros Hl. rewrite Z.max_r by lia. reflexivity.
    + intros Hl. rewrite Z.max_l by lia.
      assert (10 ^ level c <= 10 ^ 6) by (apply Z.pow_le_mono_r; lia).
      change (10 ^ 6) with 1000000 in H. lia.
    + intros Hl. rewrite Z.max_l by lia.
      assert (10 ^ 6 <= 10 ^ level c) by (apply Z.pow_le_mono_r; lia).
      change (10 ^ 6) with 1000000 in H. lia.
  - intros r' c c' Hc Hc' Hle. rewrite !newRoomBrain_fortifyLevel, Hc, Hc'.
    assert (10 ^ Z.max (level c) 3 <= 10 ^ Z.max (level c') 3)
      by (apply Z.pow_le_mono_r; lia).
    lia.
Qed.

(** X2. What a constructed brain lists for fortifying: exactly the
    barriers of the room below the fortify threshold, in room order, as
    fortify tasks. So a barrier at a million hit points or more is never
    listed, and in an incubating room none at 10,000 or more. *)
Theorem fortify_catalog_bounds maxPerTargetOf r incub :
  getTasks maxPerTargetOf (newRoomBrain r incub) fortify
  = map (taskFortify maxPerTargetOf)
        (List.filter (fun s => hits s <? fortifyLevel (newRoomBrain r incub)) (barriers r))
  /\ forall task,
       In task (getTasks maxPerTargetOf (newRoomBrain r incub) fortify) ->
       task_name task = "fortify"
       /\ In (target task) (barriers r)
       /\ hits (target task) < 1000000
       /\ (incub = true -> hits (target task) < 10000).
Proof.
  assert (E : getTasks maxPerTargetOf (newRoomBrain r incub) fortify
              = map (taskFortify maxPerTargetOf)
                    (List.filter (fun s => hits s <? fortifyLevel (newRoomBrain r incub))
                                 (barriers r))).
  { simpl. rewrite lookup_empty. reflexivity. }
  split; [exact E|].
  intros task Hin. rewrite E in Hin.
  apply in_map_iff in Hin. destruct Hin as (s & <- & Hs).
  apply filter_In in Hs. destruct Hs as [Hb Hlt]. apply Z.ltb_lt in Hlt.
  pose proof (fortifyLevel_range r incub) as Hr.
  split; [reflexivity|]. split; [exact Hb|]. split; [simpl; lia|].
  intros ->. rewrite newRoomBrain_fortifyLevel in Hlt. exact Hlt.
Qed.

(** X3. [getMostUrgentTask]: the result is empty exactly when no task of
    any requested type is below its cap (in particular for no types at
    all); every task returned is below its cap, and all of them come from
    one and the same requested type. *)
Theorem getMostUrgentTask_result maxPerTargetOf b cache tasksToGet :
  (getMostUrgentTask maxPerTargetOf b cache tasksToGet = [] <->
   forall taskType task,
     In taskType tasksToGet -> In task (getTasks maxPerTargetOf b taskType) ->
     uncapped cache task = false)
  /\ (forall task,
        In task (getMostUrgentTask maxPerTargetOf b cache tasksToGet) ->
        uncapped cache task = true)
  /\ (getMostUrgentTask maxPerTargetOf b cache tasksToGet <> [] ->
      exists taskType,
        In taskType tasksToGet
        /\ getMostUrgentTask maxPerTargetOf b cache tasksToGet
           = List.filter (uncapped cache) (getTasks maxPerTargetOf b taskType)).
Proof.
  split; [|split].
  - induction tasksToGet as [|t rest IH]; simpl.
    + split; [intros _ ? ? [] | reflexivity].
    + destruct (List.filter (uncapped cache) (getTasks maxPerTargetOf b t)) as [|x l] eqn:E.
      * rewrite IH. split.
        -- intros H taskType task [Heq | Hin] Ht; [subst taskType|eapply H; eassumption].
           destruct (uncapped cache task) eqn:Hu; [|reflexivity].
           assert (Hf : In task (List.filter (uncapped cache)
                                             (getTasks maxPerTargetOf b t)))
             by (apply filter_In; tauto).
           rewrite E in Hf. destruct Hf.
        -- intros H taskType task Hin Ht. apply (H taskType task); [now right | exact Ht].
      * split; [discriminate|]. intros H. exfalso.
        assert (Hx : In x (List.filter (uncapped cache) (getTasks maxPerTargetOf b t)))
          by (rewrite E; now left).
        apply filter_In in Hx. destruct Hx as [Hx Hu].
        rewrite (H t x (or_introl eq_refl) Hx) in Hu. discriminate.
  - intros task. rewrite getMostUrgentTask_chosen.
    destruct (chosenTaskType maxPerTargetOf b cache tasksToGet); [|intros []].
    intros H. apply filter_In in H. tauto.
  - rewrite getMostUrgentTask_chosen.
    destruct (chosenTaskType maxPerTargetOf b cache tasksToGet) as [t|] eqn:E;
      [|intros H; contradiction].
    intros _. exists t. split; [|reflexivity].
    apply (chosenTaskType_nonempty _ _ _ _ _ E).
Qed.

Lemma constructed_roles_In r incub taskType role :
  In role (assignmentRoles (newRoomBrain r incub) taskType) ->
  In role (defaultAssignmentRoles taskType).
Proof.
  unfold newRoomBrain; simpl.
  destruct (controller r) as [c|]; [|tauto].
  destruct (level c =? 8); [|tauto].
  unfold setRoles. destruct (decide (taskType = upgrade)) as [-> | _]; [|tauto].
  simpl. tauto.
Qed.

(** X4. In a constructed brain the role decides what a creep can be handed:
    a supplier only supply tasks, a hauler supply or recharge, a miner or
    a guard repair or build, a worker repair, build, fortify or upgrade,
    an upgrader only upgrade; a creep of any other role is never assigned
    anything. *)
Theorem assignment_by_role maxPerTargetOf getRangeTo r incub creep g :
  (forall task,
     fst (assignTask maxPerTargetOf getRangeTo (newRoomBrain r incub) creep g) = Some task ->
     (memory_role creep = "supplier" /\ task_name task = "supply")
     \/ (memory_role creep = "hauler"
         /\ (task_name task = "supply" \/ task_name task = "recharge"))
     \/ ((memory_role creep = "miner" \/ memory_role creep = "guard")
         /\ (task_name task = "repair" \/ task_name task = "build"))
     \/ (memory_role creep = "worker"
         /\ (task_name task = "repair" \/ task_name task = "build"
             \/ task_name task = "fortify" \/ task_name task = "upgrade"))
     \/ (memory_role creep = "upgrader" /\ task_name task = "upgrade"))
  /\ (~ In (memory_role creep) ["supplier"; "hauler"; "miner"; "guard"; "worker"; "upgrader"] ->
      assignTask maxPerTargetOf getRangeTo (newRoomBrain r incub) creep g = (None, g)).
Proof.
  assert (Hmain : forall task,
     fst (assignTask maxPerTargetOf getRangeTo (newRoomBrain r incub) creep g) = Some task ->
     (memory_role creep = "supplier" /\ task_name task = "supply")
     \/ (memory_role creep = "hauler"
         /\ (task_name task = "supply" \/ task_name task = "recharge"))
     \/ ((memory_role creep = "miner" \/ memory_role creep = "guard")
         /\ (task_name task = "repair" \/ task_name task = "build"))
     \/ (memory_role creep = "worker"
         /\ (task_name task = "repair" \/ task_name task = "build"
             \/ task_name task = "fortify" \/ task_name task = "upgrade"))
     \/ (memory_role creep = "upgrader" /\ task_name task = "upgrade")).
  { intros task H.
    destruct (assignTask_from_applicable _ _ _ _ _ _ H) as (t & _ & Happ & _ & _ & Hn).
    apply applicableTasks_In in Happ. destruct Happ as [Hrole _].
    apply includes_In, constructed_roles_In in Hrole.
    rewrite Hn. destruct t; simpl in Hrole |- *; intuition (subst; auto 10). }
  split; [exact Hmain|].
  intros Hout.
  destruct (assignTask maxPerTargetOf getRangeTo (newRoomBrain r incub) creep g)
    as [[task|] g'] eqn:E.
  - exfalso. apply Hout. specialize (Hmain task eq_refl). simpl.
    destruct Hmain as [[-> _] | [[-> _] | [[[-> | ->] _] | [[-> _] | [-> _]]]]]; auto 10.
  - f_equal. change g' with (snd (None : option Task, g')). rewrite <- E.
    apply assignTask_idle. rewrite E. reflexivity.
Qed.

Lemma assignTask_none maxPerTargetOf getRangeTo b creep g :
  fst (assignTask maxPerTargetOf getRangeTo b creep g) = None ->
  assignTask maxPerTargetOf getRangeTo b creep g = (None, g).
Proof.
  intros H. pose proof (assignTask_idle _ _ _ _ _ H) as Hs.
  destruct (assignTask maxPerTargetOf getRangeTo b creep g) as [o g'].
  simpl in *. congruence.
Qed.

Lemma assignTask_condition maxPerTargetOf getRangeTo b creep g task :
  fst (assignTask maxPerTargetOf getRangeTo b creep g) = Some task ->
  exists taskType,
    includes (assignmentRoles b taskType) (memory_role creep) = true
    /\ assignmentConditions taskType creep = true
    /\ task_name task = taskToExecute taskType.
Proof.
  intros H.
  destruct (assignTask_from_applicable _ _ _ _ _ _ H) as (t & _ & Happ & _ & _ & Hn).
  apply applicableTasks_In in Happ. exists t. tauto.
Qed.

(** X5. The load decides the kind of work in a constructed brain: a creep
    that carries no energy can only be handed a recharge task, and only if
    it is a hauler with free capacity, so every other creep without energy
    stays idle; a creep that is full is never handed a recharge task. *)
Theorem load_decides_task_kind maxPerTargetOf getRangeTo r incub creep g :
  (carry_energy creep <= 0 ->
   (forall task,
      fst (assignTask maxPerTargetOf getRangeTo (newRoomBrain r incub) creep g) = Some task ->
      task_name task = "recharge" /\ memory_role creep = "hauler"
      /\ carry_energy creep < carryCapacity creep)
   /\ (memory_role creep <> "hauler" ->
       assignTask maxPerTargetOf getRangeTo (newRoomBrain r incub) creep g = (None, g)))
  /\ (carryCapacity creep <= carry_energy creep ->
      forall task,
        fst (assignTask maxPerTargetOf getRangeTo (newRoomBrain r incub) creep g) = Some task ->
        task_name task <> "recharge" /\ task_name task <> "pickup").
Proof.
  split.
  - intros He.
    assert (Hmain : forall task,
      fst (assignTask maxPerTargetOf getRangeTo (newRoomBrain r incub) creep g) = Some task ->
      task_name task = "recharge" /\ memory_role creep = "hauler"
      /\ carry_energy creep < carryCapacity creep).
    { intros task H.
      destruct (assignTask_condition _ _ _ _ _ _ H) as (t & Hrole & Hcond & ->).
      apply includes_In, constructed_roles_In in Hrole.
      destruct t; simpl in Hrole, Hcond;
        rewrite andb_true_iff, !Z.ltb_lt in Hcond; try lia.
      destruct Hrole as [<- | []]. simpl. repeat split; try reflexivity; lia. }
    split; [exact Hmain|].
    intros Hrole. apply assignTask_none.
    destruct (fst (assignTask maxPerTargetOf getRangeTo (newRoomBrain r incub) creep g))
      as [task|] eqn:E; [|reflexivity].
    destruct (Hmain task eq_refl) as (_ & Hh & _). contradiction.
  - intros Hfull task H.
    destruct (assignTask_condition _ _ _ _ _ _ H) as (t & _ & Hcond & ->).
    destruct t; simpl in Hcond |- *;
      rewrite andb_true_iff, !Z.ltb_lt in Hcond; try lia; split; discriminate.
Qed.

(** X6. The body decides too, in every brain: a task of supplying,
    recharging or picking up is only handed to a creep with an active
    CARRY part, one of repairing, building, fortifying or upgrading only
    to a creep with an active WORK part that carries energy; a creep with
    neither part has no applicable task type and is never assigned. *)
Theorem body_parts_required maxPerTargetOf getRangeTo b creep g :
  (forall task,
     fst (assignTask maxPerTargetOf getRangeTo b creep g) = Some task ->
     (In (task_name task) ["supply"; "recharge"; "pickup"] ->
      0 < getActiveBodyparts creep CARRY)
     /\ (In (task_name task) ["repair"; "build"; "fortify"; "upgrade"] ->
         0 < getActiveBodyparts creep WORK /\ 0 < carry_energy creep))
  /\ (getActiveBodyparts creep CARRY <= 0 -> getActiveBodyparts creep WORK <= 0 ->
      applicableTasks b creep = []
      /\ assignTask maxPerTargetOf getRangeTo b creep g = (None, g)).
Proof.
  split.
  - intros task H.
    destruct (assignTask_condition _ _ _ _ _ _ H) as (t & _ & Hcond & ->).
    destruct t; simpl in Hcond |- *;
      rewrite andb_true_iff, !Z.ltb_lt in Hcond;
      (split; intros Hin; first [lia | exfalso; simpl in Hin; intuition discriminate]).
  - intros Hc Hw.
    assert (Happ : applicableTasks b creep = []).
    { destruct (applicableTasks b creep) as [|t l] eqn:E; [reflexivity|]. exfalso.
      assert (Hin : In t (applicableTasks b creep)) by (rewrite E; now left).
      apply applicableTasks_In in Hin. destruct Hin as [_ Hcond].
      destruct t; simpl in Hcond; rewrite andb_true_iff, !Z.ltb_lt in Hcond; lia. }
    split; [exact Happ|].
    unfold assignTask, selectTask. rewrite Happ. reflexivity.
Qed.

Lemma StronglySorted_List_filter {A} (R : A -> A -> Prop) (f : A -> bool) (l : list A) :
  StronglySorted R l -> StronglySorted R (List.filter f l).
Proof.
  induction 1 as [|a l Hs IH Hall]; simpl; [constructor|].
  destruct (f a); [|exact IH].
  constructor; [exact IH|].
  rewrite Forall_forall in Hall |- *.
  intros x Hx. apply list_elem_of_In, filter_In in Hx. apply Hall, list_elem_of_In. tauto.
Qed.

(** X7. The eligibility filter narrows the priority list and never
    reorders it: the applicable task types of a creep are strictly
    ascending in priority index (hence without repetition), and a type is
    among them exactly when the creep's role is allowed for it and the
    creep meets its condition. *)
Theorem applicableTasks_order b creep :
  StronglySorted (fun t1 t2 => (priorityIndex t1 < priorityIndex t2)%nat)
                 (applicableTasks b creep)
  /\ NoDup (applicableTasks b creep)
  /\ forall taskType,
       In taskType (applicableTasks b creep) <->
       In (memory_role creep) (assignmentRoles b taskType)
       /\ assignmentConditions taskType creep = true.
Proof.
  assert (Hs : StronglySorted (fun t1 t2 => (priorityIndex t1 < priorityIndex t2)%nat)
                              (applicableTasks b creep)).
  { apply StronglySorted_List_filter. unfold taskPriorities.
    repeat (constructor; [|repeat (constructor; [simpl; lia|]); constructor]).
    constructor. }
  split; [exact Hs|]. split.
  - induction Hs as [|a l _ IH Hall]; constructor; [|exact IH].
    intros Hin. rewrite Forall_forall in Hall. specialize (Hall a Hin). lia.
  - intros t. rewrite applicableTasks_In, includes_In. reflexivity.
Qed.

Lemma head_filter_none {A} (f : A -> bool) (l : list A) :
  head (List.filter f l) = None <-> forall x, In x l -> f x = false.
Proof.
  induction l as [|a l IH]; simpl.
  - split; [intros _ ? [] | reflexivity].
  - destruct (f a) eqn:E; simpl.
    + split; [discriminate|]. intros H. specialize (H a (or_introl eq_refl)). congruence.
    + rewrite IH. split.
      * intros H x [<- | Hin]; [exact E | now apply H].
      * intros H x Hin. apply H. now right.
Qed.

(** X8. The spawn of a constructed brain is the first spawn of the room
    that is not spawning, and there is none exactly when every spawn is
    busy; so the guard of [handleSpawnOperations] lets a constructed brain
    through exactly when the room has an idle spawn. *)
Theorem constructed_spawn_idle r incub :
  (forall s, spawn (newRoomBrain r incub) = Some s ->
     spawning s = false
     /\ exists pre post, spawns r = (pre ++ s :: post)%list
                         /\ forall s', In s' pre -> spawning s' = true)
  /\ (spawn (newRoomBrain r incub) = None <-> forall s, In s (spawns r) -> spawning s = true)
  /\ (spawnAvailable (newRoomBrain r incub) = true <->
      exists s, In s (spawns r) /\ spawning s = false).
Proof.
  assert (H1 : forall s, spawn (newRoomBrain r incub) = Some s ->
     spawning s = false
     /\ exists pre post, spawns r = (pre ++ s :: post)%list
                         /\ forall s', In s' pre -> spawning s' = true).
  { intros s H. simpl in H. apply head_filter_first in H.
    destruct H as (pre & post & E & Hs & Hpre).
    apply negb_true_iff in Hs. split; [exact Hs|].
    exists pre, post. split; [exact E|].
    intros s' Hin. specialize (Hpre s' Hin). now apply negb_false_iff in Hpre. }
  assert (H2 : spawn (newRoomBrain r incub) = None <->
               forall s, In s (spawns r) -> spawning s = true).
  { simpl. rewrite head_filter_none. split.
    - intros H s Hin. specialize (H s Hin). now apply negb_false_iff in H.
    - intros H s Hin. apply negb_false_iff. now apply H. }
  split; [exact H1|]. split; [exact H2|].
  unfold spawnAvailable.
  destruct (spawn (newRoomBrain r incub)) as [s|] eqn:E.
  - destruct (H1 s eq_refl) as (Hs & pre & post & Hl & _). rewrite Hs. simpl.
    split; [|reflexivity]. intros _. exists s. split; [|exact Hs].
    rewrite Hl. apply in_or_app. right. now left.
  - split; [discriminate|]. intros (s & Hin & Hs).
    rewrite (proj1 H2 eq_refl s Hin) in Hs. discriminate.
Qed.

(** X9. A creep is only ever sent where the work is needed. The task
    [assignTask] hands out in a constructed brain is below its cap of
    creeps per target, and its target is: for supplying, a tower or sink
    of the room that is not full; for recharging, a container of the room
    holding more than 1,000 energy; for repairing, a repairable of the
    room below its full hit points; for building, a construction site of
    the room; for fortifying, a barrier of the room below the fortify
    threshold; for upgrading, the room's own controller. *)
Theorem assigned_target_needs_work maxPerTargetOf getRangeTo r incub creep g task :
  fst (assignTask maxPerTargetOf getRangeTo (newRoomBrain r incub) creep g) = Some task ->
  uncapped (cache g) task = true
  /\ (task_name task = "supply" ->
      In (target task) (towers r ++ sinks r)
      /\ energy (target task) < energyCapacity (target task))
  /\ (task_name task = "recharge" ->
      In (target task) (containers r) /\ 1000 < store_energy (target task))
  /\ (task_name task = "repair" ->
      In (target task) (repairables r) /\ hits (target task) < hitsMax (target task))
  /\ (task_name task = "build" -> In (target task) (structureSites r ++ roadSites r))
  /\ (task_name task = "fortify" ->
      In (target task) (barriers r)
      /\ hits (target task) < fortifyLevel (newRoomBrain r incub))
  /\ (task_name task = "upgrade" ->
      exists c, controller r = Some c /\ my c = true /\ target task = controller_object c).
Proof.
  intros H.
  destruct (assignTask_from_applicable maxPerTargetOf getRangeTo _ _ _ _ H)
    as (taskType & _ & _ & Hin & Hcap & Hname).
  split; [exact Hcap|].
  rewrite Hname. clear H Hcap Hname.
  change (room (newRoomBrain r incub)) with r in *.
  destruct taskType; simpl in Hin |- *;
    (split; [|split; [|split; [|split; [|split]]]]); intros Heq; try discriminate Heq;
    clear Heq;
    try (apply in_map_iff in Hin; destruct Hin as (o & <- & Hin); simpl;
         try (apply filter_In in Hin; destruct Hin as [Hin Hf])).
  all: change (room (newRoomBrain r incub)) with r in *.
  - split; [apply in_or_app; now left | now apply Z.ltb_lt].
  - split; [apply in_or_app; now right | now apply Z.ltb_lt].
  - split; [assumption | now apply Z.ltb_lt].
  - split; [assumption|]. unfold needsRepair in Hf.
    rewrite !andb_true_iff in Hf. destruct Hf as [[Hf _] _]. now apply Z.ltb_lt.
  - apply in_or_app. now left.
  - apply in_or_app. now right.
  - split; [assumption|]. apply Z.ltb_lt. exact Hf.
  - destruct (controller r) as [c|]; [|destruct Hin].
    destruct (my c) eqn:Hmy; [|destruct Hin].
    destruct Hin as [<- | []]. exists c. auto.
Qed.

(** * Further properties of the spawn scheduler *)

Lemma firstNonNull_answer {World A} (pre : list (M World (option A))) h post w w' r :
  Skips pre w w' ->
  fst (fst (h w')) = Some r ->
  fst (firstNonNull World (pre ++ h :: post) w) = (Some r, snd (fst (h w'))).
Proof.
  induction 1 as [w | h0 rest w w' H0 _ IH]; intros Hr; simpl.
  - unfold bind. destruct (h w) as [[o w1] l1]. simpl in *. subst o. reflexivity.
  - unfold bind at 1. destruct (h0 w) as [[o w1] l1]. simpl in *. subst o.
    specialize (IH Hr).
    destruct (firstNonNull World (rest ++ h :: post) w1) as [[o2 w2] l2].
    simpl in *. exact IH.
Qed.

Lemma firstNonNull_shape {World A} (handlers : list (M World (option A))) w :
  match fst (fst (firstNonNull World handlers w)) with
  | Some r =>
      exists pre h post w',
        handlers = (pre ++ h :: post)%list
        /\ Skips pre w w'
        /\ fst (fst (h w')) = Some r
        /\ snd (fst (firstNonNull World handlers w)) = snd (fst (h w'))
  | None => Skips handlers w (snd (fst (firstNonNull World handlers w)))
  end.
Proof.
  revert w. induction handlers as [|h rest IH]; intros w; simpl.
  - constructor.
  - unfold bind. destruct (h w) as [[o w1] l1] eqn:E. destruct o as [r|]; simpl.
    + exists [], h, rest, w. rewrite E. simpl. repeat split. constructor.
    + specialize (IH w1).
      destruct (firstNonNull World rest w1) as [[o2 w2] l2]. simpl in *.
      destruct o2 as [r|].
      * destruct IH as (pre & h' & post & w' & -> & Hs & Hr & Hw).
        exists (h :: pre), h', post, w'. repeat split; try assumption.
        constructor; rewrite E; simpl; [reflexivity | exact Hs].
      * constructor; rewrite E; simpl; [reflexivity | exact IH].
Qed.

(** X10. The handler loop of the scheduler ([for (let handler of ...)]
    with a return on the first non-null response): if it answers, the
    answer is that of the first handler that answered, every handler
    before it ran and answered nothing, the world is the one that handler
    left, and no later handler has run; if it answers nothing, every
    handler ran and answered nothing. Conversely the first answer always
    comes through, whatever the handlers after it would do. *)
Theorem firstNonNull_first_answer {World A} (handlers : list (M World (option A))) w :
  (forall r,
     fst (fst (firstNonNull World handlers w)) = Some r ->
     exists pre h post w',
       handlers = (pre ++ h :: post)%list
       /\ Skips pre w w'
       /\ fst (fst (h w')) = Some r
       /\ snd (fst (firstNonNull World handlers w)) = snd (fst (h w')))
  /\ (fst (fst (firstNonNull World handlers w)) = None ->
      Skips handlers w (snd (fst (firstNonNull World handlers w))))
  /\ (forall pre h post w' r,
        handlers = (pre ++ h :: post)%list ->
        Skips pre w w' ->
        fst (fst (h w')) = Some r ->
        fst (firstNonNull World handlers w) = (Some r, snd (fst (h w')))).
Proof.
  pose proof (firstNonNull_shape handlers w) as H.
  split; [|split].
  - intros r Hr. rewrite Hr in H. exact H.
  - intros Hn. rewrite Hn in H. exact H.
  - intros pre h post w' r -> Hs Hr. now apply firstNonNull_answer.
Qed.

Section CoreTheory.

Variable World : Type.
Variable CreateResult : Type.
Variable handleSuppliers : World -> option protoCreep * World.
Variable handleLinkers : World -> option protoCreep * World.
Variable handleMineralSuppliers : World -> option protoCreep * World.
Variable handleMiners : World -> option protoCreep * World.
Variable handleHaulers : World -> option protoCreep * World.
Variable handleWorkers : World -> option protoCreep * World.
Variable handleUpgraders : World -> option protoCreep * World.
Variable creepsNeedingRenewal : World -> list string.
Variable handleIncubationSpawnOperations : World -> option protoCreep * World.
Variable handleAssignedSpawnOperations : World -> option protoCreep * World.
Variable handleRemoteHaulers : World -> option protoCreep * World.
Variable createCreep :
  option (list BodyPart) -> option string -> option string -> World -> CreateResult * World.

Local Abbreviation core :=
  (handleCoreSpawnOperations World handleSuppliers handleLinkers handleMineralSuppliers
     handleMiners handleHaulers handleWorkers handleUpgraders creepsNeedingRenewal).
Local Abbreviation domestic :=
  [ asResponse World handleSuppliers;
    asResponse World handleLinkers;
    asResponse World handleMineralSuppliers;
    asResponse World handleMiners;
    asResponse World handleHaulers;
    asResponse World handleWorkers;
    asResponse World handleUpgraders ].
Local Abbreviation loop :=
  (spawnLoop World CreateResult handleSuppliers handleLinkers handleMineralSuppliers
     handleMiners handleHaulers handleWorkers handleUpgraders creepsNeedingRenewal
     handleIncubationSpawnOperations handleAssignedSpawnOperations handleRemoteHaulers
     createCreep).
Local Abbreviation schedule :=
  (handleSpawnOperations World CreateResult handleSuppliers handleLinkers
     handleMineralSuppliers handleMiners handleHaulers handleWorkers handleUpgraders
     creepsNeedingRenewal handleIncubationSpawnOperations handleAssignedSpawnOperations
     handleRemoteHaulers createCreep).

Lemma asResponse_eq (h : World -> option protoCreep * World) w :
  fst (asResponse World h w) = (option_map Proto (fst (h w)), snd (h w)).
Proof. unfold asResponse, bind, lift, ret. destruct (h w). reflexivity. Qed.

Lemma asResponse_not_message (h : World -> option protoCreep * World) w text :
  fst (fst (asResponse World h w)) <> Some (Message text).
Proof. rewrite asResponse_eq. simpl. destruct (fst (h w)); discriminate. Qed.

Lemma core_eq w :
  fst (core w) =
  match fst (fst (firstNonNull World domestic w)) with
  | Some r => (Some r, snd (fst (firstNonNull World domestic w)))
  | None =>
      (if (0 <? length (creepsNeedingRenewal (snd (fst (firstNonNull World domestic w)))))%nat
       then Some (Message "renewing (renew call is done through task_getRenewed.work)")
       else None,
       snd (fst (firstNonNull World domestic w)))
  end.
Proof.
  unfold handleCoreSpawnOperations, bind.
  destruct (firstNonNull World domestic w) as [[o w1] l1]. simpl.
  destruct o as [r|]; [reflexivity|].
  unfold lift, ret. simpl.
  destruct (0 <? length (creepsNeedingRenewal w1))%nat; reflexivity.
Qed.

(** X11. The core stage: a supplier request comes first, so when
    [handleSuppliers] answers, the core stage returns that answer, the
    world is the one [handleSuppliers] left and no other domestic handler
    has run. The renewal message is returned only when all seven domestic
    handlers ran and answered nothing and a creep needs renewal; nothing
    is returned only when they all answered nothing and no creep needs
    renewal. The renewal check itself leaves the world as it is. *)
Theorem core_domestic_priority w :
  (forall c, fst (handleSuppliers w) = Some c ->
             fst (core w) = (Some (Proto c), snd (handleSuppliers w)))
  /\ (forall text,
        fst (fst (core w)) = Some (Message text) ->
        text = "renewing (renew call is done through task_getRenewed.work)"
        /\ Skips domestic w (snd (fst (core w)))
        /\ creepsNeedingRenewal (snd (fst (core w))) <> [])
  /\ (fst (fst (core w)) = None ->
      Skips domestic w (snd (fst (core w)))
      /\ creepsNeedingRenewal (snd (fst (core w))) = []).
Proof.
  pose proof (firstNonNull_shape domestic w) as Hshape.
  rewrite core_eq.
  split; [|split].
  - intros c Hc.
    assert (Hf : fst (firstNonNull World domestic w)
                 = (Some (Proto c), snd (handleSuppliers w))).
    { pose proof (firstNonNull_answer (World := World) []
                    (asResponse World handleSuppliers)
                    [ asResponse World handleLinkers;
                      asResponse World handleMineralSuppliers;
                      asResponse World handleMiners;
                      asResponse World handleHaulers;
                      asResponse World handleWorkers;
                      asResponse World handleUpgraders ]
                    w w (Proto c) (Skips_nil w)) as H.
      rewrite asResponse_eq in H. simpl in H. rewrite Hc in H.
      exact (H eq_refl). }
    rewrite Hf. reflexivity.
  - intros text.
    destruct (fst (fst (firstNonNull World domestic w))) as [r|] eqn:E; cbn [fst snd].
    + destruct Hshape as (pre & h & post & w' & Hl & _ & Hr & _).
      intros [= ->]. exfalso.
      assert (Hin : In h domestic) by (rewrite Hl; apply in_or_app; right; now left).
      simpl in Hin.
      repeat (destruct Hin as [<- | Hin]; [exact (asResponse_not_message _ _ _ Hr)|]).
      destruct Hin.
    + destruct (0 <? length (creepsNeedingRenewal
                               (snd (fst (firstNonNull World domestic w)))))%nat eqn:Hlen;
        cbn [fst snd]; [|intros Hx; discriminate Hx].
      intros [= <-]. split; [reflexivity|]. split; [exact Hshape|].
      intros Hnil. rewrite Hnil in Hlen. discriminate.
  - destruct (fst (fst (firstNonNull World domestic w))) as [r|] eqn:E; cbn [fst snd];
      [intros Hx; discriminate Hx|].
    destruct (0 <? length (creepsNeedingRenewal
                             (snd (fst (firstNonNull World domestic w)))))%nat eqn:Hlen;
      cbn [fst snd]; [intros Hx; discriminate Hx|].
    intros _. split; [exact Hshape|].
    destruct (creepsNeedingRenewal (snd (fst (firstNonNull World domestic w))));
      [reflexivity | discriminate].
Qed.

(** X12. Renewal reaches the spawn as a creation call: when the core
    stage returns its renewal message (a string, not a creep), a brain
    with an available spawn calls [createCreep] once with body, name and
    memory all undefined, returns what that call returns, and evaluates no
    further stage. *)
Theorem renewal_calls_createCreep_undefined b w text :
  spawnAvailable b = true ->
  fst (fst (core w)) = Some (Message text) ->
  snd (schedule b w) = [Evaluated Core true; CreateCreep None None None]
  /\ fst (schedule b w)
     = (Some (fst (createCreep None None None (snd (fst (core w))))),
        snd (createCreep None None None (snd (fst (core w))))).
Proof.
  intros Hav Hmsg.
  assert (Hrun : schedule b w = loop prioritizedSpawnOperations w).
  { unfold handleSpawnOperations. unfold spawnAvailable in Hav.
    destruct (spawn b) as [sp|]; [|discriminate].
    rewrite Hav. reflexivity. }
  rewrite Hrun. unfold prioritizedSpawnOperations. rewrite loop_cons.
  change (spawnOperation World handleSuppliers handleLinkers handleMineralSuppliers
            handleMiners handleHaulers handleWorkers handleUpgraders creepsNeedingRenewal
            handleIncubationSpawnOperations handleAssignedSpawnOperations
            handleRemoteHaulers Core w) with (core w).
  rewrite Hmsg. simpl.
  destruct (createCreep None None None (snd (fst (core w)))) as [res w2].
  split; reflexivity.
Qed.

End CoreTheory.

(** * The role handlers *)

Lemma find_first {A} (f : A -> bool) (l : list A) (a : A) :
  find f l = Some a ->
  exists pre post, l = (pre ++ a :: post)%list /\ f a = true
                   /\ forall x, In x pre -> f x = false.
Proof.
  induction l as [|x l IH]; simpl; [discriminate|].
  destruct (f x) eqn:E.
  - intros [= <-]. exists [], l. split; [reflexivity|]. split; [exact E|]. intros ? [].
  - intros H. destruct (IH H) as (pre & post & -> & Ha & Hpre).
    exists (x :: pre), post. split; [reflexivity|]. split; [exact Ha|].
    intros y [<- | Hy]; [exact E | now apply Hpre].
Qed.

Lemma minersPerSource_one b : minersPerSource (settingsOf b) = 1.
Proof. unfold settingsOf. destruct (incubating b); reflexivity. Qed.

Lemma supplierLimit_four b : supplierPatternRepetitionLimit (settingsOf b) = 4.
Proof. unfold settingsOf. destruct (incubating b); reflexivity. Qed.

(** A number that is not below zero: no negative finite value and no
    negative infinity. *)
Lemma of_Z_not_below_zero (n : Z) :
  0 <= n -> B64.ltb (B64.of_Z n) (B64.of_Z 0) = false.
Proof.
  intros Hn. unfold B64.ltb, B64.of_Z, binary_normalize.
  destruct n as [|p|p]; [reflexivity| |lia].
  unfold binary_round.
  destruct (shl_align p 0 (fexp B64.prec B64.emax (Z.pos (digits2_pos p) + 0)))
    as [mz ez].
  unfold binary_round_aux.
  destruct (shr_fexp B64.prec B64.emax (Z.pos mz) ez loc_Exact) as [mrs' e'].
  destruct (shr_fexp B64.prec B64.emax
              (round_nearest_even (shr_m mrs') (loc_of_shr_record mrs')) e' loc_Exact)
    as [mrs'' e''].
  destruct (shr_m mrs'') as [|m|m]; [reflexivity| |reflexivity].
  destruct (e'' <=? B64.emax - B64.prec); reflexivity.
Qed.

Section HandlerTheory.

Variable getAssignedCreepAmounts : string -> string -> Z.
Variable workerBodyPattern : list BodyPart.
Variable haulerBodyPattern : list BodyPart.
Variable upgraderBodyPatternCost : Z.
Variable spawn_cost : list BodyPart -> Z.

(** X13. Miners: a brain never asks for a miner while incubating;
    otherwise it asks for one exactly when some source of the room has no
    miner assigned, and then for the first such source in room order,
    with three pattern repetitions and the room as work room. *)
Theorem handleMiners_first_unmanned b e :
  (incubating b = true -> handleMiners getAssignedCreepAmounts b e = None)
  /\ (forall call,
        handleMiners getAssignedCreepAmounts b e = Some call ->
        incubating b = false
        /\ call = create b roleMiner (call_assignment call) (B64.of_Z 3)
        /\ exists pre source post,
             room_sources e = (pre ++ source :: post)%list
             /\ call_assignment call = source_ref source
             /\ getAssignedCreepAmounts (source_ref source) "miner" < 1
             /\ forall s, In s pre -> 1 <= getAssignedCreepAmounts (source_ref s) "miner")
  /\ (incubating b = false ->
      (handleMiners getAssignedCreepAmounts b e = None <->
       forall s, In s (room_sources e) ->
                 1 <= getAssignedCreepAmounts (source_ref s) "miner")).
Proof.
  unfold handleMiners. rewrite minersPerSource_one.
  destruct (incubating b).
  - split; [reflexivity|]. split; [discriminate | discriminate].
  - split; [discriminate|].
    destruct (find (fun source => getAssignedCreepAmounts (source_ref source) "miner" <? 1)
                   (room_sources e)) as [source|] eqn:E.
    + split.
      * intros call [= <-]. split; [reflexivity|]. split; [reflexivity|].
        destruct (find_first _ _ _ E) as (pre & post & Hl & Hs & Hpre).
        exists pre, source, post. apply Z.ltb_lt in Hs.
        repeat split; try assumption.
        intros s Hin. specialize (Hpre s Hin). apply Z.ltb_ge in Hpre. exact Hpre.
      * intros _. split; [discriminate|]. intros H. exfalso.
        apply find_some in E. destruct E as [Hin Hs]. apply Z.ltb_lt in Hs.
        specialize (H source Hin). lia.
    + split; [discriminate|]. intros _. split; [|reflexivity]. intros _ s Hin.
      pose proof (find_none _ _ E s Hin) as Hs. apply Z.ltb_ge in Hs. exact Hs.
Qed.

(** X14. Suppliers: the handler throws exactly when the room has no
    controller. With a controller it asks for a supplier exactly when the
    room has more than one energy sink (sinks and towers together) and
    fewer suppliers than two plus one for every ten expensive flags; the
    supplier asked for is of size 1 when there is none at all, and of
    size 4 otherwise. *)
Theorem handleSuppliers_keeps_two b e :
  (handleSuppliers getAssignedCreepAmounts b e = Throws <-> controller (room b) = None)
  /\ forall c,
       controller (room b) = Some c ->
       let numSuppliers := getAssignedCreepAmounts (objId (controller_object c)) "supplier" in
       let numEnergySinks :=
         Z.of_nat (length (sinks (room b))) + Z.of_nat (length (towers (room b))) in
       let supplierLimit :=
         2 + Z.of_nat (length (List.filter isExpensive (room_assignedFlags e))) / 10 in
       (1 < numEnergySinks /\ numSuppliers < supplierLimit ->
        handleSuppliers getAssignedCreepAmounts b e
        = Returns (Some (create b roleSupplier (objId (controller_object c))
                                (B64.of_Z (if numSuppliers =? 0 then 1 else 4)))))
       /\ (numEnergySinks <= 1 \/ supplierLimit <= numSuppliers ->
           handleSuppliers getAssignedCreepAmounts b e = Returns None)
       /\ 2 <= supplierLimit.
Proof.
  unfold handleSuppliers. rewrite supplierLimit_four.
  split.
  - destruct (controller (room b)) as [c|]; [|split; reflexivity].
    split; [|discriminate].
    destruct (1 <? _); [destruct (_ <? _)|]; discriminate.
  - intros c ->. cbv zeta. split; [|split].
    + intros [Hs Hl]. apply Z.ltb_lt in Hs, Hl. rewrite Hs, Hl.
      destruct (_ =? 0); reflexivity.
    + intros [Hs | Hl].
      * apply Z.ltb_ge in Hs. rewrite Hs. reflexivity.
      * apply Z.ltb_ge in Hl. rewrite Hl. destruct (1 <? _); reflexivity.
    + pose proof (Z.div_pos (Z.of_nat (length (List.filter isExpensive (room_assignedFlags e))))
                            10 ltac:(lia) ltac:(lia)).
      lia.
Qed.


(** X16. Haulers: nothing is asked for without storage. A hauler asked
    for is for a source of the room that is not both linked and served
    by a linked storage, so [calculateHaulerRequirements] never leaves by
    its linked-source return for it; its repetition limit is the hauler
    size computed for that source, and fewer haulers are assigned to the
    source than the number computed. When no source count of the room is
    negative, a hauler is only ever asked for by a brain that has a
    spawn. *)
Theorem handleHaulers_unlinked b e :
  (storage (room b) = None ->
   handleHaulers getAssignedCreepAmounts haulerBodyPattern spawn_cost b e = None)
  /\ forall call,
       handleHaulers getAssignedCreepAmounts haulerBodyPattern spawn_cost b e = Some call ->
       exists st source,
         storage (room b) = Some st
         /\ In source (room_sources e)
         /\ (source_linked (source_data source) = false \/ storage_linked st = false)
         /\ call = create b roleHauler (source_ref source)
                          (fst (calculateHaulerRequirements haulerBodyPattern spawn_cost b
                                                            (source_data source)))
         /\ B64.ltb (B64.of_Z (getAssignedCreepAmounts (source_ref source) "hauler"))
                    (snd (calculateHaulerRequirements haulerBodyPattern spawn_cost b
                                                      (source_data source))) = true
         /\ (spawn b <> None ->
             calculateHaulerRequirements haulerBodyPattern spawn_cost b (source_data source)
             = splitHaulers (calculateHaulerSize haulerBodyPattern (source_data source))
                            (maxHaulerSize haulerBodyPattern spawn_cost b))
         /\ ((forall ref role, 0 <= getAssignedCreepAmounts ref role) -> spawn b <> None).
Proof.
  unfold handleHaulers. split; [intros ->; reflexivity|].
  intros call. destruct (storage (room b)) as [st|] eqn:Hst; [|discriminate].
  destruct (find _ _) as [source|] eqn:E; [|discriminate].
  intros [= <-]. apply find_some in E. destruct E as [Hin Hlt].
  apply filter_In in Hin. destruct Hin as [Hin Hlink].
  exists st, source. split; [reflexivity|]. split; [exact Hin|].
  assert (Hl : source_linked (source_data source) = false \/ storage_linked st = false).
  { apply orb_true_iff in Hlink. rewrite !negb_true_iff in Hlink. exact Hlink. }
  split; [exact Hl|]. split; [reflexivity|]. split; [exact Hlt|]. split.
  - intros Hsp. unfold calculateHaulerRequirements. rewrite Hst.
    destruct (spawn b); [|contradiction].
    destruct Hl as [-> | ->]; [reflexivity|].
    rewrite andb_false_r. reflexivity.
  - intros Hpos Hsp. unfold calculateHaulerRequirements in Hlt. rewrite Hsp in Hlt.
    simpl in Hlt. rewrite of_Z_not_below_zero in Hlt by apply Hpos. discriminate.
Qed.

End HandlerTheory.

(** * Requirement calculations in binary64 *)

Lemma b64_eqb_eq (a b : spec_float) : b64_eqb a b = true -> a = b.
Proof.
  destruct a as [s1|s1| |s1 m1 e1], b as [s2|s2| |s2 m2 e2]; simpl;
    try discriminate; try reflexivity.
  - intros H. apply Bool.eqb_prop in H. now subst.
  - intros H. apply Bool.eqb_prop in H. now subst.
  - rewrite !andb_true_iff. intros [[Hs Hm] He].
    apply Bool.eqb_prop in Hs. apply Pos.eqb_eq in Hm. apply Z.eqb_eq in He. now subst.
Qed.

Lemma forallb_Zrange (f : Z -> bool) (lo : Z) (n : nat) (z : Z) :
  forallb f (Zrange lo n) = true -> lo <= z < lo + Z.of_nat n -> f z = true.
Proof.
  intros H Hz. rewrite forallb_forall in H. apply H. now apply In_Zrange.
Qed.

Lemma forallb_Zrange2 (f : Z -> Z -> bool) (lo1 lo2 : Z) (n1 n2 : nat) (a b : Z) :
  forallb (fun x => forallb (f x) (Zrange lo2 n2)) (Zrange lo1 n1) = true ->
  lo1 <= a < lo1 + Z.of_nat n1 -> lo2 <= b < lo2 + Z.of_nat n2 -> f a b = true.
Proof.
  intros H Ha Hb.
  apply (forallb_Zrange (f a) lo2 n2 b); [|exact Hb].
  exact (forallb_Zrange (fun x => forallb (f x) (Zrange lo2 n2)) lo1 n1 a H Ha).
Qed.

Lemma jobsCheckNormal_range :
  forallb (fun k => forallb (jobsCheckNormal k) (Zrange 1 60)) (Zrange 0 31) = true.
Proof. vm_compute. reflexivity. Qed.

Lemma jobsCheckIncubating_range :
  forallb (fun k => forallb (jobsCheckIncubating k) (Zrange 1 60)) (Zrange 1 10) = true.
Proof. vm_compute. reflexivity. Qed.

Lemma energyCheck_range :
  forallb (fun k => forallb (energyCheck k) (Zrange 1 5)) (Zrange 1 30) = true.
Proof. vm_compute. reflexivity. Qed.

Lemma energyCheckZero_range : forallb energyCheckZero (Zrange 1 5) = true.
Proof. vm_compute. reflexivity. Qed.

Lemma haulerSizeCheck_range :
  forallb (fun c => forallb (haulerSizeCheck c) (Zrange 1 150)) (Zrange 1 4) = true.
Proof. vm_compute. reflexivity. Qed.

Lemma one_worker_suffices : noneBelow (B64.of_Z 1) (Zrange 1 50) = true.
Proof. vm_compute. reflexivity. Qed.

Lemma below_infinity : allBelow (S754_infinity false) (Zrange 0 51) = true.
Proof. vm_compute. reflexivity. Qed.

Lemma numJobsOf_nonneg maxPerTargetOf b : 0 <= numJobsOf maxPerTargetOf b.
Proof. unfold numJobsOf. lia. Qed.

Section RequirementTheory.

Variable getAssignedCreepAmounts : string -> string -> Z.
Variable workerBodyPattern : list BodyPart.
Variable spawn_cost : list BodyPart -> Z.
Variable maxPerTargetOf : string -> Cap.

Local Abbreviation byJobs :=
  (calculateWorkerRequirementsByJobs workerBodyPattern spawn_cost maxPerTargetOf).
Local Abbreviation byEnergy :=
  (calculateWorkerRequirementsByEnergy workerBodyPattern spawn_cost).
Local Abbreviation sizeOf := (workerSizeOf workerBodyPattern spawn_cost).

Lemma byJobs_none b : numJobsOf maxPerTargetOf b = 0 -> byJobs b = Returns (B64.of_Z 0).
Proof. unfold calculateWorkerRequirementsByJobs. intros ->. reflexivity. Qed.

Lemma byJobs_normal b k :
  spawn b <> None -> sizeOf b = B64.of_Z k -> incubating b = false ->
  0 <= k <= 30 -> 1 <= numJobsOf maxPerTargetOf b <= 60 ->
  byJobs b = Returns (B64.of_Z 1).
Proof.
  intros Hsp Hk Hinc Hr Hj. unfold calculateWorkerRequirementsByJobs.
  assert (Hn : (numJobsOf maxPerTargetOf b =? 0) = false) by (apply Z.eqb_neq; lia).
  rewrite Hn, Hk. destruct (spawn b); [|contradiction].
  unfold settingsOf. rewrite Hinc. simpl. f_equal. apply b64_eqb_eq.
  apply (forallb_Zrange2 jobsCheckNormal 0 1 31 60 k _ jobsCheckNormal_range); lia.
Qed.

Lemma byJobs_incubating b k :
  spawn b <> None -> sizeOf b = B64.of_Z k -> incubating b = true ->
  1 <= k <= 10 -> 1 <= numJobsOf maxPerTargetOf b <= 60 ->
  byJobs b = Returns (B64.of_Z (Z.min 3 (ceilDiv (2 * numJobsOf maxPerTargetOf b) k))).
Proof.
  intros Hsp Hk Hinc Hr Hj. unfold calculateWorkerRequirementsByJobs.
  assert (Hn : (numJobsOf maxPerTargetOf b =? 0) = false) by (apply Z.eqb_neq; lia).
  rewrite Hn, Hk. destruct (spawn b); [|contradiction].
  unfold settingsOf. rewrite Hinc. simpl. f_equal. apply b64_eqb_eq.
  apply (forallb_Zrange2 jobsCheckIncubating 1 1 10 60 k _ jobsCheckIncubating_range); lia.
Qed.

Lemma byEnergy_exact b e k :
  spawn b <> None -> sizeOf b = B64.of_Z k ->
  1 <= Z.of_nat (length (room_sources e)) <= 5 -> 1 <= k <= 30 ->
  byEnergy b e
  = B64.of_Z (ceilDiv ((match storage (room b) with Some _ => 8 | None => 12 end)
                       * Z.of_nat (length (room_sources e))) k).
Proof.
  intros Hsp Hk Hn Hr. unfold calculateWorkerRequirementsByEnergy.
  rewrite Hk. destruct (spawn b); [|contradiction].
  pose proof (forallb_Zrange2 energyCheck 1 1 30 5 k
                (Z.of_nat (length (room_sources e))) energyCheck_range
                ltac:(lia) ltac:(lia)) as H.
  unfold energyCheck in H. apply andb_true_iff in H. destruct H as [H1 H2].
  destruct (storage (room b)); apply b64_eqb_eq; assumption.
Qed.

Lemma byEnergy_zero_size b e :
  spawn b <> None -> sizeOf b = B64.of_Z 0 ->
  1 <= Z.of_nat (length (room_sources e)) <= 5 ->
  byEnergy b e = S754_infinity false.
Proof.
  intros Hsp Hk Hn. unfold calculateWorkerRequirementsByEnergy.
  rewrite Hk. destruct (spawn b); [|contradiction].
  pose proof (forallb_Zrange energyCheckZero 1 5
                (Z.of_nat (length (room_sources e))) energyCheckZero_range
                ltac:(lia)) as H.
  unfold energyCheckZero in H. apply andb_true_iff in H. destruct H as [H1 H2].
  destruct (storage (room b)); apply b64_eqb_eq; assumption.
Qed.

(** X17. The job-based worker requirement: none when there is no repair,
    construction or fortify job; with jobs and no spawn the call throws
    (it reads [this.spawn.cost]); with jobs, a spawn and a whole worker
    size, a normal room (one worker allowed, sizes 0 to 30) requires
    exactly one worker whatever the number of jobs from 1 to 60, and an
    incubating room (three allowed, sizes 1 to 10) requires
    [ceil(2 * jobs / size)], at most 3. *)
Theorem worker_requirement_by_jobs b :
  (numJobsOf maxPerTargetOf b = 0 -> byJobs b = Returns (B64.of_Z 0))
  /\ (numJobsOf maxPerTargetOf b <> 0 -> spawn b = None -> byJobs b = Throws)
  /\ (forall k,
        spawn b <> None -> sizeOf b = B64.of_Z k ->
        1 <= numJobsOf maxPerTargetOf b <= 60 ->
        (incubating b = false -> 0 <= k <= 30 -> byJobs b = Returns (B64.of_Z 1))
        /\ (incubating b = true -> 1 <= k <= 10 ->
            byJobs b = Returns (B64.of_Z (Z.min 3 (ceilDiv (2 * numJobsOf maxPerTargetOf b) k))))).
Proof.
  split; [apply byJobs_none|].
  split.
  - unfold calculateWorkerRequirementsByJobs. intros Hn ->.
    apply Z.eqb_neq in Hn. rewrite Hn. reflexivity.
  - intros k Hsp Hk Hj. split; intros Hinc Hr.
    + now apply (byJobs_normal b k).
    + now apply (byJobs_incubating b k).
Qed.

(** X18. The energy-based worker requirement: zero without a spawn; with a
    spawn, one to five sources and a whole worker size from 1 to 30 it is
    exactly [ceil(8 * sources / size)] when the room has storage and
    [ceil(12 * sources / size)] when it has none; at worker size 0 (the
    energy capacity does not pay for one pattern) it is [Infinity]. *)
Theorem worker_requirement_by_energy b e :
  (spawn b = None -> byEnergy b e = B64.of_Z 0)
  /\ (forall k,
        spawn b <> None -> sizeOf b = B64.of_Z k ->
        1 <= Z.of_nat (length (room_sources e)) <= 5 ->
        (1 <= k <= 30 ->
         byEnergy b e
         = B64.of_Z (ceilDiv ((match storage (room b) with Some _ => 8 | None => 12 end)
                              * Z.of_nat (length (room_sources e))) k))
        /\ (k = 0 -> byEnergy b e = S754_infinity false)).
Proof.
  split; [unfold calculateWorkerRequirementsByEnergy; intros ->; reflexivity|].
  intros k Hsp Hk Hn. split.
  - intros Hr. now apply byEnergy_exact.
  - intros ->. now apply byEnergy_zero_size.
Qed.

(** X19. Workers: an incubating brain asks for none, and a brain of a
    room without controller throws. In a normal room with storage and a
    spawn, at a whole worker size up to 30 and with up to 60 jobs, one to
    fifty assigned workers are enough: nothing is asked for. In a room
    without storage whose energy capacity does not pay for one worker
    pattern (worker size 0), with a spawn, one to five sources and a
    storage unit, a worker is asked for however many (0 to 50) are
    assigned already. *)
Theorem handleWorkers_requests b e :
  (incubating b = true ->
   handleWorkers getAssignedCreepAmounts workerBodyPattern spawn_cost maxPerTargetOf b e
   = Returns None)
  /\ (incubating b = false -> controller (room b) = None ->
      handleWorkers getAssignedCreepAmounts workerBodyPattern spawn_cost maxPerTargetOf b e
      = Throws)
  /\ (forall c k,
        incubating b = false -> controller (room b) = Some c -> spawn b <> None ->
        sizeOf b = B64.of_Z k ->
        let numWorkers := getAssignedCreepAmounts (objId (controller_object c)) "worker" in
        (storage (room b) <> None -> 0 <= k <= 30 ->
         numJobsOf maxPerTargetOf b <= 60 -> 1 <= numWorkers <= 50 ->
         handleWorkers getAssignedCreepAmounts workerBodyPattern spawn_cost maxPerTargetOf b e
         = Returns None)
        /\ (storage (room b) = None -> k = 0 ->
            1 <= Z.of_nat (length (room_sources e)) <= 5 -> 0 <= numWorkers <= 50 ->
            room_storageUnits e <> [] ->
            handleWorkers getAssignedCreepAmounts workerBodyPattern spawn_cost
                          maxPerTargetOf b e
            = Returns (Some (create b roleWorker (objId (controller_object c))
                                    (B64.of_Z 30))))).
Proof.
  split; [unfold handleWorkers; intros ->; reflexivity|].
  split; [unfold handleWorkers; intros -> ->; reflexivity|].
  intros c k Hinc Hc Hsp Hk. cbv zeta. split.
  - intros Hst Hr Hj Hw. unfold handleWorkers. rewrite Hinc, Hc.
    destruct (storage (room b)); [|contradiction].
    pose proof (numJobsOf_nonneg maxPerTargetOf b) as Hnn.
    destruct (Z.eq_dec (numJobsOf maxPerTargetOf b) 0) as [H0 | H0].
    + rewrite (byJobs_none b H0).
      rewrite of_Z_not_below_zero by lia. reflexivity.
    + rewrite (byJobs_normal b k Hsp Hk Hinc Hr ltac:(lia)).
      pose proof (forallb_Zrange (fun n => negb (B64.ltb (B64.of_Z n) (B64.of_Z 1)))
                    1 50 (getAssignedCreepAmounts (objId (controller_object c)) "worker")
                    one_worker_suffices ltac:(lia))
        as H.
      apply negb_true_iff in H. rewrite H. reflexivity.
  - intros Hst -> Hn Hw Hu. unfold handleWorkers. rewrite Hinc, Hc, Hst.
    rewrite (byEnergy_zero_size b e Hsp Hk Hn).
    pose proof (forallb_Zrange (fun n => B64.ltb (B64.of_Z n) (S754_infinity false))
                  0 51 (getAssignedCreepAmounts (objId (controller_object c)) "worker")
                  below_infinity ltac:(lia)) as H.
    rewrite H. unfold settingsOf. rewrite Hinc.
    destruct (room_storageUnits e); [contradiction|]. reflexivity.
Qed.

End RequirementTheory.

(** * The hauler size *)

Lemma haulerSizeNoCarryCheck_range : forallb haulerSizeNoCarryCheck (Zrange 1 150) = true.
Proof. vm_compute. reflexivity. Qed.

Lemma filter_isCarry_repeat (n : nat) :
  List.filter isCarry (repeat CARRY n) = repeat CARRY n.
Proof. induction n as [|n IH]; simpl; [reflexivity | now rewrite IH]. Qed.

Lemma calculateHaulerSize_carry (pattern : list BodyPart) (target : Source) :
  calculateHaulerSize pattern target
  = calculateHaulerSize (repeat CARRY (length (List.filter isCarry pattern)))
                        (mkSource false (pathLengthToStorage target)).
Proof.
  unfold calculateHaulerSize. now rewrite filter_isCarry_repeat, repeat_length.
Qed.

(** X20. For a hauler pattern with one to four carry parts and a path of
    1 to 150 steps to storage, [calculateHaulerSize] is a whole number
    of repetitions that saturates the source (what it carries per tick,
    [size * 50 * carry / (2 * path)], is at least the 10 energy per tick
    the source gives) and that is the exact [ceil(1.1 * 20 * path /
    (50 * carry))] or one more, the rounding of binary64. With no carry
    part in the pattern the result is [Infinity]. *)
Theorem hauler_size_saturates (pattern : list BodyPart) (target : Source) :
  let carry := Z.of_nat (length (List.filter isCarry pattern)) in
  let path := pathLengthToStorage target in
  1 <= path <= 150 ->
  (1 <= carry <= 4 ->
   exists size,
     b64_to_Z (calculateHaulerSize pattern target) = Some size
     /\ 10 * (2 * path) <= size * 50 * carry
     /\ ceilDiv (11 * path) (25 * carry) <= size <= ceilDiv (11 * path) (25 * carry) + 1)
  /\ (carry = 0 -> calculateHaulerSize pattern target = S754_infinity false).
Proof.
  intros carry path Hpath. split.
  - intros Hcarry.
    pose proof (forallb_Zrange2 haulerSizeCheck 1 1 4 150 carry path haulerSizeCheck_range
                                ltac:(lia) ltac:(lia)) as Hcheck.
    unfold haulerSizeCheck in Hcheck.
    rewrite calculateHaulerSize_carry. fold path.
    replace (length (List.filter isCarry pattern)) with (Z.to_nat carry)
      by (unfold carry; lia).
    destruct (b64_to_Z _) as [size|]; [|discriminate].
    exists size. rewrite !andb_true_iff in Hcheck. split; [reflexivity|]. lia.
  - intros Hcarry.
    pose proof (forallb_Zrange haulerSizeNoCarryCheck 1 150 path haulerSizeNoCarryCheck_range
                               ltac:(lia)) as Hcheck.
    rewrite calculateHaulerSize_carry. fold path.
    replace (length (List.filter isCarry pattern)) with 0%nat by (unfold carry in Hcarry; lia).
    apply b64_eqb_eq. exact Hcheck.
Qed.

(** * The room memory *)

(** X21. The getter [memory] answers with the entry the store holds for
    the room after the call; an entry that was there is answered as it is
    and the store is left alone, a missing one is created empty; the
    entries of the other rooms are never touched, and asking again gives
    the same entry and changes nothing. *)
Theorem memory_get_or_create (name : string) (roomBrain : gmap string (gmap string string)) :
  snd (memory name roomBrain) !! name = Some (fst (memory name roomBrain))
  /\ (forall entry, roomBrain !! name = Some entry ->
                    memory name roomBrain = (entry, roomBrain))
  /\ (roomBrain !! name = None -> fst (memory name roomBrain) = ∅)
  /\ (forall other, other <> name ->
                    snd (memory name roomBrain) !! other = roomBrain !! other)
  /\ memory name (snd (memory name roomBrain))
     = (fst (memory name roomBrain), snd (memory name roomBrain)).
Proof.
  unfold memory. destruct (roomBrain !! name) as [entry|] eqn:E; simpl.
  - rewrite E. repeat split; try reflexivity.
    + now intros ? [= <-].
    + discriminate.
  - rewrite lookup_insert_eq. repeat split; try reflexivity.
    + discriminate.
    + intros other Hne. now rewrite lookup_insert_ne.
Qed.

(** * The incubation stage *)

Lemma insertBy_In {A} (key : A -> Z) (a x : A) (l : list A) :
  In x (insertBy key a l) <-> x = a \/ In x l.
Proof.
  induction l as [|b l IH]; simpl; [intuition|].
  destruct (key a <=? key b); simpl; [intuition|].
  rewrite IH. intuition.
Qed.

Lemma sortBy_In {A} (key : A -> Z) (x : A) (l : list A) :
  In x (sortBy l key) <-> In x l.
Proof.
  induction l as [|a l IH]; [reflexivity|].
  change (sortBy (a :: l) key) with (insertBy key a (sortBy l key)).
  rewrite insertBy_In, IH. simpl. intuition.
Qed.

Lemma insertBy_sorted {A} (key : A -> Z) (a : A) (l : list A) :
  StronglySorted (fun x y => key x <= key y) l ->
  StronglySorted (fun x y => key x <= key y) (insertBy key a l).
Proof.
  induction 1 as [|b l Hs IH Hall]; simpl.
  - constructor; constructor.
  - destruct (Z.leb_spec (key a) (key b)) as [Hle | Hgt].
    + constructor; [constructor; assumption|].
      constructor; [exact Hle|].
      rewrite Forall_forall in Hall |- *. intros x Hx. specialize (Hall x Hx). lia.
    + constructor; [exact IH|].
      rewrite Forall_forall in Hall |- *. intros x Hx.
      apply list_elem_of_In, insertBy_In in Hx. destruct Hx as [-> | Hx]; [lia|].
      apply Hall, list_elem_of_In, Hx.
Qed.

Lemma sortBy_sorted {A} (key : A -> Z) (l : list A) :
  StronglySorted (fun x y => key x <= key y) (sortBy l key).
Proof.
  induction l as [|a l IH]; [constructor|].
  change (sortBy (a :: l) key) with (insertBy key a (sortBy l key)).
  now apply insertBy_sorted.
Qed.

Lemma StronglySorted_app_inv_r {A} (R : A -> A -> Prop) (pre : list A) a post :
  StronglySorted R (pre ++ a :: post) -> forall x, In x post -> R a x.
Proof.
  induction pre as [|p pre IH]; simpl.
  - intros Hs x Hx. inversion Hs as [|? ? _ Hall]; subst. rewrite Forall_forall in Hall.
    apply Hall, list_elem_of_In, Hx.
  - intros Hs. inversion Hs; subst. now apply IH.
Qed.

Section IncubationTheory.

Variable getAssignedCreepAmounts : string -> string -> Z.
Variable workerBodyPattern : list BodyPart.

Local Abbreviation roomStep := (incubateRoom getAssignedCreepAmounts workerBodyPattern).
Local Abbreviation flagLoop := (incubateLoop getAssignedCreepAmounts workerBodyPattern).

Lemma incubateRoom_renewable b flagRoom call :
  roomStep b flagRoom = Some call ->
  call_renewMe call = true /\ call_spawn call = spawn b
  /\ call_workRoom call = flagRoom_name flagRoom
  /\ (call_role call = roleMiner \/ call_role call = roleWorker)
  /\ (incubating b = true -> call_role call = roleMiner).
Proof.
  unfold incubateRoom.
  destruct (find _ _) as [source|].
  - intros [= <-]. simpl. tauto.
  - destruct (lessThanSetting _ _) eqn:E; [|discriminate].
    intros [= <-]. simpl. repeat split; try tauto.
    intros Hinc. unfold settingsOf in E. rewrite Hinc in E. discriminate.
Qed.

Lemma incubateLoop_shape b flags :
  (forall flag, In flag flags -> flag_room flag <> None) ->
  match flagLoop b flags with
  | Throws => False
  | Returns None =>
      forall flag flagRoom,
        In flag flags -> flag_room flag = Some flagRoom -> roomStep b flagRoom = None
  | Returns (Some call) =>
      exists pre flag post flagRoom,
        flags = (pre ++ flag :: post)%list
        /\ flag_room flag = Some flagRoom
        /\ roomStep b flagRoom = Some call
        /\ forall earlier earlierRoom,
             In earlier pre -> flag_room earlier = Some earlierRoom ->
             roomStep b earlierRoom = None
  end.
Proof.
  induction flags as [|flag rest IH]; intros Hroom; simpl.
  - intros ? ? [].
  - destruct (flag_room flag) as [flagRoom|] eqn:Hf.
    + destruct (roomStep b flagRoom) as [call|] eqn:Hstep.
      * exists [], flag, rest, flagRoom. repeat split; try assumption. intros ? ? [].
      * assert (Hrest : forall f, In f rest -> flag_room f <> None)
          by (intros f Hin; apply Hroom; now right).
        specialize (IH Hrest).
        destruct (flagLoop b rest) as [[call|]|]; [| |exact IH].
        -- destruct IH as (pre & f & post & fr & -> & Hfr & Hs & Hpre).
           exists (flag :: pre), f, post, fr. repeat split; try assumption.
           intros earlier er [<- | Hin] Her; [|eapply Hpre; eassumption].
           rewrite Hf in Her. injection Her as <-. exact Hstep.
        -- intros f fr [<- | Hin] Hfr; [|eapply IH; eassumption].
           rewrite Hf in Hfr. injection Hfr as <-. exact Hstep.
    + apply (Hroom flag); [now left | exact Hf].
Qed.

(** X22. The incubation stage never throws, since only flags with a room
    of one's own pass its filter. A creep it asks for is marked [renewMe],
    is built at the brain's spawn and works in the room of an incubate
    flag; it is a miner or a worker, and an incubating brain only ever
    asks for miners (its settings have no [incubationWorkersToSend]).
    The flag served is the nearest one that needs anything: every
    incubate flag with a strictly shorter path to storage needs neither a
    miner nor a worker. Nothing is asked for exactly when no incubate flag
    needs anything. *)
Theorem incubation_serves_nearest b e :
  handleIncubationSpawnOperations getAssignedCreepAmounts workerBodyPattern b e <> Throws
  /\ (forall call,
        handleIncubationSpawnOperations getAssignedCreepAmounts workerBodyPattern b e
        = Returns (Some call) ->
        call_renewMe call = true /\ call_spawn call = spawn b
        /\ (call_role call = roleMiner \/ call_role call = roleWorker)
        /\ (incubating b = true -> call_role call = roleMiner)
        /\ exists flag flagRoom,
             In flag (room_assignedFlags e)
             /\ isIncubateFlag flag = true
             /\ flag_room flag = Some flagRoom
             /\ roomStep b flagRoom = Some call
             /\ call_workRoom call = flagRoom_name flagRoom
             /\ forall nearer nearerRoom,
                  In nearer (room_assignedFlags e) ->
                  isIncubateFlag nearer = true ->
                  flag_room nearer = Some nearerRoom ->
                  pathLengthToAssignedRoomStorage nearer
                  < pathLengthToAssignedRoomStorage flag ->
                  roomStep b nearerRoom = None)
  /\ (handleIncubationSpawnOperations getAssignedCreepAmounts workerBodyPattern b e
      = Returns None <->
      forall flag flagRoom,
        In flag (room_assignedFlags e) -> isIncubateFlag flag = true ->
        flag_room flag = Some flagRoom -> roomStep b flagRoom = None).
Proof.
  unfold handleIncubationSpawnOperations.
  set (flags := sortBy (List.filter isIncubateFlag (room_assignedFlags e))
                       pathLengthToAssignedRoomStorage).
  assert (Hin : forall f, In f flags <->
                          In f (room_assignedFlags e) /\ isIncubateFlag f = true).
  { intros f. unfold flags. rewrite sortBy_In, filter_In. reflexivity. }
  assert (Hroom : forall f, In f flags -> flag_room f <> None).
  { intros f Hf. apply Hin in Hf. destruct Hf as [_ Hf].
    unfold isIncubateFlag in Hf. apply andb_true_iff in Hf.
    destruct (flag_room f); [discriminate | destruct Hf; discriminate]. }
  pose proof (incubateLoop_shape b flags Hroom) as Hshape.
  pose proof (sortBy_sorted pathLengthToAssignedRoomStorage
                            (List.filter isIncubateFlag (room_assignedFlags e))) as Hsorted.
  fold flags in Hsorted.
  destruct (flagLoop b flags) as [[call|]|]; [| |contradiction].
  - split; [discriminate|]. split.
    + intros call' [= <-].
      destruct Hshape as (pre & flag & post & flagRoom & Hl & Hfr & Hstep & Hpre).
      destruct (incubateRoom_renewable _ _ _ Hstep) as (Hr & Hsp & Hw & Hrole & Hinc).
      split; [exact Hr|]. split; [exact Hsp|]. split; [exact Hrole|]. split; [exact Hinc|].
      assert (Hflag : In flag flags) by (rewrite Hl; apply in_or_app; right; now left).
      apply Hin in Hflag. destruct Hflag as [Hf1 Hf2].
      exists flag, flagRoom. repeat split; try assumption.
      intros nearer nearerRoom Hn1 Hn2 Hnr Hlt.
      assert (Hnin : In nearer flags) by (apply Hin; tauto).
      rewrite Hl in Hnin, Hsorted. apply in_app_or in Hnin.
      destruct Hnin as [Hp | [<- | Hp]].
      * eapply Hpre; eassumption.
      * lia.
      * exfalso. pose proof (StronglySorted_app_inv_r _ _ _ _ Hsorted nearer Hp) as Hc.
        simpl in Hc. lia.
    + split; [discriminate|]. intros H. exfalso.
      destruct Hshape as (pre & flag & post & flagRoom & Hl & Hfr & Hstep & Hpre).
      assert (Hflag : In flag flags) by (rewrite Hl; apply in_or_app; right; now left).
      apply Hin in Hflag. destruct Hflag as [Hf1 Hf2].
      rewrite (H flag flagRoom Hf1 Hf2 Hfr) in Hstep. discriminate.
  - split; [discriminate|]. split; [discriminate|].
    split; [|reflexivity]. intros _ flag flagRoom Hf1 Hf2 Hfr.
    apply (Hshape flag flagRoom); [apply Hin; tauto | exact Hfr].
Qed.

Lemma filter_none {A} (f : A -> bool) (l : list A) :
  (forall x, In x l -> f x = false) -> List.filter f l = [].
Proof.
  induction l as [|a l IH]; intros H; simpl; [reflexivity|].
  rewrite (H a) by now left. apply IH. intros x Hx. apply H. now right.
Qed.

Lemma incubateRoom_normal_asks b flagRoom :
  incubating b = false ->
  (forall bodyLength,
     In bodyLength (flagRoom_workerBodies flagRoom) ->
     bodyLength < Z.of_nat (length workerBodyPattern) * 30) ->
  roomStep b flagRoom <> None.
Proof.
  intros Hinc Hsmall. unfold incubateRoom.
  destruct (find _ _); [discriminate|].
  unfold settingsOf. rewrite Hinc. simpl.
  rewrite filter_none; [discriminate|].
  intros x Hx. specialize (Hsmall x Hx). lia.
Qed.

(** X23. A brain that is not incubating itself never passes the
    incubation stage by while it has an incubate flag in a room of its
    own: as long as no worker assigned there has a body of 30 repetitions
    of the worker pattern (with a pattern of two parts or more that is
    above the 50 parts a body can have), the stage asks for a creep, and
    always for the room of a flag nearest to storage. *)
Theorem incubation_never_yields b e :
  incubating b = false ->
  (exists flag, In flag (room_assignedFlags e) /\ isIncubateFlag flag = true) ->
  (forall flag flagRoom bodyLength,
     In flag (room_assignedFlags e) -> flag_room flag = Some flagRoom ->
     In bodyLength (flagRoom_workerBodies flagRoom) ->
     bodyLength < Z.of_nat (length workerBodyPattern) * 30) ->
  exists call flag flagRoom,
    handleIncubationSpawnOperations getAssignedCreepAmounts workerBodyPattern b e
    = Returns (Some call)
    /\ In flag (room_assignedFlags e)
    /\ isIncubateFlag flag = true
    /\ flag_room flag = Some flagRoom
    /\ call_workRoom call = flagRoom_name flagRoom
    /\ forall other,
         In other (room_assignedFlags e) -> isIncubateFlag other = true ->
         pathLengthToAssignedRoomStorage flag <= pathLengthToAssignedRoomStorage other.
Proof.
  intros Hinc (flag0 & Hflag0 & Hinc0) Hsmall.
  unfold handleIncubationSpawnOperations.
  set (flags := sortBy (List.filter isIncubateFlag (room_assignedFlags e))
                       pathLengthToAssignedRoomStorage).
  assert (Hin : forall f, In f flags <->
                          In f (room_assignedFlags e) /\ isIncubateFlag f = true).
  { intros f. unfold flags. rewrite sortBy_In, filter_In. reflexivity. }
  assert (Hhas : forall f, In f flags -> exists fr, flag_room f = Some fr).
  { intros f Hf. apply Hin in Hf. destruct Hf as [_ Hf].
    unfold isIncubateFlag in Hf. apply andb_true_iff in Hf.
    destruct (flag_room f) as [fr|]; [now exists fr | destruct Hf; discriminate]. }
  assert (Hroom : forall f, In f flags -> flag_room f <> None).
  { intros f Hf. destruct (Hhas f Hf) as [fr ->]. discriminate. }
  assert (Hasks : forall f fr, In f flags -> flag_room f = Some fr -> roomStep b fr <> None).
  { intros f fr Hf Hfr. apply incubateRoom_normal_asks; [exact Hinc|].
    intros len Hlen. apply Hin in Hf. apply (Hsmall f fr len); tauto. }
  pose proof (incubateLoop_shape b flags Hroom) as Hshape.
  pose proof (sortBy_sorted pathLengthToAssignedRoomStorage
                            (List.filter isIncubateFlag (room_assignedFlags e))) as Hsorted.
  fold flags in Hsorted.
  destruct (flagLoop b flags) as [[call|]|]; [| |contradiction].
  - destruct Hshape as (pre & flag & post & flagRoom & Hl & Hfr & Hstep & Hpre).
    assert (Hnil : pre = []).
    { destruct pre as [|p pre]; [reflexivity|]. exfalso.
      assert (Hp : In p flags) by (rewrite Hl; now left).
      destruct (Hhas p Hp) as [pr Hpr].
      apply (Hasks p pr Hp Hpr). apply (Hpre p pr); [now left | exact Hpr]. }
    subst pre. simpl in Hl.
    assert (Hflag : In flag flags) by (rewrite Hl; now left).
    apply Hin in Hflag. destruct Hflag as [Hf1 Hf2].
    destruct (incubateRoom_renewable _ _ _ Hstep) as (_ & _ & Hw & _).
    exists call, flag, flagRoom. repeat split; try assumption.
    intros other Ho1 Ho2.
    assert (Ho : In other flags) by (apply Hin; tauto).
    rewrite Hl in Ho, Hsorted. destruct Ho as [<- | Ho]; [lia|].
    pose proof (StronglySorted_app_inv_r _ [] _ _ Hsorted other Ho) as Hc.
    simpl in Hc. exact Hc.
  - exfalso.
    assert (Hf0 : In flag0 flags) by (apply Hin; tauto).
    destruct (Hhas flag0 Hf0) as [fr Hfr].
    apply (Hasks flag0 fr Hf0 Hfr). apply (Hshape flag0 fr Hf0 Hfr).
Qed.

End IncubationTheory.

(** * The assigned stage *)

Lemma firstNonNull_app {World A} (l1 l2 : list (M World (option A))) w :
  fst (firstNonNull World (l1 ++ l2) w)
  = match fst (fst (firstNonNull World l1 w)) with
    | Some r => fst (firstNonNull World l1 w)
    | None => fst (firstNonNull World l2 (snd (fst (firstNonNull World l1 w))))
    end.
Proof.
  revert w. induction l1 as [|h l1 IH]; intros w; simpl; [reflexivity|].
  unfold bind. destruct (h w) as [[o w1] log1]. destruct o as [r|]; simpl; [reflexivity|].
  specialize (IH w1).
  destruct (firstNonNull World (l1 ++ l2) w1) as [[o2 w2] log2].
  destruct (firstNonNull World l1 w1) as [[o3 w3] log3]. simpl in *.
  destruct o3; exact IH.
Qed.

Lemma firstNonNull_nested {World A} (ls : list (list (M World (option A)))) w :
  fst (firstNonNull World (map (firstNonNull World) ls) w)
  = fst (firstNonNull World (concat ls) w).
Proof.
  revert w. induction ls as [|l ls IH]; intros w; simpl; [reflexivity|].
  rewrite firstNonNull_app. unfold bind.
  destruct (firstNonNull World l w) as [[o w1] log1]. destruct o as [r|]; simpl; [reflexivity|].
  specialize (IH w1).
  destruct (firstNonNull World (map (firstNonNull World) ls) w1) as [[o2 w2] log2].
  destruct o2; exact IH.
Qed.

Lemma Skips_no_answer {World A} (pre : list (M World (option A))) h post w w' wf r :
  Skips pre w w' -> fst (fst (h w')) = Some r -> ~ Skips (pre ++ h :: post) w wf.
Proof.
  induction 1 as [w0 | h0 rest w0 w1 H0 _ IH]; intros Hh Hs.
  - inversion Hs as [|? ? ? ? Hnone _]; subst. rewrite Hnone in Hh. discriminate.
  - inversion Hs as [|? ? ? ? _ Hrest]; subst. exact (IH Hh Hrest).
Qed.

Section AssignedTheory.

Variable World : Type.
Variable flag_action : Flag -> World -> option protoCreep * World.

Local Abbreviation ask := (fun flag : Flag => lift World (flag_action flag)).

(** X24. The assigned stage asks the flags one after the other, category
    by category in the order of [prioritizedFlagOperations] and within a
    category by path length to storage, and returns the first answer: the
    flags before it in that order have all been asked and declined, no
    flag after it is asked. It returns nothing exactly when all of them
    declined. A flag is asked only if it is an assigned flag of the room
    that passes one of the seven filters. *)
Theorem assigned_flag_priority (e : RoomEconomy) (w : World) :
  let order :=
    concat (map (fun code =>
                   sortBy (List.filter (fun flag => flag_filter flag code)
                                       (room_assignedFlags e))
                          pathLengthToAssignedRoomStorage)
                prioritizedFlagCodes) in
  fst (handleAssignedSpawnOperations World flag_action e w)
  = fst (firstNonNull World (map ask order) w)
  /\ (forall r,
        fst (fst (handleAssignedSpawnOperations World flag_action e w)) = Some r ->
        exists pre flag post w',
          order = (pre ++ flag :: post)%list
          /\ Skips (map ask pre) w w'
          /\ flag_action flag w'
             = (Some r, snd (fst (handleAssignedSpawnOperations World flag_action e w))))
  /\ (fst (fst (handleAssignedSpawnOperations World flag_action e w)) = None <->
      Skips (map ask order) w
            (snd (fst (handleAssignedSpawnOperations World flag_action e w))))
  /\ (forall flag,
        In flag order <->
        In flag (room_assignedFlags e)
        /\ exists code, In code prioritizedFlagCodes /\ flag_filter flag code = true).
Proof.
  intros order.
  assert (Hflat : fst (handleAssignedSpawnOperations World flag_action e w)
                  = fst (firstNonNull World (map ask order) w)).
  { unfold handleAssignedSpawnOperations, flagOperations. cbv zeta.
    rewrite map_map.
    rewrite <- (map_map (fun code => map ask
                           (sortBy (List.filter (fun flag => flag_filter flag code)
                                                (room_assignedFlags e))
                                   pathLengthToAssignedRoomStorage))
                        (firstNonNull World)).
    rewrite firstNonNull_nested. unfold order.
    rewrite concat_map, map_map. reflexivity. }
  split; [exact Hflat|].
  pose proof (firstNonNull_shape (map ask order) w) as Hshape.
  rewrite Hflat. split; [|split].
  - intros r Hr. rewrite Hr in Hshape.
    destruct Hshape as (pre & h & post & w' & Hl & Hs & Hh & Hw).
    apply map_eq_app in Hl. destruct Hl as (pre' & rest & -> & <- & Hrest).
    destruct rest as [|flag post']; [discriminate|].
    simpl in Hrest. injection Hrest as <- <-.
    exists pre', flag, post', w'. split; [reflexivity|]. split; [exact Hs|].
    rewrite Hw. unfold lift in Hh |- *.
    destruct (flag_action flag w') as [o w'']. simpl in *. now subst o.
  - split.
    + intros Hn. rewrite Hn in Hshape. exact Hshape.
    + intros Hs. destruct (fst (fst (firstNonNull World (map ask order) w))) as [r|] eqn:E;
        [|reflexivity]. exfalso.
      destruct Hshape as (pre & h & post & w' & Hl & Hpre & Hh & _).
      rewrite Hl in Hs. exact (Skips_no_answer pre h post w w' _ r Hpre Hh Hs).
  - intros flag. unfold order. rewrite in_concat. split.
    + intros (l & Hl & Hin). apply in_map_iff in Hl. destruct Hl as (code & <- & Hcode).
      apply sortBy_In, filter_In in Hin. destruct Hin as [Hin Hf].
      split; [exact Hin|]. now exists code.
    + intros (Hin & code & Hcode & Hf).
      exists (sortBy (List.filter (fun flag => flag_filter flag code) (room_assignedFlags e))
                     pathLengthToAssignedRoomStorage).
      split; [apply in_map_iff; now exists code|].
      apply sortBy_In, filter_In. now split.
Qed.

End AssignedTheory.

(** * Links *)

(** X25. Links decide between haulers and linkers. A linker is asked for
    exactly when the room has a linked storage with no linker assigned to
    it, always with the storage as assignment and eight repetitions; so
    a room without storage or with an unlinked one never asks for a
    linker. A room whose storage and sources are all linked never asks
    for a hauler, however few are assigned. *)
Theorem linked_room_requests (getAssignedCreepAmounts : string -> string -> Z)
        (haulerBodyPattern : list BodyPart) (spawn_cost : list BodyPart -> Z)
        (b : RoomBrain) (e : RoomEconomy) :
  (forall call,
     handleLinkers getAssignedCreepAmounts b e = Some call <->
     (exists st, storage (room b) = Some st /\ storage_linked st = true)
     /\ getAssignedCreepAmounts (storage_ref e) "linker" < 1
     /\ call = create b roleLinker (storage_ref e) (B64.of_Z 8))
  /\ (forall st,
        storage (room b) = Some st -> storage_linked st = true ->
        (forall source, In source (room_sources e) ->
                        source_linked (source_data source) = true) ->
        handleHaulers getAssignedCreepAmounts haulerBodyPattern spawn_cost b e = None).
Proof.
  split.
  - intros call. unfold handleLinkers.
    destruct (storage (room b)) as [st|].
    + destruct (storage_linked st) eqn:Hl; simpl.
      * destruct (Z.ltb_spec (getAssignedCreepAmounts (storage_ref e) "linker") 1).
        -- split.
           ++ intros [= <-]. split; [now exists st|]. split; [assumption | reflexivity].
           ++ intros (_ & _ & ->). reflexivity.
        -- split; [discriminate|]. intros (_ & Hlt & _). lia.
      * split; [discriminate|]. intros ((st' & [= <-] & Hl') & _). congruence.
    + split; [discriminate|]. intros ((st' & Hst & _) & _). discriminate.
  - intros st Hst Hl Hall. unfold handleHaulers. rewrite Hst, Hl.
    rewrite filter_none; [reflexivity|].
    intros source Hin. rewrite (Hall source Hin). reflexivity.
Qed.

Lemma linked_room_requests_witness :
  storage (room (newRoomBrain linkedRoom false)) = Some (mkStorage true)
  /\ exampleCensus (storage_ref linkedEconomy) "linker" < 1
  /\ handleLinkers exampleCensus (newRoomBrain linkedRoom false) linkedEconomy
     = Some (create (newRoomBrain linkedRoom false) roleLinker "storage1" (B64.of_Z 8))
  /\ handleHaulers exampleCensus examplePattern exampleCost
                   (newRoomBrain linkedRoom false) linkedEconomy = None.
Proof.
  assert (H1 : storage (room (newRoomBrain linkedRoom false)) = Some (mkStorage true))
    by reflexivity.
  assert (H2 : exampleCensus (storage_ref linkedEconomy) "linker" < 1) by reflexivity.
  split; [exact H1|]. split; [exact H2|].
  destruct (linked_room_requests exampleCensus examplePattern exampleCost
                                 (newRoomBrain linkedRoom false) linkedEconomy)
    as [Hlinker Hhauler].
  split.
  - apply Hlinker. split; [now exists (mkStorage true)|]. split; [exact H2 | reflexivity].
  - apply (Hhauler (mkStorage true) H1 eq_refl).
    intros source [<- | [<- | []]]; reflexivity.
Defined.

(** * The properties at work on the examples *)

Lemma fortifyLevel_clamped_witness :
  3 <= level (exampleController 4) <= 6
  /\ fortifyLevel (newRoomBrain (fortifyRoom 4) false) = 10 ^ 4.
Proof.
  assert (H : 3 <= level (exampleController 4) <= 6) by (simpl; lia).
  split; [exact H|].
  destruct (fortifyLevel_clamped (fortifyRoom 4) false) as (_ & _ & _ & Hc & _).
  destruct (Hc (exampleController 4) eq_refl eq_refl) as (_ & Hmid & _).
  exact (Hmid H).
Defined.

Lemma fortify_catalog_bounds_witness :
  In (taskFortify exampleCaps wall500) (getTasks exampleCaps fortifyBrain fortify)
  /\ hits wall500 < 1000000.
Proof.
  assert (H : In (taskFortify exampleCaps wall500) (getTasks exampleCaps fortifyBrain fortify))
    by (left; reflexivity).
  split; [exact H|].
  destruct (fortify_catalog_bounds exampleCaps (fortifyRoom 4) false) as [_ Hall].
  destruct (Hall (taskFortify exampleCaps wall500) H) as (_ & _ & Hlt & _).
  exact Hlt.
Defined.

Lemma getMostUrgentTask_result_witness :
  getMostUrgentTask exampleCaps fortifyBrain ∅ [build; fortify] <> []
  /\ exists taskType,
       In taskType [build; fortify]
       /\ getMostUrgentTask exampleCaps fortifyBrain ∅ [build; fortify]
          = List.filter (uncapped ∅) (getTasks exampleCaps fortifyBrain taskType).
Proof.
  assert (H : getMostUrgentTask exampleCaps fortifyBrain ∅ [build; fortify] <> [])
    by (vm_compute; discriminate).
  split; [exact H|].
  destruct (getMostUrgentTask_result exampleCaps fortifyBrain ∅ [build; fortify])
    as (_ & _ & Hex).
  exact (Hex H).
Defined.

Lemma assignment_by_role_witness :
  ~ In "scout" ["supplier"; "hauler"; "miner"; "guard"; "worker"; "upgrader"]
  /\ assignTask exampleCaps rangeTo fortifyBrain
                (exampleCreep "s1" "scout" 50 "W1N1" (at_ 11 11)) noTargets
     = (None, noTargets).
Proof.
  assert (H : ~ In "scout" ["supplier"; "hauler"; "miner"; "guard"; "worker"; "upgrader"])
    by (simpl; intuition discriminate).
  split; [exact H|].
  destruct (assignment_by_role exampleCaps rangeTo (fortifyRoom 4) false
                               (exampleCreep "s1" "scout" 50 "W1N1" (at_ 11 11)) noTargets)
    as [_ Hnone].
  exact (Hnone H).
Defined.

Lemma load_decides_task_kind_witness :
  carry_energy (exampleCreep "w3" "worker" 0 "W1N1" (at_ 11 11)) <= 0
  /\ memory_role (exampleCreep "w3" "worker" 0 "W1N1" (at_ 11 11)) <> "hauler"
  /\ assignTask exampleCaps rangeTo fortifyBrain
                (exampleCreep "w3" "worker" 0 "W1N1" (at_ 11 11)) noTargets
     = (None, noTargets).
Proof.
  assert (H1 : carry_energy (exampleCreep "w3" "worker" 0 "W1N1" (at_ 11 11)) <= 0)
    by (simpl; lia).
  assert (H2 : memory_role (exampleCreep "w3" "worker" 0 "W1N1" (at_ 11 11)) <> "hauler")
    by (simpl; discriminate).
  split; [exact H1|]. split; [exact H2|].
  destruct (load_decides_task_kind exampleCaps rangeTo (fortifyRoom 4) false
              (exampleCreep "w3" "worker" 0 "W1N1" (at_ 11 11)) noTargets) as [Hempty _].
  destruct (Hempty H1) as [_ Hidle].
  exact (Hidle H2).
Defined.

Lemma body_parts_required_witness :
  getActiveBodyparts brokenCreep CARRY <= 0
  /\ getActiveBodyparts brokenCreep WORK <= 0
  /\ assignTask exampleCaps rangeTo fortifyBrain brokenCreep noTargets = (None, noTargets).
Proof.
  assert (H1 : getActiveBodyparts brokenCreep CARRY <= 0) by (simpl; lia).
  assert (H2 : getActiveBodyparts brokenCreep WORK <= 0) by (simpl; lia).
  split; [exact H1|]. split; [exact H2|].
  destruct (body_parts_required exampleCaps rangeTo fortifyBrain brokenCreep noTargets)
    as [_ Hnone].
  exact (proj2 (Hnone H1 H2)).
Defined.

Lemma constructed_spawn_idle_witness :
  spawn (newRoomBrain (emptyRoom 4) false) = Some (mkSpawn "Spawn1" false)
  /\ spawning (mkSpawn "Spawn1" false) = false.
Proof.
  split; [reflexivity|].
  destruct (constructed_spawn_idle (emptyRoom 4) false) as [Hidle _].
  exact (proj1 (Hidle (mkSpawn "Spawn1" false) eq_refl)).
Defined.

Lemma firstNonNull_first_answer_witness :
  Skips [asResponse (list string) (recording "handleMiners" None)] [] ["handleMiners"]
  /\ fst (firstNonNull (list string)
            [asResponse (list string) (recording "handleMiners" None);
             asResponse (list string) (recording "handleHaulers" (Some haulerProto));
             asResponse (list string) (recording "handleWorkers" (Some supplierProto))] [])
     = (Some (Proto haulerProto), ["handleMiners"; "handleHaulers"]).
Proof.
  assert (H : Skips [asResponse (list string) (recording "handleMiners" None)] []
                    ["handleMiners"]).
  { apply (Skips_cons (asResponse (list string) (recording "handleMiners" None)) [] []
                      ["handleMiners"]); [reflexivity | apply Skips_nil]. }
  split; [exact H|].
  destruct (firstNonNull_first_answer
              [asResponse (list string) (recording "handleMiners" None);
               asResponse (list string) (recording "handleHaulers" (Some haulerProto));
               asResponse (list string) (recording "handleWorkers" (Some supplierProto))] [])
    as (_ & _ & Hfirst).
  exact (Hfirst [asResponse (list string) (recording "handleMiners" None)]
                (asResponse (list string) (recording "handleHaulers" (Some haulerProto)))
                [asResponse (list string) (recording "handleWorkers" (Some supplierProto))]
                ["handleMiners"] (Proto haulerProto) eq_refl H eq_refl).
Defined.

Lemma core_domestic_priority_witness :
  fst (recording "handleSuppliers" (Some supplierProto) []) = Some supplierProto
  /\ fst (handleCoreSpawnOperations (list string)
            (recording "handleSuppliers" (Some supplierProto))
            (recording "handleLinkers" None)
            (recording "handleMineralSuppliers" None)
            (recording "handleMiners" (Some haulerProto))
            (recording "handleHaulers" None)
            (recording "handleWorkers" None)
            (recording "handleUpgraders" None)
            (fun _ => ["old_worker"]) [])
     = (Some (Proto supplierProto), ["handleSuppliers"]).
Proof.
  split; [reflexivity|].
  destruct (core_domestic_priority (list string)
              (recording "handleSuppliers" (Some supplierProto))
              (recording "handleLinkers" None)
              (recording "handleMineralSuppliers" None)
              (recording "handleMiners" (Some haulerProto))
              (recording "handleHaulers" None)
              (recording "handleWorkers" None)
              (recording "handleUpgraders" None)
              (fun _ => ["old_worker"]) []) as [Hfirst _].
  exact (Hfirst supplierProto eq_refl).
Defined.

Lemma renewal_calls_createCreep_undefined_witness :
  spawnAvailable fortifyBrain = true
  /\ snd (renewalRun fortifyBrain []) = [Evaluated Core true; CreateCreep None None None].
Proof.
  split; [reflexivity|].
  exact (proj1 (renewal_calls_createCreep_undefined (list string) string
                  (recording "handleSuppliers" None)
                  (recording "handleLinkers" None)
                  (recording "handleMineralSuppliers" None)
                  (recording "handleMiners" None)
                  (recording "handleHaulers" None)
                  (recording "handleWorkers" None)
                  (recording "handleUpgraders" None)
                  (fun _ => ["old_worker"])
                  (recording "handleIncubationSpawnOperations" (Some haulerProto))
                  (recording "handleAssignedSpawnOperations" (Some haulerProto))
                  (recording "handleRemoteHaulers" (Some haulerProto))
                  recordingCreate
                  fortifyBrain []
                  "renewing (renew call is done through task_getRenewed.work)"
                  eq_refl eq_refl)).
Defined.

Lemma handleMiners_first_unmanned_witness :
  handleMiners exampleCensus supplyBrain exampleEconomy
  = Some (create supplyBrain roleMiner "src2" (B64.of_Z 3))
  /\ exists pre source post,
       room_sources exampleEconomy = (pre ++ source :: post)%list
       /\ source_ref source = "src2"
       /\ forall s, In s pre -> 1 <= exampleCensus (source_ref s) "miner".
Proof.
  split; [reflexivity|].
  destruct (handleMiners_first_unmanned exampleCensus supplyBrain exampleEconomy)
    as (_ & Hcall & _).
  destruct (Hcall (create supplyBrain roleMiner "src2" (B64.of_Z 3)) eq_refl)
    as (_ & _ & pre & source & post & Hl & Href & _ & Hpre).
  exists pre, source, post. repeat split; [exact Hl | now rewrite <- Href | exact Hpre].
Defined.

Lemma handleSuppliers_keeps_two_witness :
  controller (room supplyBrain) = Some (exampleController 4)
  /\ 1 < Z.of_nat (length (sinks (room supplyBrain)))
         + Z.of_nat (length (towers (room supplyBrain)))
  /\ handleSuppliers exampleCensus supplyBrain exampleEconomy
     = Returns (Some (create supplyBrain roleSupplier "ctrl" (B64.of_Z 1))).
Proof.
  assert (H : 1 < Z.of_nat (length (sinks (room supplyBrain)))
                  + Z.of_nat (length (towers (room supplyBrain)))) by (simpl; lia).
  split; [reflexivity|]. split; [exact H|].
  destruct (handleSuppliers_keeps_two exampleCensus supplyBrain exampleEconomy) as [_ Hc].
  destruct (Hc (exampleController 4) eq_refl) as (Hask & _ & _).
  apply Hask. split; [exact H | reflexivity].
Defined.


Lemma handleHaulers_unlinked_witness :
  handleHaulers exampleCensus examplePattern exampleCost supplyBrain exampleEconomy
  = Some (create supplyBrain roleHauler "src1"
                 (fst (calculateHaulerRequirements examplePattern exampleCost supplyBrain
                                                   exampleSource)))
  /\ exists st source,
       storage (room supplyBrain) = Some st
       /\ In source (room_sources exampleEconomy)
       /\ (source_linked (source_data source) = false \/ storage_linked st = false).
Proof.
  assert (H : handleHaulers exampleCensus examplePattern exampleCost supplyBrain
                            exampleEconomy
              = Some (create supplyBrain roleHauler "src1"
                        (fst (calculateHaulerRequirements examplePattern exampleCost
                                                          supplyBrain exampleSource))))
    by (vm_compute; reflexivity).
  split; [exact H|].
  destruct (handleHaulers_unlinked exampleCensus examplePattern exampleCost supplyBrain
                                   exampleEconomy) as [_ Hcall].
  destruct (Hcall _ H) as (st & source & Hst & Hin & Hlink & _).
  exists st, source. auto.
Defined.

Lemma worker_requirement_by_jobs_witness :
  spawn supplyBrain <> None
  /\ workerSizeOf workerPattern exampleCost supplyBrain = B64.of_Z 10
  /\ 1 <= numJobsOf exampleCaps supplyBrain <= 60
  /\ calculateWorkerRequirementsByJobs workerPattern exampleCost exampleCaps supplyBrain
     = Returns (B64.of_Z 1).
Proof.
  assert (H1 : spawn supplyBrain <> None) by discriminate.
  assert (H2 : workerSizeOf workerPattern exampleCost supplyBrain = B64.of_Z 10)
    by (vm_compute; reflexivity).
  assert (H3 : 1 <= numJobsOf exampleCaps supplyBrain <= 60) by (vm_compute; split; discriminate).
  split; [exact H1|]. split; [exact H2|]. split; [exact H3|].
  destruct (worker_requirement_by_jobs workerPattern exampleCost exampleCaps supplyBrain)
    as (_ & _ & Hjobs).
  destruct (Hjobs 10 H1 H2 H3) as [Hnormal _].
  apply Hnormal; [reflexivity | lia].
Defined.

Lemma worker_requirement_by_energy_witness :
  spawn supplyBrain <> None
  /\ workerSizeOf workerPattern exampleCost supplyBrain = B64.of_Z 10
  /\ calculateWorkerRequirementsByEnergy workerPattern exampleCost supplyBrain exampleEconomy
     = B64.of_Z 2.
Proof.
  assert (H1 : spawn supplyBrain <> None) by discriminate.
  assert (H2 : workerSizeOf workerPattern exampleCost supplyBrain = B64.of_Z 10)
    by (vm_compute; reflexivity).
  split; [exact H1|]. split; [exact H2|].
  destruct (worker_requirement_by_energy workerPattern exampleCost supplyBrain exampleEconomy)
    as [_ Hen].
  destruct (Hen 10 H1 H2 ltac:(simpl; lia)) as [Hexact _].
  apply Hexact. lia.
Defined.

Lemma handleWorkers_requests_witness :
  storage (room poorBrain) = None
  /\ workerSizeOf workerPattern exampleCost poorBrain = B64.of_Z 0
  /\ handleWorkers exampleCensus workerPattern exampleCost exampleCaps poorBrain exampleEconomy
     = Returns (Some (create poorBrain roleWorker "ctrl" (B64.of_Z 30))).
Proof.
  assert (H : workerSizeOf workerPattern exampleCost poorBrain = B64.of_Z 0)
    by (vm_compute; reflexivity).
  split; [reflexivity|]. split; [exact H|].
  destruct (handleWorkers_requests exampleCensus workerPattern exampleCost exampleCaps
                                   poorBrain exampleEconomy) as (_ & _ & Hreq).
  destruct (Hreq (exampleController 1) 0 eq_refl eq_refl ltac:(discriminate) H) as [_ Hpoor].
  apply Hpoor;
    [reflexivity | reflexivity | simpl; lia | vm_compute; split; discriminate | discriminate].
Defined.

Lemma hauler_size_saturates_witness :
  1 <= pathLengthToStorage exampleSource <= 150
  /\ 1 <= Z.of_nat (length (List.filter isCarry examplePattern)) <= 4
  /\ exists size,
       b64_to_Z (calculateHaulerSize examplePattern exampleSource) = Some size
       /\ 10 * (2 * 110) <= size * 50 * 2.
Proof.
  assert (H1 : 1 <= pathLengthToStorage exampleSource <= 150) by (simpl; lia).
  assert (H2 : 1 <= Z.of_nat (length (List.filter isCarry examplePattern)) <= 4)
    by (simpl; lia).
  split; [exact H1|]. split; [exact H2|].
  destruct (hauler_size_saturates examplePattern exampleSource H1) as [Hsize _].
  destruct (Hsize H2) as (size & Heq & Hsat & _).
  exists size. split; [exact Heq | exact Hsat].
Defined.

Lemma memory_get_or_create_witness :
  (∅ : gmap string (gmap string string)) !! "W1N1" = None
  /\ fst (memory "W1N1" ∅) = ∅.
Proof.
  assert (H : (∅ : gmap string (gmap string string)) !! "W1N1" = None)
    by apply lookup_empty.
  split; [exact H|].
  destruct (memory_get_or_create "W1N1" ∅) as (_ & _ & Hnew & _).
  exact (Hnew H).
Defined.

Lemma incubation_serves_nearest_witness :
  handleIncubationSpawnOperations exampleCensus workerPattern incubatingBrain exampleEconomy
  = Returns (Some (createRenewable incubatingBrain roleMiner "srcB" "W3N1" (B64.of_Z 3)))
  /\ exists flag flagRoom,
       In flag (room_assignedFlags exampleEconomy)
       /\ flag_room flag = Some flagRoom
       /\ flagRoom_name flagRoom = "W3N1"
       /\ forall nearer nearerRoom,
            In nearer (room_assignedFlags exampleEconomy) ->
            isIncubateFlag nearer = true ->
            flag_room nearer = Some nearerRoom ->
            pathLengthToAssignedRoomStorage nearer < pathLengthToAssignedRoomStorage flag ->
            incubateRoom exampleCensus workerPattern incubatingBrain nearerRoom = None.
Proof.
  split; [reflexivity|].
  destruct (incubation_serves_nearest exampleCensus workerPattern incubatingBrain
                                      exampleEconomy) as (_ & Hcall & _).
  destruct (Hcall _ eq_refl)
    as (_ & _ & _ & _ & flag & flagRoom & Hin & _ & Hfr & _ & Hname & Hnear).
  exists flag, flagRoom. repeat split; [exact Hin | exact Hfr | now rewrite <- Hname | exact Hnear].
Defined.

Lemma incubation_never_yields_witness :
  incubating supplyBrain = false
  /\ In nearFlag (room_assignedFlags exampleEconomy)
  /\ isIncubateFlag nearFlag = true
  /\ exists call flag flagRoom,
       handleIncubationSpawnOperations exampleCensus workerPattern supplyBrain exampleEconomy
       = Returns (Some call)
       /\ In flag (room_assignedFlags exampleEconomy)
       /\ isIncubateFlag flag = true
       /\ flag_room flag = Some flagRoom
       /\ call_workRoom call = flagRoom_name flagRoom
       /\ forall other,
            In other (room_assignedFlags exampleEconomy) -> isIncubateFlag other = true ->
            pathLengthToAssignedRoomStorage flag <= pathLengthToAssignedRoomStorage other.
Proof.
  assert (H1 : In nearFlag (room_assignedFlags exampleEconomy))
    by (simpl; auto).
  split; [reflexivity|]. split; [exact H1|]. split; [reflexivity|].
  apply (incubation_never_yields exampleCensus workerPattern supplyBrain exampleEconomy
                                 eq_refl).
  - exists nearFlag. split; [exact H1 | reflexivity].
  - intros flag flagRoom bodyLength Hin Hroom Hbody.
    simpl in Hin. destruct Hin as [<- | [<- | [<- | []]]]; simpl in Hroom;
      try discriminate; injection Hroom as <-; simpl in Hbody; simpl; intuition lia.
Defined.

Lemma assigned_flag_priority_witness :
  fst (fst (handleAssignedSpawnOperations (list string) exampleAction flagEconomy []))
  = Some haulerProto
  /\ exists pre flag post w',
       concat (map (fun code =>
                      sortBy (List.filter (fun flag => flag_filter flag code)
                                          (room_assignedFlags flagEconomy))
                             pathLengthToAssignedRoomStorage)
                   prioritizedFlagCodes)
       = (pre ++ flag :: post)%list
       /\ Skips (map (fun flag : Flag => lift (list string) (exampleAction flag)) pre) [] w'
       /\ exampleAction flag w'
          = (Some haulerProto,
             snd (fst (handleAssignedSpawnOperations (list string) exampleAction
                                                     flagEconomy []))).
Proof.
  assert (H : fst (fst (handleAssignedSpawnOperations (list string) exampleAction
                                                      flagEconomy []))
              = Some haulerProto) by reflexivity.
  split; [exact H|].
  destruct (assigned_flag_priority (list string) exampleAction flagEconomy [])
    as (_ & Hanswer & _).
  exact (Hanswer haulerProto H).
Defined.

Lemma assigned_target_needs_work_witness :
  fst (assignTask exampleCaps rangeTo fortifyBrain fortifier noTargets)
  = Some (taskFortify exampleCaps wall100)
  /\ hits wall100 < fortifyLevel fortifyBrain.
Proof.
  assert (H : fst (assignTask exampleCaps rangeTo fortifyBrain fortifier noTargets)
              = Some (taskFortify exampleCaps wall100)) by (vm_compute; reflexivity).
  split; [exact H|].
  destruct (assigned_target_needs_work exampleCaps rangeTo (fortifyRoom 4) false fortifier
                                       noTargets _ H) as (_ & _ & _ & _ & _ & Hfort & _).
  exact (proj2 (Hfort eq_refl)).
Defined.
